(** * Saunafreunde membership application: state controller, slot generator
      and persistence adapter of [src/index.tsx], embedded and verified.

    Layout: the data model and every embedded function first (one module per
    component of the source), then the lemmas and theorems.

    Conventions of the embedding.
    - A JavaScript [number] that the code uses as an integer (ids, counters,
      epoch milliseconds) is a [Z]; [null] and [undefined] are [None].
    - A [Date] is its time value, the milliseconds since the epoch, as a [Z];
      the date arithmetic is the one of ECMA-262, section 21.4.1 (module
      [JSDate]).  The host's time zone enters through two functions,
      [LocalTime] and [UTC], which the definitions take as arguments.
    - [useState] cells of the root component are the fields of [AppState]; a
      handler maps the state it closed over to the state after its setters
      ran.  The mirror writes to local storage ([apiClient.save...]) follow
      each setter with the same value and are not part of the state. *)

From stdpp Require Import base option list strings gmap.
From Stdlib Require Import ZArith Lia String Ascii DecimalString Sorted Permutation.

Open Scope string_scope.
Open Scope Z_scope.

(* ================================================================== *)
(** * Data model ([type User], [type Aufguss], [type Post], ...)        *)
(* ================================================================== *)

Inductive Permission := delete_content | create_festivals | manage_users.

Record User := mkUser {
  u_id : Z;
  u_name : string;
  u_nickname : option string;
  u_email : string;
  u_phone : option string;
  u_primarySauna : string;
  u_avatarUrl : string;
  u_qualifications : list string;
  u_awards : list string;
  u_aufgussCount : Z;
  u_workHours : Z;
  u_isAdmin : bool;
  u_permissions : list Permission;
  u_status : string;
  u_shortNoticeCancellations : Z;
  u_username : option string;
  u_showInMemberList : bool;
  u_lastProfileUpdate : option Z;
  u_lastAufgussShareTimestamp : option Z;
  u_motto : option string
}.

Record Aufguss := mkAufguss {
  a_id : string;
  a_location : string;
  a_sauna : string;
  a_date : string;
  a_time : string;
  aufgussmeisterId : option Z;
  aufgussmeisterName : option string;
  a_type : option string
}.

Inductive ParticipantStatus := attending | not_attending | pending.

Record FestivalParticipant := mkParticipant {
  fp_userId : Z;
  fp_status : ParticipantStatus;
  fp_aufgussAvailability : list string;
  fp_workHours : Z;
  fp_hoursLogged : bool;
  fp_aufgussProposals : list (string * string)
}.

Record FestivalTask := mkTask {
  ft_id : Z;
  ft_description : string;
  ft_responsible : option Z
}.

Record Festival := mkFestival {
  f_id : string;
  f_name : string;
  f_startDate : string;
  f_endDate : string;
  f_rsvpDeadline : string;
  f_location : string;
  f_numberOfSaunas : Z;
  f_aufgussTimes : list string;
  f_tasks : list FestivalTask;
  f_participants : list FestivalParticipant
}.

Record Comment := mkComment {
  c_id : Z;
  c_userId : Z;
  c_text : string
}.

Record PollOption := mkOption {
  opt_text : string;
  opt_votes : list Z
}.

Record PollData := mkPoll {
  poll_question : string;
  poll_options : list PollOption
}.

Inductive PostType := text_post | poll_post | image_post | embed_post.

Record Post := mkPost {
  p_id : Z;
  p_userId : Z;
  p_type : PostType;
  p_content : string;
  p_pollData : option PollData;
  p_imageUrl : option string;
  p_embedUrl : option string;
  p_timestamp : string;
  p_likes : list Z;
  p_comments : list Comment
}.

(** [xs.includes(x)] on a list of numbers. *)
Definition includes (x : Z) (xs : list Z) : bool := existsb (Z.eqb x) xs.

(* ================================================================== *)
(** * The [Date] object (ECMA-262, 21.4.1)                              *)
(* ================================================================== *)

Module JSDate.

Definition msPerDay : Z := 86400000.
Definition msPerHour : Z := 3600000.
Definition msPerMinute : Z := 60000.
Definition msPerSecond : Z := 1000.

(** Day number and time within the day of a time value; [/] and [mod] on
    [Z] round towards minus infinity, as [floor] and the modulo of the
    standard do. *)
Definition Day (t : Z) : Z := t / msPerDay.
Definition TimeWithinDay (t : Z) : Z := t mod msPerDay.

Definition DaysInYear (y : Z) : Z :=
  if negb (y mod 4 =? 0) then 365
  else if negb (y mod 100 =? 0) then 366
  else if negb (y mod 400 =? 0) then 365
  else 366.

Definition DayFromYear (y : Z) : Z :=
  365 * (y - 1970) + (y - 1969) / 4 - (y - 1901) / 100 + (y - 1601) / 400.

Definition TimeFromYear (y : Z) : Z := msPerDay * DayFromYear y.

(** [YearFromTime t] is the largest [y] with [TimeFromYear y <= t]: the
    mean year of 146097/400 days gives an estimate that is off by at most
    one (lemma [YearFromDay_spec] below). *)
Definition YearFromDay (d : Z) : Z :=
  let y := 1970 + (400 * d) / 146097 in
  if d <? DayFromYear y then y - 1
  else if DayFromYear (y + 1) <=? d then y + 1
  else y.

Definition YearFromTime (t : Z) : Z := YearFromDay (Day t).

Definition InLeapYear (t : Z) : Z :=
  if DaysInYear (YearFromTime t) =? 366 then 1 else 0.

Definition DayWithinYear (t : Z) : Z := Day t - DayFromYear (YearFromTime t).

(** Day within the year on which month [m] (0 = January) starts. *)
Definition monthStart (leap m : Z) : Z :=
  match m with
  | 0 => 0
  | 1 => 31
  | 2 => 59 + leap
  | 3 => 90 + leap
  | 4 => 120 + leap
  | 5 => 151 + leap
  | 6 => 181 + leap
  | 7 => 212 + leap
  | 8 => 243 + leap
  | 9 => 273 + leap
  | 10 => 304 + leap
  | _ => 334 + leap
  end.

Definition MonthFromTime (t : Z) : Z :=
  let d := DayWithinYear t in
  let leap := InLeapYear t in
  if d <? 31 then 0
  else if d <? 59 + leap then 1
  else if d <? 90 + leap then 2
  else if d <? 120 + leap then 3
  else if d <? 151 + leap then 4
  else if d <? 181 + leap then 5
  else if d <? 212 + leap then 6
  else if d <? 243 + leap then 7
  else if d <? 273 + leap then 8
  else if d <? 304 + leap then 9
  else if d <? 334 + leap then 10
  else 11.

Definition DateFromTime (t : Z) : Z :=
  DayWithinYear t - monthStart (InLeapYear t) (MonthFromTime t) + 1.

(** 1 January 1970 was a Thursday; 0 = Sunday. *)
Definition WeekDayOfDay (d : Z) : Z := (d + 4) mod 7.
Definition WeekDay (t : Z) : Z := WeekDayOfDay (Day t).

Definition MakeTime (hour min sec ms : Z) : Z :=
  hour * msPerHour + min * msPerMinute + sec * msPerSecond + ms.

Definition MakeDay (year month date : Z) : Z :=
  let ym := year + month / 12 in
  let mn := month mod 12 in
  let leap := if DaysInYear ym =? 366 then 1 else 0 in
  DayFromYear ym + monthStart leap mn + date - 1.

Definition MakeDate (day time : Z) : Z := day * msPerDay + time.

(** Decimal rendering of a non-negative integer, and zero padding. *)
Definition decimal (n : Z) : string :=
  NilZero.string_of_uint (N.to_uint (Z.to_N n)).

Fixpoint zeros (k : nat) : string :=
  match k with
  | O => EmptyString
  | S k' => "0" ++ zeros k'
  end.

Definition pad (width : nat) (n : Z) : string :=
  let s := decimal n in
  zeros (width - String.length s) ++ s.

(** [toISOString().split('T')[0]]: the UTC calendar date, [YYYY-MM-DD];
    years outside 0..9999 use the expanded form with a sign and six
    digits. *)
Definition isoYear (y : Z) : string :=
  if (0 <=? y) && (y <=? 9999) then pad 4 y
  else if y <? 0 then "-" ++ pad 6 (- y)
  else "+" ++ pad 6 y.

Definition isoDate (t : Z) : string :=
  isoYear (YearFromTime t) ++ "-" ++ pad 2 (MonthFromTime t + 1)
    ++ "-" ++ pad 2 (DateFromTime t).

Definition HourFromTime (t : Z) : Z := (t / msPerHour) mod 24.
Definition MinFromTime (t : Z) : Z := (t / msPerMinute) mod 60.
Definition SecFromTime (t : Z) : Z := (t / msPerSecond) mod 60.
Definition msFromTime (t : Z) : Z := t mod msPerSecond.

(** [toISOString()]: date and time of day in UTC. *)
Definition toISOString (t : Z) : string :=
  isoDate t ++ "T" ++ pad 2 (HourFromTime t) ++ ":" ++ pad 2 (MinFromTime t)
    ++ ":" ++ pad 2 (SecFromTime t) ++ "." ++ pad 3 (msFromTime t) ++ "Z".

(** The methods that read or write local time.  [LocalTime] maps a time
    value to local time and [UTC] maps local time back.  Time values are
    taken to lie in the range of valid dates, so [TimeClip] is the
    identity. *)
Section Host.
Variable LocalTime : Z -> Z.
Variable UTC : Z -> Z.

Definition getDay (d : Z) : Z := WeekDay (LocalTime d).
Definition getDate (d : Z) : Z := DateFromTime (LocalTime d).
Definition getFullYear (d : Z) : Z := YearFromTime (LocalTime d).

Definition setHours (d : Z) (hour min sec ms : Z) : Z :=
  let t := LocalTime d in
  UTC (MakeDate (Day t) (MakeTime hour min sec ms)).

Definition setDate (d : Z) (date : Z) : Z :=
  let t := LocalTime d in
  UTC (MakeDate (MakeDay (YearFromTime t) (MonthFromTime t) date)
                (TimeWithinDay t)).

(** [new Date(year, month, date)]: local midnight of that day; a year in
    0..99 stands for 1900 + year. *)
Definition newDateYMD (year month date : Z) : Z :=
  let yr := if (0 <=? year) && (year <=? 99) then 1900 + year else year in
  UTC (MakeDate (MakeDay yr month date) (MakeTime 0 0 0 0)).
End Host.

(** Number of the Monday-to-Sunday week that day [d] lies in (day 0 is a
    Thursday; day -3 is a Monday). *)
Definition weekOfDay (d : Z) : Z := (d + 3) / 7.

(** Days of month [m] (0 = January) of year [y]. *)
Definition DaysInMonth (y m : Z) : Z :=
  let leap := if DaysInYear y =? 366 then 1 else 0 in
  match m with
  | 1 => 28 + leap
  | 3 | 5 | 8 | 10 => 30
  | _ => 31
  end.

Definition digit (c : ascii) : option Z :=
  let n := Z.of_nat (nat_of_ascii c) - 48 in
  if (0 <=? n) && (n <=? 9) then Some n else None.

Fixpoint digits (acc : Z) (cs : list ascii) : option Z :=
  match cs with
  | [] => Some acc
  | c :: cs' =>
      match digit c with
      | Some n => digits (10 * acc + n) cs'
      | None => None
      end
  end.

(** [Date.parse] on the date-time form [YYYY-MM-DDTHH:mm], which has no
    offset and is therefore local time; a field out of range gives [NaN]
    ([None]).  Strings of another shape, which hosts treat differently, are
    [None] here. *)
Definition parseLocalDateTime (UTC : Z -> Z) (s : string) : option Z :=
  match list_ascii_of_string s with
  | [y1; y2; y3; y4; "-"; m1; m2; "-"; d1; d2; "T"; h1; h2; ":"; n1; n2]%char =>
      match digits 0 [y1; y2; y3; y4], digits 0 [m1; m2], digits 0 [d1; d2],
            digits 0 [h1; h2], digits 0 [n1; n2] with
      | Some y, Some m, Some d, Some h, Some n =>
          if (1 <=? m) && (m <=? 12) && (1 <=? d)
             && (d <=? DaysInMonth y (m - 1))
             && ((h <=? 23) || ((h =? 24) && (n =? 0))) && (n <=? 59)
          then Some (UTC (MakeDate (MakeDay y (m - 1) d) (MakeTime h n 0 0)))
          else None
      | _, _, _, _, _ => None
      end
  | _ => None
  end.

(** [Date.parse] on the date-only form [YYYY-MM-DD], which is UTC midnight
    of that day.  A day of the month that the month does not have
    ([2025-02-30]) is an invalid date here, as in the engines that reject
    it; other engines move on into the next month. *)
Definition parseDateOnly (s : string) : option Z :=
  match list_ascii_of_string s with
  | [y1; y2; y3; y4; "-"; m1; m2; "-"; d1; d2]%char =>
      match digits 0 [y1; y2; y3; y4], digits 0 [m1; m2], digits 0 [d1; d2]
      with
      | Some y, Some m, Some d =>
          if (1 <=? m) && (m <=? 12) && (1 <=? d)
             && (d <=? DaysInMonth y (m - 1))
          then Some (MakeDate (MakeDay y (m - 1) d) 0)
          else None
      | _, _, _ => None
      end
  | _ => None
  end.

(** A host whose local time is a fixed offset from UTC, in [ms]. *)
Definition fixedLocalTime (offset : Z) (t : Z) : Z := t + offset.
Definition fixedUTC (offset : Z) (t : Z) : Z := t - offset.

(** The instants used in the examples: 2025-08-31 12:00 and 2025-06-15 12:00 of a
    host two hours ahead of UTC (Central European Summer Time). *)
Definition cest : Z := 7200000.

(** A host five hours behind UTC, as Bogotá or Lima all year and Chicago in
    summer. *)
Definition utc_minus_5 : Z := -18000000.
Definition noon_2025_08_31 : Z := 1756634400000.
Definition noon_2025_06_15 : Z := 1749981600000.


(** More of the methods that read or write local time. *)
Section HostClock.
Variable LocalTime : Z -> Z.
Variable UTC : Z -> Z.

Definition getMonth (d : Z) : Z := MonthFromTime (LocalTime d).
Definition getHours (d : Z) : Z := HourFromTime (LocalTime d).
Definition getMinutes (d : Z) : Z := MinFromTime (LocalTime d).

Definition setMinutes (d : Z) (min : Z) : Z :=
  let t := LocalTime d in
  UTC (MakeDate (Day t)
         (MakeTime (HourFromTime t) min (SecFromTime t) (msFromTime t))).

(** [toTimeString().slice(0, 5)]: the local time of day, [HH:MM]. *)
Definition timeOfDay (d : Z) : string :=
  pad 2 (getHours d) ++ ":" ++ pad 2 (getMinutes d).
End HostClock.

(** [Date.parse] on the date-time form [YYYY-MM-DDTHH:mm:ss], local time
    like the form without seconds. *)
Definition parseLocalDateTimeSec (UTC : Z -> Z) (s : string) : option Z :=
  match list_ascii_of_string s with
  | [y1; y2; y3; y4; "-"; m1; m2; "-"; d1; d2; "T"; h1; h2; ":"; n1; n2;
     ":"; s1; s2]%char =>
      match digits 0 [y1; y2; y3; y4], digits 0 [m1; m2], digits 0 [d1; d2],
            digits 0 [h1; h2], digits 0 [n1; n2], digits 0 [s1; s2] with
      | Some y, Some m, Some d, Some h, Some n, Some sec =>
          if (1 <=? m) && (m <=? 12) && (1 <=? d)
             && (d <=? DaysInMonth y (m - 1))
             && ((h <=? 23) || ((h =? 24) && (n =? 0) && (sec =? 0)))
             && (n <=? 59) && (sec <=? 59)
          then Some (UTC (MakeDate (MakeDay y (m - 1) d) (MakeTime h n sec 0)))
          else None
      | _, _, _, _, _, _ => None
      end
  | _ => None
  end.

(** Reading back what [pad] wrote: the checks behind the round trip of the
    date strings. *)
Definition pad4_reads_back (y : Z) : bool :=
  match list_ascii_of_string (pad 4 y) with
  | [a; b; c; d] =>
      match digits 0 [a; b; c; d] with
      | Some y' => y' =? y
      | None => false
      end
  | _ => false
  end.

Definition pad2_reads_back (n : Z) : bool :=
  match list_ascii_of_string (pad 2 n) with
  | [a; b] =>
      match digits 0 [a; b] with
      | Some n' => n' =? n
      | None => false
      end
  | _ => false
  end.

End JSDate.

Import JSDate.

(* ================================================================== *)
(** * Date/slot generator ([getThursdayBefore], [generateInitialAufguesse]) *)
(* ================================================================== *)

Module Generator.

Definition SAUNA_LOCATIONS : list string :=
  [ "Panoramabad Freudenstadt"; "Albthermen Bad Urach";
    "Saunawelt Höchenschwand" ].

(** [SAUNA_LOCATIONS[i]] for the constant indices the source uses. *)
Definition location (i : nat) : string := nth i SAUNA_LOCATIONS EmptyString.

(** The record [LOCATION_SAUNAS], keyed by location name. *)
Definition LOCATION_SAUNAS_entries : list (string * list string) :=
  [ (location 0, ["80° Kelo Sauna"; "100° Blockhaus Sauna"]);
    (location 1, ["Mineraltherme-Sauna"]);
    (location 2, ["Natur-Sauna"; "Schwarzwald-Hütte"]) ].

Definition LOCATION_SAUNAS (loc : string) : list string :=
  match find (fun e => String.eqb (fst e) loc) LOCATION_SAUNAS_entries with
  | Some e => snd e
  | None => []
  end.

(** [for (let hour = lo; hour <= hi; hour++) times.push(`${hour}:mm`)] *)
Definition hourly (lo hi : Z) (minutes : string) : list string :=
  map (fun hour => decimal hour ++ ":" ++ minutes) (seqZ lo (hi - lo + 1)).

(** An unclaimed slot with the composite id of the source. *)
Definition freeSlot (loc sauna dateStr time : string) : Aufguss :=
  {| a_id := loc ++ "-" ++ sauna ++ "-" ++ dateStr ++ "-" ++ time;
     a_location := loc; a_sauna := sauna; a_date := dateStr; a_time := time;
     aufgussmeisterId := None; aufgussmeisterName := None; a_type := None |}.

(** [saunas.forEach(sauna => times.forEach(time => aufguesse.push(...)))] *)
Definition slotsAt (loc dateStr : string) (times : list string)
  : list Aufguss :=
  flat_map (fun sauna => map (freeSlot loc sauna dateStr) times)
           (LOCATION_SAUNAS loc).

Definition testSlot (now : Z) : Aufguss :=
  {| a_id := "test-aufguss-past";
     a_location := location 0;
     a_sauna := nth 0 (LOCATION_SAUNAS (location 0)) EmptyString;
     a_date := isoDate (now - 15 * 24 * 60 * 60 * 1000);
     a_time := "18:00";
     aufgussmeisterId := Some 2;
     aufgussmeisterName := Some "Max Mustermann";
     a_type := Some "Test Aufguss" |}.

Section Host.
Variable LocalTime : Z -> Z.
Variable UTC : Z -> Z.

Definition getThursdayBefore (startDate : Z) : Z :=
  let date := startDate in
  let date := setHours LocalTime UTC date 0 0 0 0 in
  let daysToGoBack := (getDay LocalTime date + 7 - 4) mod 7 in
  let daysToGoBack := if daysToGoBack =? 0 then 7 else daysToGoBack in
  let date := setDate LocalTime UTC date
                      (getDate LocalTime date - daysToGoBack) in
  setHours LocalTime UTC date 22 0 0 0.

(** [currentDate] of the loop body: [today] moved on by [day] days. *)
Definition currentDateOf (today day : Z) : Z :=
  setDate LocalTime UTC today (getDate LocalTime today + day).

Definition fdsTimes (dayOfWeek : Z) : list string :=
  if (2 <=? dayOfWeek) && (dayOfWeek <=? 4) then hourly 14 20 "00"
  else if (5 <=? dayOfWeek) || (dayOfWeek =? 0) then hourly 11 20 "00"
  else [].

Definition fdsSlots (today day : Z) : list Aufguss :=
  let currentDate := currentDateOf today day in
  slotsAt (location 0) (isoDate currentDate)
          (fdsTimes (getDay LocalTime currentDate)).

Definition urachSlots (today day : Z) : list Aufguss :=
  let currentDate := currentDateOf today day in
  slotsAt (location 1) (isoDate currentDate) (hourly 10 20 "30").

(** [currentDate > hoechenschwandClosureDate] *)
Definition hswOpen (currentDate : Z) : bool :=
  let hoechenschwandClosureDate :=
    newDateYMD UTC (getFullYear LocalTime currentDate) 7 31 in
  hoechenschwandClosureDate <? currentDate.

Definition hswSlots (today day : Z) : list Aufguss :=
  let currentDate := currentDateOf today day in
  if hswOpen currentDate
  then slotsAt (location 2) (isoDate currentDate) (hourly 10 20 "00")
  else [].

(** One iteration of [for (let day = 0; day < 30; day++)]. *)
Definition daySlots (today day : Z) : list Aufguss :=
  fdsSlots today day ++ urachSlots today day ++ hswSlots today day.

Definition windowSlots (today : Z) : list Aufguss :=
  flat_map (daySlots today) (seqZ 0 30).

(** [today] is the reading of [new Date()] at the start of the call and
      [now] the reading of [Date.now()] for the test slot. *)
Definition generateInitialAufguesse (today now : Z) : list Aufguss :=
  windowSlots today ++ [testSlot now].
End Host.

(** Recognisers used to state the properties of the generated set. *)
Definition isTestSlot (a : Aufguss) : bool :=
  String.eqb (a_id a) "test-aufguss-past".

Definition isLocationC (a : Aufguss) : bool :=
  String.eqb (a_location a) (location 2).

End Generator.

(* ================================================================== *)
(** * Persistence adapter ([safeJSONParse], [apiClient.loadAllData])    *)
(* ================================================================== *)

Module Persistence.

(** Values that [JSON.parse] yields, and [undefined] for a property that
    is not there. *)
#[warnings="-register-all"] Inductive Value :=
  | VUndefined
  | VNull
  | VBool (b : bool)
  | VNum (n : Z)
  | VStr (s : string)
  | VArr (items : list Value)
  | VObj (props : list (string * Value)).

(** Exceptions and the computations that may raise them. *)
Inductive Exn := SyntaxError | TypeError.

Inductive Result (A : Type) :=
  | Ok (a : A)
  | Throw (e : Exn).
Arguments Ok {A} a.
Arguments Throw {A} e.

#[export] Instance Result_ret : MRet Result := fun A a => Ok a.

#[export] Instance Result_bind : MBind Result := fun A B k m =>
  match m with
  | Ok a => k a
  | Throw e => Throw e
  end.

(** [try { body } catch (e) { handler }] *)
Definition try_catch {A} (body : Result A) (handler : Exn -> Result A)
  : Result A :=
  match body with
  | Ok a => Ok a
  | Throw e => handler e
  end.

Fixpoint mapR {A B} (f : A -> Result B) (l : list A) : Result (list B) :=
  match l with
  | [] => Ok []
  | x :: l' => y ← f x; ys ← mapR f l'; Ok (y :: ys)
  end.

(** [localStorage]: [getItem] is the lookup, [null] for an absent key. *)
Abbreviation Storage := (gmap string string).

(** Property read [v.key]; reading a property of [null] or [undefined]
    is a [TypeError]; primitives, strings and arrays have no own property
    of the names used here. *)
Fixpoint lookupProp (key : string) (props : list (string * Value)) : Value :=
  match props with
  | [] => VUndefined
  | (k, v) :: rest => if String.eqb k key then v else lookupProp key rest
  end.

Definition getProp (v : Value) (key : string) : Result Value :=
  match v with
  | VUndefined | VNull => Throw TypeError
  | VObj props => Ok (lookupProp key props)
  | _ => Ok VUndefined
  end.

(** Own enumerable properties copied by the spread [{...v}].  A string is
    spread character by character: by byte here, by UTF-16 code unit in the
    source, which is the same for ASCII text. *)
Definition indexed (items : list Value) : list (string * Value) :=
  imap (fun i x => (decimal (Z.of_nat i), x)) items.

Definition spread (v : Value) : list (string * Value) :=
  match v with
  | VObj props => props
  | VArr items => indexed items
  | VStr s =>
      indexed (map (fun c => VStr (String c EmptyString))
                   (list_ascii_of_string s))
  | _ => []
  end.

(** [{...props, key: v}]: an existing key keeps its place. *)
Fixpoint setProp (key : string) (v : Value) (props : list (string * Value))
  : list (string * Value) :=
  match props with
  | [] => [(key, v)]
  | (k, w) :: rest =>
      if String.eqb k key then (k, v) :: rest
      else (k, w) :: setProp key v rest
  end.

(** The migration of one stored user:
    [u => ({...u, status: u.status === 'pending_approval' ? 'active' : u.status})] *)
Definition migrateUser (u : Value) : Result Value :=
  status ← getProp u "status";
  let status' :=
    match status with
    | VStr s => if String.eqb s "pending_approval" then VStr "active"
                else status
    | _ => status
    end in
  Ok (VObj (setProp "status" status' (spread u))).

(** [initialUsers.map(...)]: only an array has a [map]. *)
Definition migrateUsers (initialUsers : Value) : Result Value :=
  match initialUsers with
  | VArr items => us ← mapR migrateUser items; Ok (VArr us)
  | _ => Throw TypeError
  end.

Record LoadedData := mkLoaded {
  ld_users : Value;
  ld_posts : Value;
  ld_festivals : Value;
  ld_aufguesse : Value;
  ld_awards : Value;
  ld_aufgussTypes : Value;
  ld_availableQuals : Value;
  ld_registrationCode : string;
  ld_selectedFestivalId : option string;
  ld_persistedBackgrounds : Value
  }.

(** [getItem(key) || fallback] on strings: the empty string is falsy. *)
Definition getItemOr {A} (storage : Storage) (key : string)
    (some : string -> A) (fallback : A) : A :=
  match storage !! key with
  | Some saved => if String.eqb saved EmptyString then fallback else some saved
  | None => fallback
  end.

Section Adapter.
(** [JSON.parse], which raises a [SyntaxError] on malformed text. *)
Variable JSON_parse : string -> Result Value.

(** The default datasets: [MOCK_USERS] is an array of objects; the
      others are the values of [MOCK_POSTS], [MOCK_FESTIVALS],
      [generateInitialAufguesse()], [MOCK_AWARDS], [DEFAULT_AUFGUSS_TYPES]
      and [DEFAULT_QUALIFICATIONS]. *)
Variable mockUsers : list (list (string * Value)).
Variables MOCK_POSTS MOCK_FESTIVALS generatedAufguesse MOCK_AWARDS
            DEFAULT_AUFGUSS_TYPES DEFAULT_QUALIFICATIONS : Value.

Definition MOCK_USERS : Value := VArr (map VObj mockUsers).

Definition safeJSONParse (storage : Storage) (key : string)
    (fallback : Value) : Result Value :=
  try_catch
    (match storage !! key with
     | Some saved =>
         if String.eqb saved EmptyString then Ok fallback else JSON_parse saved
     | None => Ok fallback
     end)
    (fun e => Ok fallback).

Definition defaultData : LoadedData :=
  {| ld_users := MOCK_USERS;
     ld_posts := MOCK_POSTS;
     ld_festivals := MOCK_FESTIVALS;
     ld_aufguesse := generatedAufguesse;
     ld_awards := MOCK_AWARDS;
     ld_aufgussTypes := DEFAULT_AUFGUSS_TYPES;
     ld_availableQuals := DEFAULT_QUALIFICATIONS;
     ld_registrationCode := "123456";
     ld_selectedFestivalId := None;
     ld_persistedBackgrounds := VObj [] |}.

Definition loadAllData (storage : Storage) : Result LoadedData :=
  try_catch
    (initialUsers ← safeJSONParse storage "users" MOCK_USERS;
     users ← migrateUsers initialUsers;
     posts ← safeJSONParse storage "posts" MOCK_POSTS;
     festivals ← safeJSONParse storage "festivals" MOCK_FESTIVALS;
     aufguesse ← safeJSONParse storage "aufguesse" generatedAufguesse;
     awards ← safeJSONParse storage "awards" MOCK_AWARDS;
     aufgussTypes ←
       safeJSONParse storage "aufgussTypes" DEFAULT_AUFGUSS_TYPES;
     availableQuals ←
       safeJSONParse storage "availableQuals" DEFAULT_QUALIFICATIONS;
     persistedBackgrounds ←
       safeJSONParse storage "persistedBackgrounds" (VObj []);
     Ok {| ld_users := users;
           ld_posts := posts;
           ld_festivals := festivals;
           ld_aufguesse := aufguesse;
           ld_awards := awards;
           ld_aufgussTypes := aufgussTypes;
           ld_availableQuals := availableQuals;
           ld_registrationCode :=
             getItemOr storage "registrationCode" id "123456";
           ld_selectedFestivalId :=
             getItemOr storage "selectedFestivalId" Some None;
           ld_persistedBackgrounds := persistedBackgrounds |})
    (fun error => Ok defaultData).
(** The value [safeJSONParse] settles on for a key: the parsed text when
    there is a non-empty text that parses, the fallback otherwise. *)
Definition storedOr (storage : Storage) (key : string) (fallback : Value)
    : Value :=
  match storage !! key with
  | Some saved =>
      if String.eqb saved EmptyString then fallback
      else match JSON_parse saved with
           | Ok v => v
           | Throw _ => fallback
           end
  | None => fallback
  end.

End Adapter.

(** The collections that are stored as JSON, and the field of the loaded
    data that belongs to each key. *)
Definition collectionKeys : list string :=
  [ "users"; "posts"; "festivals"; "aufguesse"; "awards"; "aufgussTypes";
    "availableQuals"; "persistedBackgrounds" ].

Definition collection (key : string) (data : LoadedData) : Value :=
  if String.eqb key "users" then ld_users data
  else if String.eqb key "posts" then ld_posts data
  else if String.eqb key "festivals" then ld_festivals data
  else if String.eqb key "aufguesse" then ld_aufguesse data
  else if String.eqb key "awards" then ld_awards data
  else if String.eqb key "aufgussTypes" then ld_aufgussTypes data
  else if String.eqb key "availableQuals" then ld_availableQuals data
  else if String.eqb key "persistedBackgrounds"
       then ld_persistedBackgrounds data
  else VUndefined.

(** A stand-in for [JSON.parse] that knows three texts, a one-user default
    dataset and a storage, for the examples. *)
Definition quote : string := String (ascii_of_nat 34) EmptyString.

Definition pendingUserText : string :=
  "[{" ++ quote ++ "status" ++ quote ++ ":" ++ quote ++ "pending_approval"
       ++ quote ++ "}]".

Definition toyParse (s : string) : Result Value :=
  if String.eqb s "[]" then Ok (VArr [])
  else if String.eqb s "null" then Ok VNull
  else if String.eqb s pendingUserText
       then Ok (VArr [VObj [("status", VStr "pending_approval")]])
  else Throw SyntaxError.

Definition toyMockUsers : list (list (string * Value)) :=
  [ [("id", VNum 1); ("status", VStr "active")] ].

Definition toyStorage : Storage :=
  <["users" := pendingUserText]>
    (<["posts" := "[]"]> (<["selectedFestivalId" := "sommerfest-2024"]> ∅)).

Definition toyLoad : Storage -> Result LoadedData :=
  loadAllData toyParse toyMockUsers (VStr "posts") (VStr "festivals")
    (VStr "aufguesse") (VStr "awards") (VStr "types") (VStr "quals").



(** The save methods of the API client: [localStorage.setItem]. *)
Definition saveRegistrationCode (storage : Storage) (code : string)
  : Storage :=
  <["registrationCode" := code]> storage.

Definition saveSelectedFestivalId (storage : Storage) (id : string)
  : Storage :=
  <["selectedFestivalId" := id]> storage.

Section Save.
(** [JSON.stringify] on the data that is saved. *)
Variable JSON_stringify : Value -> string.

Definition saveData (storage : Storage) (key : string) (data : Value)
  : Storage :=
  <[key := JSON_stringify data]> storage.
End Save.

(** A stand-in for [JSON.stringify] for the examples. *)
Definition toyStringify (v : Value) : string :=
  match v with
  | VArr [] => "[]"
  | VNull => "null"
  | _ => "?"
  end.

End Persistence.

(* ================================================================== *)
(** * Application state controller (the handlers of [App])             *)
(* ================================================================== *)

Module Controller.

Import Generator.

(** The state cells that the embedded handlers read or write. *)

Record AppState := mkState {
  users : list User;
  posts : list Post;
  festivals : list Festival;
  aufguesse : list Aufguss;
  currentUser : option User;
  selectedFestivalId : string;
  availableQuals : list string
}.

(** Functional updates [{ ...x, field: v }]. *)
Definition withQualifications (u : User) (qs : list string) : User :=
  mkUser (u_id u) (u_name u) (u_nickname u) (u_email u) (u_phone u)
    (u_primarySauna u) (u_avatarUrl u) qs (u_awards u) (u_aufgussCount u)
    (u_workHours u) (u_isAdmin u) (u_permissions u) (u_status u)
    (u_shortNoticeCancellations u) (u_username u) (u_showInMemberList u)
    (u_lastProfileUpdate u) (u_lastAufgussShareTimestamp u) (u_motto u).

Definition withCounts (u : User) (count cancellations : Z) : User :=
  mkUser (u_id u) (u_name u) (u_nickname u) (u_email u) (u_phone u)
    (u_primarySauna u) (u_avatarUrl u) (u_qualifications u) (u_awards u)
    count (u_workHours u) (u_isAdmin u) (u_permissions u) (u_status u)
    cancellations (u_username u) (u_showInMemberList u)
    (u_lastProfileUpdate u) (u_lastAufgussShareTimestamp u) (u_motto u).

Definition withAufgussCount (u : User) (count : Z) : User :=
  withCounts u count (u_shortNoticeCancellations u).

Definition withOwner (a : Aufguss) (meisterId : option Z)
    (meisterName type : option string) : Aufguss :=
  mkAufguss (a_id a) (a_location a) (a_sauna a) (a_date a) (a_time a)
    meisterId meisterName type.

Definition withLikes (p : Post) (likes : list Z) : Post :=
  mkPost (p_id p) (p_userId p) (p_type p) (p_content p) (p_pollData p)
    (p_imageUrl p) (p_embedUrl p) (p_timestamp p) likes (p_comments p).

Definition withPollData (p : Post) (pd : PollData) : Post :=
  mkPost (p_id p) (p_userId p) (p_type p) (p_content p) (Some pd)
    (p_imageUrl p) (p_embedUrl p) (p_timestamp p) (p_likes p) (p_comments p).

Definition withVotes (opt : PollOption) (votes : list Z) : PollOption :=
  mkOption (opt_text opt) votes.

Definition withOptions (pd : PollData) (opts : list PollOption) : PollData :=
  mkPoll (poll_question pd) opts.

(** State updates [setUsers], [setPosts], ... *)
Definition setUsers (st : AppState) (us : list User) : AppState :=
  mkState us (posts st) (festivals st) (aufguesse st) (currentUser st)
    (selectedFestivalId st) (availableQuals st).

Definition setPosts (st : AppState) (ps : list Post) : AppState :=
  mkState (users st) ps (festivals st) (aufguesse st) (currentUser st)
    (selectedFestivalId st) (availableQuals st).

Definition setFestivals (st : AppState) (fs : list Festival) : AppState :=
  mkState (users st) (posts st) fs (aufguesse st) (currentUser st)
    (selectedFestivalId st) (availableQuals st).

Definition setAufguesse (st : AppState) (sl : list Aufguss) : AppState :=
  mkState (users st) (posts st) (festivals st) sl (currentUser st)
    (selectedFestivalId st) (availableQuals st).

Definition setCurrentUser (st : AppState) (u : option User) : AppState :=
  mkState (users st) (posts st) (festivals st) (aufguesse st) u
    (selectedFestivalId st) (availableQuals st).

Definition setSelectedFestivalId (st : AppState) (i : string) : AppState :=
  mkState (users st) (posts st) (festivals st) (aufguesse st) (currentUser st)
    i (availableQuals st).

Definition setAvailableQuals (st : AppState) (qs : list string) : AppState :=
  mkState (users st) (posts st) (festivals st) (aufguesse st) (currentUser st)
    (selectedFestivalId st) qs.

(** [x !== y] on strings. *)
Definition strNe (x y : string) : bool := negb (String.eqb x y).

Definition handleDeleteQual (st : AppState) (qualToDelete : string)
    : AppState :=
  let newAvailableQuals :=
    List.filter (fun q => strNe q qualToDelete) (availableQuals st) in
  let st := setAvailableQuals st newAvailableQuals in
  let newUsers :=
    map (fun u =>
           withQualifications u
             (List.filter (fun q => strNe q qualToDelete)
                          (u_qualifications u)))
        (users st) in
  setUsers st newUsers.

(** In the handlers below [cu] is [currentUser!], the logged-in user that
    the non-null assertion of the source presumes. *)
Definition toggleLike (cu : User) (p : Post) : Post :=
  let liked := includes (u_id cu) (p_likes p) in
  let newLikes :=
    if liked then List.filter (fun i => negb (i =? u_id cu)) (p_likes p)
    else (p_likes p ++ [u_id cu])%list in
  withLikes p newLikes.

Definition handleLikePost (cu : User) (st : AppState) (postId : Z)
    : AppState :=
  let newPosts :=
    map (fun p => if p_id p =? postId then toggleLike cu p else p)
        (posts st) in
  setPosts st newPosts.

Definition isPoll (t : PostType) : bool :=
  match t with
  | poll_post => true
  | _ => false
  end.

(** The body of [onVote] for a post that passed
    [p.id === postId && p.type === 'poll' && p.pollData]. *)
Definition votePoll (cu : User) (optionIndex : Z) (p : Post) (pd : PollData)
    : Post :=
  if existsb (fun opt => includes (u_id cu) (opt_votes opt)) (poll_options pd)
  then p
  else
    let newOptions :=
      imap (fun index opt =>
              if Z.of_nat index =? optionIndex
              then withVotes opt (opt_votes opt ++ [u_id cu])%list
              else opt)
           (poll_options pd) in
    withPollData p (withOptions pd newOptions).

Definition voteOn (cu : User) (postId optionIndex : Z) (p : Post) : Post :=
  if (p_id p =? postId) && isPoll (p_type p)
  then match p_pollData p with
       | Some pd => votePoll cu optionIndex p pd
       | None => p
       end
  else p.

Definition onVote (cu : User) (st : AppState) (postId optionIndex : Z)
    : AppState :=
  setPosts st (map (voteOn cu postId optionIndex) (posts st)).

Definition handleClaimAufguss (cu : User) (st : AppState)
    (aufgussId type : string) : AppState :=
  let newAufguesse :=
    map (fun a =>
           if String.eqb (a_id a) aufgussId
           then withOwner a (Some (u_id cu)) (Some (u_name cu)) (Some type)
           else a)
        (aufguesse st) in
  let st := setAufguesse st newAufguesse in
  let newUsers :=
    map (fun u =>
           if u_id u =? u_id cu
           then withAufgussCount u (u_aufgussCount u + 1)
           else u)
        (users st) in
  let st := setUsers st newUsers in
  setCurrentUser st (List.find (fun u => u_id u =? u_id cu) newUsers).

(** [!a.aufgussmeisterId]: [null] and [0] are falsy. *)
Definition truthyId (i : option Z) : option Z :=
  match i with
  | Some n => if n =? 0 then None else Some n
  | None => None
  end.

Section Cancel.
(** [new Date(s).getTime()], with [None] for [NaN]. *)
Variable dateTimeValue : string -> option Z.

(** [(aufgussDateTime - now) < 24 * 60 * 60 * 1000]; a comparison with
    [NaN] is false. *)
Definition isShortNotice (a : Aufguss) (now : Z) : bool :=
  match dateTimeValue (a_date a ++ "T" ++ a_time a) with
  | Some aufgussDateTime => aufgussDateTime - now <? 24 * 60 * 60 * 1000
  | None => false
  end.

Definition cancelFor (shortNotice : bool) (meisterId : Z) (u : User) : User :=
  if u_id u =? meisterId
  then
    let newCount :=
      if 0 <? u_aufgussCount u then u_aufgussCount u - 1 else 0 in
    let newCancellations :=
      if shortNotice then u_shortNoticeCancellations u + 1
      else u_shortNoticeCancellations u in
    withCounts u newCount newCancellations
  else u.

(** [confirmed] is the answer of [window.confirm] and [now] the reading of
    [Date.now()]. *)
Definition handleCancelAufguss (confirmed : bool) (now : Z) (cu : User)
    (st : AppState) (aufgussId : string) : AppState :=
  match List.find (fun a => String.eqb (a_id a) aufgussId) (aufguesse st) with
  | None => st
  | Some aufgussToCancel =>
      match truthyId (aufgussmeisterId aufgussToCancel) with
      | None => st
      | Some meisterId =>
          if confirmed then
            let shortNotice := isShortNotice aufgussToCancel now in
            let newAufguesse :=
              map (fun a =>
                     if String.eqb (a_id a) aufgussId
                     then withOwner a None None None
                     else a)
                  (aufguesse st) in
            let st := setAufguesse st newAufguesse in
            let newUsers := map (cancelFor shortNotice meisterId) (users st) in
            let st := setUsers st newUsers in
            setCurrentUser st
              (List.find (fun u => u_id u =? u_id cu) newUsers)
          else st
      end
  end.
End Cancel.

(** [confirmed] is the answer of [window.confirm]. *)
Definition onDeleteFestival (confirmed : bool) (st : AppState)
    (festivalId : string) : AppState :=
  if confirmed then
    let newFestivals :=
      List.filter (fun f => strNe (f_id f) festivalId) (festivals st) in
    let st' := setFestivals st newFestivals in
    if String.eqb (selectedFestivalId st) festivalId then
      let newId :=
        match newFestivals with
        | f :: _ => f_id f
        | [] => EmptyString
        end in
      setSelectedFestivalId st' newId
    else st'
  else st.

(** The form data of a new festival:
    [Omit<Festival, 'id' | 'participants' | 'tasks' | 'rsvpDeadline'>]. *)
Record FestivalData := mkFestivalData {
  fd_name : string;
  fd_startDate : string;
  fd_endDate : string;
  fd_location : string;
  fd_numberOfSaunas : Z;
  fd_aufgussTimes : list string
}.

Definition pendingParticipant (u : User) : FestivalParticipant :=
  {| fp_userId := u_id u; fp_status := pending; fp_aufgussAvailability := [];
     fp_workHours := 0; fp_hoursLogged := false; fp_aufgussProposals := [] |}.

Section Create.
Variable LocalTime : Z -> Z.
Variable UTC : Z -> Z.
(** [new Date(s)], with [None] for an invalid date. *)
Variable dateValue : string -> option Z.

(** [now] is the reading of [Date.now()].  On an invalid start date
    [toISOString] raises a [RangeError] before any setter runs ([None]). *)
Definition handleCreateFestival (now : Z) (st : AppState)
    (festivalData : FestivalData) : option AppState :=
  match dateValue (fd_startDate festivalData) with
  | None => None
  | Some startDate =>
      let newFestival :=
        {| f_id := "fest-" ++ decimal now;
           f_name := fd_name festivalData;
           f_startDate := fd_startDate festivalData;
           f_endDate := fd_endDate festivalData;
           f_rsvpDeadline :=
             toISOString (getThursdayBefore LocalTime UTC startDate);
           f_location := fd_location festivalData;
           f_numberOfSaunas := fd_numberOfSaunas festivalData;
           f_aufgussTimes := fd_aufgussTimes festivalData;
           f_tasks := [];
           f_participants := map pendingParticipant (users st) |} in
      let newFestivals := (festivals st ++ [newFestival])%list in
      let st := setFestivals st newFestivals in
      Some (setSelectedFestivalId st (f_id newFestival))
  end.
End Create.

(** A vote request: who votes, on which post, for which option. *)
Record VoteOp := mkVote {
  vo_user : User;
  vo_postId : Z;
  vo_optionIndex : Z
}.

Definition runVotes (st : AppState) (ops : list VoteOp) : AppState :=
  fold_left (fun s op => onVote (vo_user op) s (vo_postId op)
                                (vo_optionIndex op))
            ops st.

(** Number of votes of user [uid] over all options of a poll. *)
Definition userVotes (uid : Z) (pd : PollData) : nat :=
  list_sum
    (map (fun opt =>
            List.length (List.filter (fun v => v =? uid) (opt_votes opt)))
         (poll_options pd)).

(** [u'] agrees with [u] on every field other than the qualifications. *)
Definition sameButQualifications (u u' : User) : Prop :=
  u_id u' = u_id u /\ u_name u' = u_name u /\
  u_nickname u' = u_nickname u /\ u_email u' = u_email u /\
  u_phone u' = u_phone u /\ u_primarySauna u' = u_primarySauna u /\
  u_avatarUrl u' = u_avatarUrl u /\ u_awards u' = u_awards u /\
  u_aufgussCount u' = u_aufgussCount u /\ u_workHours u' = u_workHours u /\
  u_isAdmin u' = u_isAdmin u /\ u_permissions u' = u_permissions u /\
  u_status u' = u_status u /\
  u_shortNoticeCancellations u' = u_shortNoticeCancellations u /\
  u_username u' = u_username u /\
  u_showInMemberList u' = u_showInMemberList u /\
  u_lastProfileUpdate u' = u_lastProfileUpdate u /\
  u_lastAufgussShareTimestamp u' = u_lastAufgussShareTimestamp u /\
  u_motto u' = u_motto u.

Definition votesIn (uid : Z) (opt : PollOption) : nat :=
  List.length (List.filter (fun v => v =? uid) (opt_votes opt)).

Definition hasVoted (uid : Z) (pd : PollData) : bool :=
  existsb (fun opt => includes uid (opt_votes opt)) (poll_options pd).

(** Every poll post gives every user at most one vote over its options. *)
Definition atMostOneVote (ps : list Post) : Prop :=
  forall p pd uid,
    In p ps -> p_type p = poll_post -> p_pollData p = Some pd ->
    (userVotes uid pd <= 1)%nat.

(** The option list after a vote of [uid] for option [optionIndex], the
    options being numbered from [base]. *)
Definition addVote (uid optionIndex : Z) (base : nat) (opts : list PollOption)
    : list PollOption :=
  imap (fun index opt =>
          if Z.of_nat (base + index) =? optionIndex
          then withVotes opt (opt_votes opt ++ [uid])%list
          else opt)
       opts.

(** A small state for the examples: two users of the default dataset and
    two slots of 31 August 2025, the first one claimed by user 2. *)
Definition sampleUser (i : Z) (name username : string) (count : Z) : User :=
  {| u_id := i; u_name := name; u_nickname := None;
     u_email := username ++ "@example.com"; u_phone := None;
     u_primarySauna := "Albthermen Bad Urach"; u_avatarUrl := EmptyString;
     u_qualifications := ["Saunameister Basic"; "Ersthelfer"];
     u_awards := []; u_aufgussCount := count; u_workHours := 0;
     u_isAdmin := false; u_permissions := []; u_status := "active";
     u_shortNoticeCancellations := 0; u_username := Some username;
     u_showInMemberList := true; u_lastProfileUpdate := Some 0;
     u_lastAufgussShareTimestamp := Some 0; u_motto := None |}.

Definition sampleMax : User := sampleUser 2 "Max Mustermann" "max" 12.
Definition sampleAnna : User := sampleUser 3 "Anna Schmidt" "anna" 0.

Definition sampleSlot1 : Aufguss :=
  {| a_id := "slot-1"; a_location := "Albthermen Bad Urach";
     a_sauna := "Mineraltherme-Sauna"; a_date := "2025-08-31";
     a_time := "14:30"; aufgussmeisterId := Some 2;
     aufgussmeisterName := Some "Max Mustermann";
     a_type := Some "Räucherritual" |}.

Definition sampleSlot2 : Aufguss :=
  {| a_id := "slot-2"; a_location := "Albthermen Bad Urach";
     a_sauna := "Mineraltherme-Sauna"; a_date := "2025-08-31";
     a_time := "15:30"; aufgussmeisterId := None;
     aufgussmeisterName := None; a_type := None |}.

Definition sampleState : AppState :=
  {| users := [sampleMax; sampleAnna]; posts := []; festivals := [];
     aufguesse := [sampleSlot1; sampleSlot2]; currentUser := Some sampleAnna;
     selectedFestivalId := EmptyString;
     availableQuals := ["Saunameister Basic"; "Ersthelfer"] |}.

Definition sampleTextPost : Post :=
  {| p_id := 1; p_userId := 2; p_type := text_post;
     p_content := "Freue mich schon auf das Sommer-Saunafest!";
     p_pollData := None; p_imageUrl := None; p_embedUrl := None;
     p_timestamp := "Vor 2 Stunden"; p_likes := [1]; p_comments := [] |}.

Definition samplePollPost : Post :=
  {| p_id := 3; p_userId := 1; p_type := poll_post;
     p_content := "Welcher neue Aufguss-Duft?";
     p_pollData :=
       Some {| poll_question := "Welcher neue Aufguss-Duft?";
               poll_options :=
                 [ mkOption "Zirbe-Latschenkiefer" [2];
                   mkOption "Orange-Ingwer" [];
                   mkOption "Sandelholz-Vanille" [1] ] |};
     p_imageUrl := None; p_embedUrl := None;
     p_timestamp := "Vor 3 Tagen"; p_likes := [2]; p_comments := [] |}.

Definition feedState : AppState :=
  {| users := [sampleMax; sampleAnna];
     posts := [sampleTextPost; samplePollPost]; festivals := [];
     aufguesse := []; currentUser := Some sampleAnna;
     selectedFestivalId := EmptyString; availableQuals := [] |}.

Definition sampleFestival (i name : string) : Festival :=
  {| f_id := i; f_name := name; f_startDate := "2025-09-10";
     f_endDate := "2025-09-12"; f_rsvpDeadline := "2025-09-04T20:00:00.000Z";
     f_location := "Panoramabad Freudenstadt"; f_numberOfSaunas := 2;
     f_aufgussTimes := ["10:00"; "11:00"]; f_tasks := [];
     f_participants := [] |}.

(** The form data of a festival that starts on Friday, 13 June 2025. *)
Definition fridayFestivalData : FestivalData :=
  {| fd_name := "Mittsommerfest"; fd_startDate := "2025-06-13";
     fd_endDate := "2025-06-15"; fd_location := "Panoramabad Freudenstadt";
     fd_numberOfSaunas := 2; fd_aufgussTimes := ["10:00"; "11:00"] |}.

Definition festivalState : AppState :=
  {| users := []; posts := [];
     festivals := [ sampleFestival "sommerfest-2024" "Sommer-Saunafest 2024";
                    sampleFestival "fest-1756634400000" "Herbstfest" ];
     aufguesse := []; currentUser := None;
     selectedFestivalId := "sommerfest-2024"; availableQuals := [] |}.

(** The scenario of the specification: user 3 claims the free slot of 31
    August 2025, 15:30, and cancels it at 13:30, two hours before. *)
Definition claimedState : AppState :=
  handleClaimAufguss sampleAnna sampleState "slot-2" "Kräutersud".

Definition claimedSlot2 : Aufguss :=
  withOwner sampleSlot2 (Some 3) (Some "Anna Schmidt") (Some "Kräutersud").


End Controller.

(* ================================================================== *)
(** * Further handlers of [App]: accounts, feed, admin lists, festivals *)
(* ================================================================== *)

Module Handlers.

Import Controller.

(** ** Login and registration *)

(** [u.username === username]; a user without a username never matches. *)
Definition usernameIs (username : string) (u : User) : bool :=
  match u_username u with
  | Some n => String.eqb n username
  | None => false
  end.

(** The outcome of [handleLogin]: the state after [setCurrentUser(user)]
    and [setAppStage('loggedIn')], or the alert. *)
Inductive LoginResult :=
| LoggedIn (st : AppState)
| LoginAlert.

Definition handleLogin (st : AppState) (username password : string)
    : LoginResult :=
  match List.find (usernameIs username) (users st) with
  | Some user => LoggedIn (setCurrentUser st (Some user))
  | None => LoginAlert
  end.

(** The form data of the profile set-up: the fields of [User] that
    [handleCompleteRegistration] does not fill in itself. *)
Record NewUserData := mkNewUserData {
  nu_name : string;
  nu_nickname : option string;
  nu_email : string;
  nu_phone : option string;
  nu_primarySauna : string;
  nu_username : option string;
  nu_motto : option string
}.

Definition withParticipants (f : Festival) (ps : list FestivalParticipant)
    : Festival :=
  mkFestival (f_id f) (f_name f) (f_startDate f) (f_endDate f)
    (f_rsvpDeadline f) (f_location f) (f_numberOfSaunas f) (f_aufgussTimes f)
    (f_tasks f) ps.

Definition withTasks (f : Festival) (ts : list FestivalTask) : Festival :=
  mkFestival (f_id f) (f_name f) (f_startDate f) (f_endDate f)
    (f_rsvpDeadline f) (f_location f) (f_numberOfSaunas f) (f_aufgussTimes f)
    ts (f_participants f).

(** [idNow] and [updateNow] are the two readings of [Date.now()] and
    [avatar] is the entry of [EMOJI_AVATARS] that the random index picks. *)
Definition registeredUser (idNow updateNow : Z) (avatar : string)
    (newUserData : NewUserData) : User :=
  {| u_id := idNow;
     u_name := nu_name newUserData;
     u_nickname := nu_nickname newUserData;
     u_email := nu_email newUserData;
     u_phone := nu_phone newUserData;
     u_primarySauna := nu_primarySauna newUserData;
     u_avatarUrl := avatar;
     u_qualifications := [];
     u_awards := [];
     u_aufgussCount := 0;
     u_workHours := 0;
     u_isAdmin := false;
     u_permissions := [];
     u_status := "active";
     u_shortNoticeCancellations := 0;
     u_username := nu_username newUserData;
     u_showInMemberList := true;
     u_lastProfileUpdate := Some updateNow;
     u_lastAufgussShareTimestamp := Some 0;
     u_motto := nu_motto newUserData |}.

Definition hasParticipant (userId : Z) (f : Festival) : bool :=
  existsb (fun p => fp_userId p =? userId) (f_participants f).

Definition handleCompleteRegistration (idNow updateNow : Z) (avatar : string)
    (st : AppState) (newUserData : NewUserData) : AppState :=
  let newUser := registeredUser idNow updateNow avatar newUserData in
  let newFestivals :=
    map (fun festival =>
           if hasParticipant (u_id newUser) festival then festival
           else
             let newParticipant := pendingParticipant newUser in
             withParticipants festival
               (f_participants festival ++ [newParticipant])%list)
        (festivals st) in
  let st := setFestivals st newFestivals in
  let newUsers := (users st ++ [newUser])%list in
  let st := setUsers st newUsers in
  setCurrentUser st (Some newUser).

(** ** User management *)




Definition handleDeleteUser (confirmed : bool) (st : AppState) (userId : Z)
    : AppState :=
  if confirmed
  then setUsers st (List.filter (fun u => negb (u_id u =? userId)) (users st))
  else st.

Definition handleSaveQuals (st : AppState) (userId : Z) (quals : list string)
    : AppState :=
  setUsers st
    (map (fun u => if u_id u =? userId then withQualifications u quals else u)
         (users st)).

Definition handleAddQual (st : AppState) (qual : string) : AppState :=
  setAvailableQuals st (availableQuals st ++ [qual])%list.

(** ** The profile page: the 30-day lock and saving *)





Section ProfileSave.
(** [s.trim()], the host's trimming of white space. *)
Variable trim : string -> string.

End ProfileSave.

(** ** Social feed *)

(** The data of a new post:
    [Omit<Post, 'id' | 'userId' | 'timestamp' | 'likes' | 'comments'>]. *)
Record PostData := mkPostData {
  pd_type : PostType;
  pd_content : string;
  pd_pollData : option PollData;
  pd_imageUrl : option string;
  pd_embedUrl : option string
}.

Definition withComments (p : Post) (cs : list Comment) : Post :=
  mkPost (p_id p) (p_userId p) (p_type p) (p_content p) (p_pollData p)
    (p_imageUrl p) (p_embedUrl p) (p_timestamp p) (p_likes p) cs.

(** [now] is the reading of [Date.now()]. *)
Definition handleAddPost (now : Z) (cu : User) (st : AppState)
    (postData : PostData) : AppState :=
  let newPost :=
    {| p_id := now; p_userId := u_id cu; p_type := pd_type postData;
       p_content := pd_content postData; p_pollData := pd_pollData postData;
       p_imageUrl := pd_imageUrl postData; p_embedUrl := pd_embedUrl postData;
       p_timestamp := "gerade eben"; p_likes := []; p_comments := [] |} in
  setPosts st (newPost :: posts st).

Definition handleAddComment (now : Z) (cu : User) (st : AppState)
    (postId : Z) (text : string) : AppState :=
  let newPosts :=
    map (fun p =>
           if p_id p =? postId
           then
             let newComment :=
               {| c_id := now; c_userId := u_id cu; c_text := text |} in
             withComments p (p_comments p ++ [newComment])%list
           else p)
        (posts st) in
  setPosts st newPosts.

Definition onDeletePost (confirmed : bool) (st : AppState) (postId : Z)
    : AppState :=
  if confirmed
  then setPosts st (List.filter (fun p => negb (p_id p =? postId)) (posts st))
  else st.

Definition onDeleteComment (st : AppState) (postId commentId : Z)
    : AppState :=
  let newPosts :=
    map (fun p =>
           if p_id p =? postId
           then withComments p
                  (List.filter (fun c => negb (c_id c =? commentId))
                               (p_comments p))
           else p)
        (posts st) in
  setPosts st newPosts.

(** The poll that [handlePostSubmit] of the feed hands to [onAddPost]:
    question and option texts (already trimmed), no votes yet. *)
Definition newPollData (question : string) (optionTexts : list string)
    : PostData :=
  {| pd_type := poll_post; pd_content := question;
     pd_pollData :=
       Some {| poll_question := question;
               poll_options :=
                 map (fun opt => {| opt_text := opt; opt_votes := [] |})
                     optionTexts |};
     pd_imageUrl := None; pd_embedUrl := None |}.

(** ** Sharing a slot, and the 24-hour lock *)

Definition withShareTimestamp (u : User) (ts : Z) : User :=
  mkUser (u_id u) (u_name u) (u_nickname u) (u_email u) (u_phone u)
    (u_primarySauna u) (u_avatarUrl u) (u_qualifications u) (u_awards u)
    (u_aufgussCount u) (u_workHours u) (u_isAdmin u) (u_permissions u)
    (u_status u) (u_shortNoticeCancellations u) (u_username u)
    (u_showInMemberList u) (u_lastProfileUpdate u) (Some ts) (u_motto u).

(** The double-quote character. *)
Definition dquote : string := String (ascii_of_nat 34) EmptyString.

(** [`${aufguss.type}`]: [null] is rendered as the word. *)
Definition showNullable (s : option string) : string :=
  match s with
  | Some x => x
  | None => "null"
  end.

Section Share.
(** [new Date(date).toLocaleDateString('de-DE', {weekday, day, month})] *)
Variable localeDate : string -> string.

Definition sharePostContent (aufguss : Aufguss) : string :=
  "Ich übernehme den Aufguss am " ++ localeDate (a_date aufguss) ++ " um "
    ++ a_time aufguss ++ " Uhr in der " ++ a_sauna aufguss ++ " ("
    ++ a_location aufguss ++ ")! Es wird ein " ++ dquote
    ++ showNullable (a_type aufguss) ++ dquote
    ++ " geben. Ich freue mich auf euch! 🔥".

(** [postNow] and [now] are the readings of [Date.now()] in
    [handleAddPost] and in [handleShareAufguss] itself. *)
Definition handleShareAufguss (postNow now : Z) (cu : User) (st : AppState)
    (aufguss : Aufguss) : AppState :=
  let postContent := sharePostContent aufguss in
  let st' :=
    handleAddPost postNow cu st
      {| pd_type := text_post; pd_content := postContent;
         pd_pollData := None; pd_imageUrl := None; pd_embedUrl := None |} in
  let newUsers :=
    map (fun u => if u_id u =? u_id cu then withShareTimestamp u now else u)
        (users st) in
  let st' := setUsers st' newUsers in
  setCurrentUser st' (List.find (fun u => u_id u =? u_id cu) newUsers).
End Share.

(** [canShare] of the planner, at the reading [now] of [Date.now()]:
    [!ts || now - ts > 24h]; a missing timestamp and 0 are falsy. *)
Definition canShare (now : Z) (user : User) : bool :=
  match u_lastAufgussShareTimestamp user with
  | None => true
  | Some ts => (ts =? 0) || (24 * 60 * 60 * 1000 <? now - ts)
  end.

(** ** Aufguss types ([handleManageAufgussTypes]), on the [aufgussTypes]
    cell *)

Definition onAddType (aufgussTypes : list string) (type : string)
    : list string :=
  (aufgussTypes ++ [type])%list.

Definition onDeleteType (aufgussTypes : list string) (type : string)
    : list string :=
  List.filter (fun t => strNe t type) aufgussTypes.

Definition onRenameType (aufgussTypes : list string) (oldType newType : string)
    : list string :=
  map (fun t => if String.eqb t oldType then newType else t) aufgussTypes.

(** ** Festivals *)

Definition handleSelectFestival (st : AppState) (i : string) : AppState :=
  setSelectedFestivalId st i.

Definition handleUpdateFestival (st : AppState) (updatedFestival : Festival)
    : AppState :=
  setFestivals st
    (map (fun f => if String.eqb (f_id f) (f_id updatedFestival)
                   then updatedFestival else f)
         (festivals st)).

Definition withHours (p : FestivalParticipant) (hours : Z)
    : FestivalParticipant :=
  mkParticipant (fp_userId p) (fp_status p) (fp_aufgussAvailability p) hours
    true (fp_aufgussProposals p).

Definition withWorkHours (u : User) (hours : Z) : User :=
  mkUser (u_id u) (u_name u) (u_nickname u) (u_email u) (u_phone u)
    (u_primarySauna u) (u_avatarUrl u) (u_qualifications u) (u_awards u)
    (u_aufgussCount u) hours (u_isAdmin u) (u_permissions u)
    (u_status u) (u_shortNoticeCancellations u) (u_username u)
    (u_showInMemberList u) (u_lastProfileUpdate u)
    (u_lastAufgussShareTimestamp u) (u_motto u).

(** [if (!currentUser) return], then both updates. *)
Definition handleLogHours (st : AppState) (festivalId : string) (hours : Z)
    : AppState :=
  match currentUser st with
  | None => st
  | Some cu =>
      let newFestivals :=
        map (fun f =>
               if String.eqb (f_id f) festivalId
               then
                 let updatedParticipants :=
                   map (fun p => if fp_userId p =? u_id cu
                                 then withHours p hours else p)
                       (f_participants f) in
                 withParticipants f updatedParticipants
               else f)
            (festivals st) in
      let st := setFestivals st newFestivals in
      let newUsers :=
        map (fun u => if u_id u =? u_id cu
                      then withWorkHours u (u_workHours u + hours) else u)
            (users st) in
      setUsers st newUsers
  end.

(** The saved selection as the initial-load effect of [App] resolves it:
    the saved id when it names a loaded festival, else the first festival,
    else the empty string. *)
Definition initialSelection (loaded : list Festival) (savedId : option string)
    : string :=
  match loaded with
  | [] => EmptyString
  | first :: _ =>
      match savedId with
      | Some saved =>
          if negb (String.eqb saved EmptyString)
             && existsb (fun f => String.eqb (f_id f) saved) loaded
          then saved
          else f_id first
      | None => f_id first
      end
  end.


(** A registration form for the examples. *)
Definition sampleNewUser : NewUserData :=
  {| nu_name := "Eva Beispiel"; nu_nickname := Some EmptyString;
     nu_email := "eva@example.com"; nu_phone := Some EmptyString;
     nu_primarySauna := "Panoramabad Freudenstadt";
     nu_username := Some "eva"; nu_motto := Some EmptyString |}.

(** ** Invariants of the festival data *)

Definition participantIds (f : Festival) : list Z :=
  map fp_userId (f_participants f).

(** User ids are unique, and every festival has a participant record for
    every user and no two records for one user id. *)
Definition rosterOk (st : AppState) : Prop :=
  List.NoDup (map u_id (users st)) /\
  forall f, In f (festivals st) ->
    List.NoDup (participantIds f) /\
    forall u, In u (users st) -> In (u_id u) (participantIds f).

(** The selection names one of the festivals, or is empty when there is no
    festival. *)
Definition selectionOk (st : AppState) : Prop :=
  match festivals st with
  | [] => selectedFestivalId st = EmptyString
  | _ :: _ => In (selectedFestivalId st) (map f_id (festivals st))
  end.

End Handlers.

(* ================================================================== *)
(** * The festival planner view: RSVP, availability, tasks             *)
(* ================================================================== *)

Module FestivalPlanner.

Import Controller.
Import Handlers.

Definition withStatus (p : FestivalParticipant) (status : ParticipantStatus)
    : FestivalParticipant :=
  mkParticipant (fp_userId p) status (fp_aufgussAvailability p)
    (fp_workHours p) (fp_hoursLogged p) (fp_aufgussProposals p).

Definition withAvailability (p : FestivalParticipant) (av : list string)
    : FestivalParticipant :=
  mkParticipant (fp_userId p) (fp_status p) av (fp_workHours p)
    (fp_hoursLogged p) (fp_aufgussProposals p).

Definition withResponsible (t : FestivalTask) (r : option Z) : FestivalTask :=
  mkTask (ft_id t) (ft_description t) r.

(** [festivals.find(f => f.id === selectedFestivalId)] *)
Definition selectedFestival (st : AppState) : option Festival :=
  List.find (fun f => String.eqb (f_id f) (selectedFestivalId st))
            (festivals st).

(** [if (!selectedFestival) return; ... handleUpdate(updated)] *)
Definition updateSelected (st : AppState) (change : Festival -> Festival)
    : AppState :=
  match selectedFestival st with
  | None => st
  | Some sel => handleUpdateFestival st (change sel)
  end.

(** The view offers the two answers [attending] and [not_attending]. *)
Definition handleRsvp (user : User) (st : AppState)
    (status : ParticipantStatus) : AppState :=
  updateSelected st (fun sel =>
    withParticipants sel
      (map (fun p => if fp_userId p =? u_id user then withStatus p status
                     else p)
           (f_participants sel))).

(** [xs.sort()] on strings: ascending in the order of [String.leb], which
    compares code unit by code unit; an insertion sort, the result of any
    sort being the same list. *)
Fixpoint insertSorted (x : string) (xs : list string) : list string :=
  match xs with
  | [] => [x]
  | y :: ys => if String.leb x y then x :: y :: ys
               else y :: insertSorted x ys
  end.

Fixpoint sortStrings (xs : list string) : list string :=
  match xs with
  | [] => []
  | x :: xs' => insertSorted x (sortStrings xs')
  end.

(** The order as a relation, to state that a list is sorted. *)
Definition lebP (x y : string) : Prop := String.leb x y = true.

Definition newAvailability (current : list string) (time : string)
    (checked : bool) : list string :=
  if checked then sortStrings (current ++ [time])
  else List.filter (fun t => strNe t time) current.

Definition handleAvailabilityChange (user : User) (st : AppState)
    (time : string) (checked : bool) : AppState :=
  updateSelected st (fun sel =>
    withParticipants sel
      (map (fun p =>
              if fp_userId p =? u_id user
              then withAvailability p
                     (newAvailability (fp_aufgussAvailability p) time checked)
              else p)
           (f_participants sel))).

Definition assignTask (taskId : Z) (responsible : option Z) (sel : Festival)
    : Festival :=
  withTasks sel
    (map (fun t => if ft_id t =? taskId then withResponsible t responsible
                   else t)
         (f_tasks sel)).

Definition handleTaskClaim (user : User) (st : AppState) (taskId : Z)
    : AppState :=
  updateSelected st (assignTask taskId (Some (u_id user))).

Definition handleTaskRelease (st : AppState) (taskId : Z) : AppState :=
  updateSelected st (assignTask taskId None).

(** A state for the examples: one festival with both sample users as
    participants and two tasks, selected, with user 3 logged in. *)
Definition plannerFestival : Festival :=
  {| f_id := "sommerfest-2024"; f_name := "Sommer-Saunafest 2024";
     f_startDate := "2025-09-10"; f_endDate := "2025-09-12";
     f_rsvpDeadline := "2025-09-04T20:00:00.000Z";
     f_location := "Panoramabad Freudenstadt"; f_numberOfSaunas := 2;
     f_aufgussTimes := ["10:00"; "11:00"; "12:00"];
     f_tasks := [ mkTask 1 "Getränke organisieren" None;
                  mkTask 2 "Musik-Playlist erstellen" (Some 2) ];
     f_participants :=
       [ mkParticipant 2 attending ["10:00"] 0 false [];
         mkParticipant 3 pending [] 0 false [] ] |}.

Definition plannerState : AppState :=
  {| users := [sampleMax; sampleAnna]; posts := [];
     festivals := [plannerFestival; sampleFestival "herbst" "Herbstfest"];
     aufguesse := []; currentUser := Some sampleAnna;
     selectedFestivalId := "sommerfest-2024"; availableQuals := [] |}.

Definition rosterState : AppState :=
  {| users := [sampleMax; sampleAnna]; posts := [];
     festivals := [plannerFestival]; aufguesse := [];
     currentUser := Some sampleAnna;
     selectedFestivalId := "sommerfest-2024"; availableQuals := [] |}.

End FestivalPlanner.

(* ================================================================== *)
(** * What the views compute from the clock                             *)
(* ================================================================== *)

Module Views.
Import JSDate.
Import Generator.
Import Controller.
Import Handlers.

(** A JavaScript number that may be [NaN]. *)
Inductive Num := Finite (z : Z) | NaN.

(** [x || ...] on a string that may be [undefined]: the empty string is
    falsy. *)
Definition truthy (o : option string) : option string :=
  match o with
  | Some s => if String.eqb s EmptyString then None else Some s
  | None => None
  end.

Definition FALLBACK_BACKGROUND_URLS : gmap string string :=
  list_to_map
    [ ("login", "https://images.pexels.com/photos/7241416/pexels-photo-7241416.jpeg?auto=compress&cs=tinysrgb&w=1260&h=750&dpr=2");
      ("register", "https://images.pexels.com/photos/7241416/pexels-photo-7241416.jpeg?auto=compress&cs=tinysrgb&w=1260&h=750&dpr=2");
      ("profile_setup", "https://images.pexels.com/photos/1562/italian-landscape-mountains-nature.jpg?auto=compress&cs=tinysrgb&w=1260&h=750&dpr=2");
      ("pending", "https://images.pexels.com/photos/2310641/pexels-photo-2310641.jpeg?auto=compress&cs=tinysrgb&w=1260&h=750&dpr=2");
      ("dashboard", "https://images.pexels.com/photos/3768894/pexels-photo-3768894.jpeg?auto=compress&cs=tinysrgb&w=1260&h=750&dpr=2");
      ("social", "https://images.pexels.com/photos/1528660/pexels-photo-1528660.jpeg?auto=compress&cs=tinysrgb&w=1260&h=750&dpr=2");
      ("aufguss", "https://images.pexels.com/photos/13159187/pexels-photo-13159187.jpeg?auto=compress&cs=tinysrgb&w=1260&h=750&dpr=2");
      ("festival", "https://images.pexels.com/photos/1191275/pexels-photo-1191275.jpeg?auto=compress&cs=tinysrgb&w=1260&h=750&dpr=2");
      ("mitglieder", "https://images.pexels.com/photos/421927/pexels-photo-421927.jpeg?auto=compress&cs=tinysrgb&w=1260&h=750&dpr=2");
      ("berichte", "https://images.pexels.com/photos/9754/mountains-clouds-forest-fog.jpg?auto=compress&cs=tinysrgb&w=1260&h=750&dpr=2");
      ("profile", "https://images.pexels.com/photos/6104977/pexels-photo-6104977.jpeg?auto=compress&cs=tinysrgb&w=1260&h=750&dpr=2");
      ("nikolaus", "https://images.pexels.com/photos/3224164/pexels-photo-3224164.jpeg?auto=compress&cs=tinysrgb&w=1260&h=750&dpr=2");
      ("christmas", "https://images.pexels.com/photos/3224164/pexels-photo-3224164.jpeg?auto=compress&cs=tinysrgb&w=1260&h=750&dpr=2");
      ("silvester", "https://images.pexels.com/photos/34098/night-shot-fireworks-new-year-s-eve-34098.jpeg?auto=compress&cs=tinysrgb&w=1260&h=750&dpr=2");
      ("easter", "https://images.pexels.com/photos/4054737/pexels-photo-4054737.jpeg?auto=compress&cs=tinysrgb&w=1260&h=750&dpr=2") ].

(** [confirmed] is the answer of [window.confirm]. *)
Definition handleRemoveBackground (confirmed : bool)
    (persistedBackgrounds : gmap string string) (viewKey : string)
  : gmap string string :=
  if confirmed then delete viewKey persistedBackgrounds
  else persistedBackgrounds.

(** [Array.prototype.sort] with a comparator: the sort is stable, and a
    comparator result that is [NaN] ([None]) counts as 0.  An element goes
    before the first one that it does not have to follow. *)
Definition notAfter (c : option Z) : bool :=
  match c with
  | Some v => v <=? 0
  | None => true
  end.

Fixpoint insertBy {A} (cmp : A -> A -> option Z) (x : A) (l : list A)
  : list A :=
  match l with
  | [] => [x]
  | y :: l' => if notAfter (cmp x y) then x :: l else y :: insertBy cmp x l'
  end.

Definition sortBy {A} (cmp : A -> A -> option Z) (l : list A) : list A :=
  foldr (insertBy cmp) [] l.

(** [a.aufgussmeisterId === userId] *)
Definition ownedBy (userId : Z) (a : Aufguss) : bool :=
  match aufgussmeisterId a with
  | Some m => m =? userId
  | None => false
  end.

(** [d < today] on a date that may be invalid: a comparison with [NaN] is
    false. *)
Definition before (d : option Z) (today : Z) : bool :=
  match d with
  | Some t => t <? today
  | None => false
  end.

Section Host.
Variable LocalTime : Z -> Z.
Variable UTC : Z -> Z.

Definition getHoliday (today : Z) : option string :=
  let month := getMonth LocalTime today in
  let day := getDate LocalTime today in
  if ((month =? 2) && (29 <=? day)) || ((month =? 3) && (day <=? 1))
  then Some "easter"
  else if (month =? 11) && (5 <=? day) && (day <=? 7) then Some "nikolaus"
  else if (month =? 11) && (20 <=? day) && (day <=? 27) then Some "christmas"
  else if (month =? 11) && (30 <=? day) then Some "silvester"
  else if (month =? 0) && (day <=? 2) then Some "silvester"
  else None.

(** The copy of [getHoliday] inside [App]. *)
Definition getHolidayKey (today : Z) : option string :=
  let month := getMonth LocalTime today in
  let day := getDate LocalTime today in
  if ((month =? 2) && (29 <=? day)) || ((month =? 3) && (day <=? 1))
  then Some "easter"
  else if (month =? 11) && (5 <=? day) && (day <=? 7) then Some "nikolaus"
  else if (month =? 11) && (20 <=? day) && (day <=? 27) then Some "christmas"
  else if ((month =? 11) && (30 <=? day)) || ((month =? 0) && (day <=? 2))
  then Some "silvester"
  else None.

(** The background of the page.  [today] is the reading of [new Date()];
    the keys looked up are the names of the views, of the stages and of the
    holidays, none of which is a property that an object inherits. *)
Definition backgroundUrl (today : Z) (appStage view : string)
    (persistedBackgrounds : gmap string string) : string :=
  let holidayKey := getHoliday today in
  let currentKey := if String.eqb appStage "loggedIn" then view else appStage in
  let keyForLookup :=
    match truthy holidayKey with
    | Some k => k
    | None => currentKey
    end in
  match truthy (persistedBackgrounds !! keyForLookup) with
  | Some url => url
  | None =>
      match truthy (FALLBACK_BACKGROUND_URLS !! keyForLookup) with
      | Some url => url
      | None => default EmptyString (FALLBACK_BACKGROUND_URLS !! "dashboard")
      end
  end.

(** [new Date(s).getTime()], with [None] for [NaN]. *)
Variable dateValue : string -> option Z.

(** [(a, b) => new Date(b.date).getTime() - new Date(a.date).getTime()] *)
Definition byDateDescending (a b : Aufguss) : option Z :=
  match dateValue (a_date b), dateValue (a_date a) with
  | Some tb, Some ta => Some (tb - ta)
  | _, _ => None
  end.

(** [now] is the reading of [new Date()]; the result is [null] ([None]) or
    a number. *)
Definition calculateDaysSinceLastAufguss (userId : Z)
    (allAufguesse : list Aufguss) (now : Z) : option Num :=
  let today := setHours LocalTime UTC now 0 0 0 0 in
  let userAufguesseInPast :=
    sortBy byDateDescending
      (List.filter
         (fun a => ownedBy userId a && before (dateValue (a_date a)) today)
         allAufguesse) in
  match userAufguesseInPast with
  | [] => None
  | last :: _ =>
      match dateValue (a_date last) with
      | Some t =>
          let lastAufgussDate := setHours LocalTime UTC t 0 0 0 0 in
          let diffTime := today - lastAufgussDate in
          Some (Finite (diffTime / (1000 * 60 * 60 * 24)))
      | None => Some NaN
      end
  end.

(** The date navigation of the planner.  [today] is the reading of
    [new Date()] when the view was rendered, [now] the one taken by the
    handler; the result is the new [selectedDate]. *)
Definition handleDateChange (today now : Z) (selectedDate : string)
    (direction : Z) : string :=
  match dateValue selectedDate with
  | Some current =>
      let currentDate :=
        setDate LocalTime UTC current
                (getDate LocalTime current + direction) in
      let maxDate := setDate LocalTime UTC now (getDate LocalTime today + 29) in
      if (today <=? currentDate) && (currentDate <=? maxDate)
      then isoDate currentDate
      else selectedDate
  | None => selectedDate
  end.

(** [new Date(s).getTime()] for the date-time strings of the time
    generator, with [None] for [NaN]. *)
Variable dateTimeValue : string -> option Z.

(** The loop of [handleGenerateTimes]; [currentTime] is [None] once it is
    an invalid date, and [intervalMinutes] is [None] when [parseInt] gave
    [NaN].  The loop runs as long as there is fuel. *)
Fixpoint generateTimes (fuel : nat) (currentTime : option Z) (endTime : option Z)
    (intervalMinutes : option Z) : option (list string) :=
  match fuel with
  | O => None
  | S fuel' =>
      match currentTime, endTime with
      | Some cur, Some e =>
          if cur <=? e then
            let next :=
              match intervalMinutes with
              | Some i =>
                  Some (setMinutes LocalTime UTC cur
                          (getMinutes LocalTime cur + i))
              | None => None
              end in
            match generateTimes fuel' next endTime intervalMinutes with
            | Some rest => Some (timeOfDay LocalTime cur :: rest)
            | None => None
            end
          else Some []
      | _, _ => Some []
      end
  end.

(** The result is the new list of times of the form ([aufgussTimes] when
    nothing is generated), or [None] when the fuel does not suffice. *)
Definition handleGenerateTimes (fuel : nat) (aufgussTimes : list string)
    (start end_ : string) (intervalMinutes : option Z)
  : option (list string) :=
  if String.eqb start EmptyString || String.eqb end_ EmptyString
  then Some aufgussTimes
  else
    generateTimes fuel
      (dateTimeValue ("1970-01-01T" ++ start ++ ":00"))
      (dateTimeValue ("1970-01-01T" ++ end_ ++ ":00"))
      intervalMinutes.

End Host.

(** The times that the generator is to produce: [count] times from [from]
    in steps of [step] milliseconds, rendered for a host at a fixed
    offset. *)
Definition timesFrom (offset from step : Z) (count : Z) : list string :=
  map (fun k => timeOfDay (fixedLocalTime offset) (from + k * step))
      (seqZ 0 count).

End Views.

(* ================================================================== *)
(** * Sequences of planner actions                                      *)
(* ================================================================== *)

Module Planner.
Import Controller.

(** The actions of the planner that change the slot list, each with the
    acting user and the environment's answers. *)
Inductive SlotOp :=
  | Claim (cu : User) (aufgussId type : string)
  | Cancel (confirmed : bool) (now : Z) (cu : User) (aufgussId : string).

Section Run.
Variable dateTimeValue : string -> option Z.

Definition runSlotOp (st : AppState) (op : SlotOp) : AppState :=
  match op with
  | Claim cu aufgussId type => handleClaimAufguss cu st aufgussId type
  | Cancel confirmed now cu aufgussId =>
      handleCancelAufguss dateTimeValue confirmed now cu st aufgussId
  end.

Definition runSlotOps (st : AppState) (ops : list SlotOp) : AppState :=
  fold_left runSlotOp ops st.
End Run.

(** What identifies a slot: everything but the owner and the type. *)
Definition slotKey (a : Aufguss) : string * string * string * string * string :=
  (a_id a, a_location a, a_sauna a, a_date a, a_time a).

End Planner.

(* ================================================================== *)
(** * Facts about the date arithmetic                                   *)
(* ================================================================== *)

Import Generator.

Example epoch_date : isoDate 0 = "1970-01-01".
Proof. reflexivity. Qed.

Example leap_day_date : isoDate 1709164800000 = "2024-02-29".
Proof. vm_compute. reflexivity. Qed.

Example new_year_eve_date : isoDate (-1) = "1969-12-31".
Proof. vm_compute. reflexivity. Qed.

Example sunday_2025_08_31 :
  isoDate 1756634400000 = "2025-08-31" /\ WeekDay 1756634400000 = 0.
Proof. vm_compute. split; reflexivity. Qed.

Ltac bool_cases :=
  repeat match goal with
    | |- context [if ?b then _ else _] => destruct b eqn:?
    end;
  repeat match goal with
    | H : (_ <? _) = true |- _ => apply Z.ltb_lt in H
    | H : (_ <? _) = false |- _ => apply Z.ltb_ge in H
    | H : (_ <=? _) = true |- _ => apply Z.leb_le in H
    | H : (_ <=? _) = false |- _ => apply Z.leb_gt in H
    | H : (_ =? _) = true |- _ => apply Z.eqb_eq in H
    | H : (_ =? _) = false |- _ => apply Z.eqb_neq in H
    end.

(** The year computed from a day number is the one the standard asks for:
    the largest year that starts on or before that day. *)
Lemma YearFromDay_spec (d : Z) :
  DayFromYear (YearFromDay d) <= d < DayFromYear (YearFromDay d + 1).
Proof.
  unfold YearFromDay, DayFromYear. cbv zeta.
  bool_cases; Z.div_mod_to_equations; lia.
Qed.

Lemma DayFromYear_step (y : Z) :
  DayFromYear (y + 1) = DayFromYear y + DaysInYear y.
Proof.
  unfold DayFromYear, DaysInYear.
  bool_cases; simpl negb in *; try discriminate;
    Z.div_mod_to_equations; lia.
Qed.

Lemma DayWithinYear_range (t : Z) :
  0 <= DayWithinYear t < DaysInYear (YearFromTime t).
Proof.
  unfold DayWithinYear, YearFromTime.
  pose proof (YearFromDay_spec (Day t)) as H.
  rewrite DayFromYear_step in H. lia.
Qed.

Lemma MonthFromTime_range (t : Z) : 0 <= MonthFromTime t <= 11.
Proof. unfold MonthFromTime. cbv zeta. bool_cases; lia. Qed.

Lemma DaysInYear_cases (y : Z) : DaysInYear y = 365 \/ DaysInYear y = 366.
Proof. unfold DaysInYear. bool_cases; auto. Qed.

(** The day of the month lies within the month. *)
Lemma DateFromTime_range (t : Z) :
  1 <= DateFromTime t <= DaysInMonth (YearFromTime t) (MonthFromTime t).
Proof.
  pose proof (DayWithinYear_range t) as Hr.
  unfold DateFromTime, DaysInMonth, MonthFromTime, InLeapYear in *.
  cbv zeta.
  set (d := DayWithinYear t) in *.
  destruct (DaysInYear_cases (YearFromTime t)) as [E | E]; rewrite E in *;
    simpl (_ =? _) in *; cbv iota;
    bool_cases; simpl monthStart; simpl; lia.
Qed.

Lemma MakeDate_Day (d time : Z) :
  0 <= time < msPerDay -> Day (MakeDate d time) = d.
Proof.
  intros H. unfold Day, MakeDate, msPerDay in *.
  Z.div_mod_to_equations. lia.
Qed.

Lemma MakeDate_TimeWithinDay (d time : Z) :
  0 <= time < msPerDay -> TimeWithinDay (MakeDate d time) = time.
Proof.
  intros H. unfold TimeWithinDay, MakeDate, msPerDay in *.
  Z.div_mod_to_equations. lia.
Qed.

Lemma MakeDate_Day_TimeWithinDay (t k : Z) :
  MakeDate (Day t + k) (TimeWithinDay t) = t + k * msPerDay.
Proof.
  unfold MakeDate, Day, TimeWithinDay, msPerDay.
  Z.div_mod_to_equations. lia.
Qed.

(** Setting the day of the month to [getDate() + k] moves the day number by
    [k], whatever the month lengths in between. *)
Lemma MakeDay_DateFromTime (t k : Z) :
  MakeDay (YearFromTime t) (MonthFromTime t) (DateFromTime t + k) = Day t + k.
Proof.
  pose proof (MonthFromTime_range t) as Hm.
  unfold MakeDay, DateFromTime, DayWithinYear, InLeapYear. cbv zeta.
  replace (MonthFromTime t / 12) with 0 by (Z.div_mod_to_equations; lia).
  replace (MonthFromTime t mod 12) with (MonthFromTime t)
    by (Z.div_mod_to_equations; lia).
  rewrite Z.add_0_r. lia.
Qed.

Lemma Day_shift (t k : Z) : Day (t + k * msPerDay) = Day t + k.
Proof. unfold Day, msPerDay. Z.div_mod_to_equations. lia. Qed.

Lemma Day_mono (s t : Z) : s <= t -> Day s <= Day t.
Proof. unfold Day, msPerDay. intros H. Z.div_mod_to_equations. lia. Qed.

Section HostFacts.
Variable LocalTime : Z -> Z.
Variable UTC : Z -> Z.

Lemma setDate_getDate (d k : Z) :
  setDate LocalTime UTC d (getDate LocalTime d + k)
  = UTC (LocalTime d + k * msPerDay).
Proof.
  unfold setDate, getDate. cbv zeta.
  rewrite MakeDay_DateFromTime, MakeDate_Day_TimeWithinDay. reflexivity.
Qed.

Lemma currentDateOf_eq (today day : Z) :
  currentDateOf LocalTime UTC today day
  = UTC (LocalTime today + day * msPerDay).
Proof. apply setDate_getDate. Qed.

End HostFacts.

(* ================================================================== *)
(** * RSVP deadline ([getThursdayBefore])                               *)
(* ================================================================== *)

Lemma daysToGoBack_range (w : Z) :
  0 <= w < 7 ->
  let k := (w + 7 - 4) mod 7 in
  let k' := if k =? 0 then 7 else k in
  1 <= k' <= 7 /\ (w - k') mod 7 = 4 /\
  (w = 4 -> k' = 7) /\ (w = 3 -> k' = 6).
Proof.
  intros Hw. cbv zeta.
  assert (w = 0 \/ w = 1 \/ w = 2 \/ w = 3 \/ w = 4 \/ w = 5 \/ w = 6)
    as Hc by lia.
  destruct Hc as [-> | [-> | [-> | [-> | [-> | [-> | ->]]]]]];
    vm_compute; repeat split; intros; try reflexivity; try discriminate.
Qed.

Lemma WeekDayOfDay_range (d : Z) : 0 <= WeekDayOfDay d < 7.
Proof. unfold WeekDayOfDay. apply Z.mod_pos_bound. lia. Qed.

Section Deadline.
Variable LocalTime : Z -> Z.
Variable UTC : Z -> Z.

(** What is asked of the host: a local time that is converted to a time
    value and back comes out unchanged or, when it lies in an hour that a
    change to summer time skips, up to an hour later. *)
Hypothesis local_round_trip :
  forall x, x <= LocalTime (UTC x) <= x + msPerHour.

(** Local time of the deadline: 22:00 on the day [k] days before the local
    day of the start date, [k] being the number of days the source goes
    back; up to an hour later on a day that has no 22:00. *)
Lemma getThursdayBefore_local (startDate : Z) :
  let D := Day (LocalTime startDate) in
  let k := (WeekDayOfDay D + 7 - 4) mod 7 in
  let k' := if k =? 0 then 7 else k in
  let r := LocalTime (getThursdayBefore LocalTime UTC startDate) in
  MakeDate (D - k') (MakeTime 22 0 0 0) <= r
  <= MakeDate (D - k') (MakeTime 22 0 0 0) + msPerHour /\
  (LocalTime (UTC (MakeDate (D - k') (MakeTime 22 0 0 0)))
   = MakeDate (D - k') (MakeTime 22 0 0 0) ->
   r = MakeDate (D - k') (MakeTime 22 0 0 0)).
Proof.
  cbv zeta. unfold getThursdayBefore. cbv zeta.
  set (D := Day (LocalTime startDate)).
  set (d1 := setHours LocalTime UTC startDate 0 0 0 0).
  assert (H1 : MakeDate D 0 <= LocalTime d1 <= MakeDate D 0 + msPerHour).
  { unfold d1, setHours. cbv zeta. fold D.
    change (MakeTime 0 0 0 0) with 0. apply local_round_trip. }
  assert (HD : Day (LocalTime d1) = D).
  { revert H1. unfold MakeDate, Day, msPerDay, msPerHour. intros H1.
    Z.div_mod_to_equations. lia. }
  assert (Hw : getDay LocalTime d1 = WeekDayOfDay D).
  { unfold getDay, WeekDay. rewrite HD. reflexivity. }
  rewrite Hw.
  set (k' := if (WeekDayOfDay D + 7 - 4) mod 7 =? 0 then 7
             else (WeekDayOfDay D + 7 - 4) mod 7).
  assert (Hk : 1 <= k' <= 7)
    by (apply (daysToGoBack_range (WeekDayOfDay D)), WeekDayOfDay_range).
  replace (getDate LocalTime d1 - k') with (getDate LocalTime d1 + - k')
    by lia.
  rewrite setDate_getDate.
  set (d2 := UTC (LocalTime d1 + - k' * msPerDay)).
  assert (H2 : Day (LocalTime d2) = D - k').
  { pose proof (local_round_trip (LocalTime d1 + - k' * msPerDay)) as H2.
    fold d2 in H2. revert H1 H2.
    unfold MakeDate, Day, msPerDay, msPerHour. intros H1 H2.
    Z.div_mod_to_equations. lia. }
  unfold setHours. cbv zeta. rewrite H2.
  split; [apply local_round_trip | intros E; exact E].
Qed.

(** For every start date, the deadline [getThursdayBefore] computes is, in
    local time, a Thursday at 22:00 (or within the hour after it on a day
    without a 22:00) that lies strictly before the local day of the start
    date and at most seven days back, with no Thursday in between: the most
    recent Thursday strictly before the local day of the start date.  A
    start date that is a Thursday gives the Thursday a full seven days
    earlier; a Wednesday gives the Thursday six days earlier, which lies in
    the previous Monday-to-Sunday week. *)
Lemma getThursdayBefore_most_recent_thursday (startDate : Z) :
  let r := LocalTime (getThursdayBefore LocalTime UTC startDate) in
  let D := Day (LocalTime startDate) in
  WeekDay r = 4 /\
  MakeTime 22 0 0 0 <= TimeWithinDay r <= MakeTime 23 0 0 0 /\
  ((forall d, LocalTime (UTC (MakeDate d (MakeTime 22 0 0 0)))
              = MakeDate d (MakeTime 22 0 0 0)) ->
   TimeWithinDay r = MakeTime 22 0 0 0) /\
  D - 7 <= Day r < D /\
  (forall d, Day r < d < D -> WeekDayOfDay d <> 4) /\
  (WeekDay (LocalTime startDate) = 4 -> Day r = D - 7) /\
  (WeekDay (LocalTime startDate) = 3 ->
     Day r = D - 6 /\ weekOfDay (Day r) = weekOfDay D - 1).
Proof.
  cbv zeta.
  pose proof (getThursdayBefore_local startDate) as Hloc. cbv zeta in Hloc.
  set (r := LocalTime (getThursdayBefore LocalTime UTC startDate)) in *.
  set (D := Day (LocalTime startDate)) in *.
  pose proof (daysToGoBack_range (WeekDayOfDay D) (WeekDayOfDay_range D)) as Hk.
  cbv zeta in Hk.
  set (k' := if (WeekDayOfDay D + 7 - 4) mod 7 =? 0 then 7
             else (WeekDayOfDay D + 7 - 4) mod 7) in *.
  destruct Hk as (Hrange & Hthu & H4 & H3).
  destruct Hloc as [Hr Hexact].
  assert (Hday : Day r = D - k').
  { revert Hr. unfold MakeDate, MakeTime, Day, msPerDay, msPerHour.
    intros Hr. Z.div_mod_to_equations. lia. }
  assert (Htime : MakeTime 22 0 0 0 <= TimeWithinDay r <= MakeTime 23 0 0 0).
  { revert Hday Hr.
    unfold MakeDate, MakeTime, TimeWithinDay, Day, msPerDay, msPerHour,
      msPerMinute, msPerSecond.
    intros Hday Hr. Z.div_mod_to_equations. lia. }
  assert (Hwd : WeekDayOfDay (D - k') = 4).
  { revert Hthu. unfold WeekDayOfDay. intros Hthu.
    Z.div_mod_to_equations. lia. }
  unfold WeekDay. rewrite Hday.
  split; [exact Hwd |].
  split; [exact Htime |].
  split.
  { intros Hex. rewrite (Hexact (Hex (D - k'))).
    apply MakeDate_TimeWithinDay. vm_compute. split; congruence. }
  split; [lia |].
  split.
  { intros d Hd Hd4. revert Hwd Hd4. unfold WeekDayOfDay. intros.
    Z.div_mod_to_equations. lia. }
  split.
  - intros Hs. rewrite (H4 Hs). reflexivity.
  - intros Hs. rewrite (H3 Hs). split; [reflexivity |].
    revert Hs. unfold weekOfDay, WeekDayOfDay. intros.
    Z.div_mod_to_equations. lia.
Qed.

End Deadline.

(** The same at a host two hours ahead of UTC, for 31 August 2025. *)
Lemma getThursdayBefore_most_recent_thursday_witness :
  (forall x, x <= fixedLocalTime 7200000 (fixedUTC 7200000 x)
             <= x + msPerHour) /\
  WeekDay (fixedLocalTime 7200000
             (getThursdayBefore (fixedLocalTime 7200000) (fixedUTC 7200000)
                                1756634400000)) = 4.
Proof.
  assert (H : forall x, x <= fixedLocalTime 7200000 (fixedUTC 7200000 x)
                        <= x + msPerHour)
    by (intros x; unfold fixedLocalTime, fixedUTC, msPerHour; lia).
  split; [exact H |].
  exact (proj1 (getThursdayBefore_most_recent_thursday
                  (fixedLocalTime 7200000) (fixedUTC 7200000) H
                  1756634400000)).
Defined.

(* ================================================================== *)
(** * Slot generator ([generateInitialAufguesse])                       *)
(* ================================================================== *)

Lemma filter_none {A} (f : A -> bool) (l : list A) :
  (forall x, In x l -> f x = false) -> List.filter f l = [].
Proof.
  induction l as [| x l IH]; intros H; simpl; [reflexivity |].
  rewrite (H x) by (left; reflexivity).
  apply IH. intros y Hy. apply H. right. exact Hy.
Qed.

Lemma slotsAt_In (loc dateStr : string) (times : list string) (a : Aufguss) :
  In a (slotsAt loc dateStr times) ->
  exists sauna time,
    In sauna (LOCATION_SAUNAS loc) /\ In time times /\
    a = freeSlot loc sauna dateStr time.
Proof.
  unfold slotsAt. rewrite in_flat_map. intros (sauna & Hs & Ha).
  apply in_map_iff in Ha. destruct Ha as (time & <- & Ht).
  exists sauna, time. auto.
Qed.

Lemma freeSlot_not_test (loc sauna dateStr time : string) :
  In loc SAUNA_LOCATIONS -> isTestSlot (freeSlot loc sauna dateStr time) = false.
Proof.
  intros Hloc. unfold isTestSlot. apply String.eqb_neq.
  simpl in Hloc. destruct Hloc as [<- | [<- | [<- | []]]]; simpl; discriminate.
Qed.

Section GeneratorFacts.
Variable LocalTime : Z -> Z.
Variable UTC : Z -> Z.

(** Every slot of the rolling window is an unclaimed slot of one of the
    three locations, dated with the UTC date of [today] moved on by [day]
    days, for a [day] in 0..29. *)
Lemma windowSlots_In (today : Z) (a : Aufguss) :
  In a (windowSlots LocalTime UTC today) ->
  exists day loc sauna time,
    0 <= day < 30 /\ In loc SAUNA_LOCATIONS /\
    a = freeSlot loc sauna
          (isoDate (currentDateOf LocalTime UTC today day)) time.
Proof.
  unfold windowSlots. rewrite in_flat_map. intros (day & Hday & Ha).
  apply list_elem_of_In, elem_of_seqZ in Hday.
  unfold daySlots in Ha. rewrite !in_app_iff in Ha.
  destruct Ha as [Ha | [Ha | Ha]].
  - unfold fdsSlots in Ha. cbv zeta in Ha. apply slotsAt_In in Ha.
    destruct Ha as (sauna & time & _ & _ & ->).
    exists day, (location 0), sauna, time.
    split; [lia |]. split; [simpl; auto | reflexivity].
  - unfold urachSlots in Ha. cbv zeta in Ha. apply slotsAt_In in Ha.
    destruct Ha as (sauna & time & _ & _ & ->).
    exists day, (location 1), sauna, time.
    split; [lia |]. split; [simpl; auto | reflexivity].
  - unfold hswSlots in Ha. cbv zeta in Ha.
    destruct (hswOpen LocalTime UTC (currentDateOf LocalTime UTC today day));
      [| destruct Ha].
    apply slotsAt_In in Ha.
    destruct Ha as (sauna & time & _ & _ & ->).
    exists day, (location 2), sauna, time.
    split; [lia |]. split; [simpl; auto | reflexivity].
Qed.

(** C9. The generator returns the slots of the rolling window followed by
    one more slot; that slot is the only one with id [test-aufguss-past]; it
    is dated with the UTC date of the instant 15 days before [Date.now()],
    that is 15 day numbers before the one of [now]; it is claimed by user 2
    with type [Test Aufguss]; every window slot is unclaimed and dated with
    a day later than the one of the test slot, so the test slot lies
    outside the window; and the generated set therefore has a claimed
    slot.  The host's local time is taken to differ from UTC by at most a
    day, and the two clock readings of the call by less than a day. *)
Theorem generateInitialAufguesse_test_slot (today now : Z) :
  (forall t, t - msPerDay <= LocalTime t) ->
  (forall x, x - msPerDay <= UTC x) ->
  now < today + msPerDay ->
  let out := generateInitialAufguesse LocalTime UTC today now in
  let test := testSlot now in
  out = (windowSlots LocalTime UTC today ++ [test])%list /\
  List.filter isTestSlot out = [test] /\
  a_id test = "test-aufguss-past" /\
  a_date test = isoDate (now - 15 * msPerDay) /\
  Day (now - 15 * msPerDay) = Day now - 15 /\
  aufgussmeisterId test = Some 2 /\
  a_type test = Some "Test Aufguss" /\
  (forall a, In a (windowSlots LocalTime UTC today) ->
     aufgussmeisterId a = None /\
     exists day, 0 <= day < 30 /\
       a_date a = isoDate (currentDateOf LocalTime UTC today day) /\
       Day (now - 15 * msPerDay)
         < Day (currentDateOf LocalTime UTC today day)) /\
  (exists a, In a out /\ aufgussmeisterId a <> None).
Proof.
  intros Hlt Hutc Hclock. cbv zeta.
  assert (Hday : Day (now - 15 * msPerDay) = Day now - 15).
  { replace (now - 15 * msPerDay) with (now + (-15) * msPerDay) by lia.
    rewrite Day_shift. lia. }
  split; [reflexivity |].
  split.
  { unfold generateInitialAufguesse. rewrite List.filter_app.
    rewrite filter_none; [reflexivity |].
    intros a Ha. apply windowSlots_In in Ha.
    destruct Ha as (day & loc & sauna & time & _ & Hloc & ->).
    apply freeSlot_not_test. exact Hloc. }
  split; [reflexivity |].
  split; [reflexivity |].
  split; [exact Hday |].
  split; [reflexivity |].
  split; [reflexivity |].
  split.
  { intros a Ha. apply windowSlots_In in Ha.
    destruct Ha as (day & loc & sauna & time & Hd & _ & ->).
    split; [reflexivity |].
    exists day. split; [exact Hd |]. split; [reflexivity |].
    rewrite Hday, currentDateOf_eq.
    pose proof (Hlt today) as H1.
    pose proof (Hutc (LocalTime today + day * msPerDay)) as H2.
    assert (H3 : today - 2 * msPerDay
                 <= UTC (LocalTime today + day * msPerDay)).
    { unfold msPerDay in *. lia. }
    apply Day_mono in H3.
    replace (today - 2 * msPerDay) with (today + (-2) * msPerDay) in H3
      by lia.
    rewrite Day_shift in H3.
    assert (H4 : Day now <= Day today + 1).
    { rewrite <- Day_shift. apply Day_mono. lia. }
    lia. }
  exists (testSlot now). split.
  - unfold generateInitialAufguesse. apply in_or_app. right. left.
    reflexivity.
  - discriminate.
Qed.

(** The slots of each of the thirty days are part of the generated set. *)
Lemma daySlots_generated (today now day : Z) :
  0 <= day < 30 ->
  incl (daySlots LocalTime UTC today day)
       (generateInitialAufguesse LocalTime UTC today now).
Proof.
  intros Hd a Ha. unfold generateInitialAufguesse, windowSlots.
  apply in_or_app. left. rewrite in_flat_map. exists day.
  split; [| exact Ha].
  apply list_elem_of_In, elem_of_seqZ. lia.
Qed.

End GeneratorFacts.

Lemma generateInitialAufguesse_test_slot_witness :
  (forall t, t - msPerDay <= fixedLocalTime 7200000 t) /\
  (forall x, x - msPerDay <= fixedUTC 7200000 x) /\
  1756634400005 < 1756634400000 + msPerDay /\
  List.filter isTestSlot
    (generateInitialAufguesse (fixedLocalTime 7200000) (fixedUTC 7200000)
                              1756634400000 1756634400005)
  = [testSlot 1756634400005].
Proof.
  assert (H1 : forall t, t - msPerDay <= fixedLocalTime 7200000 t)
    by (intros t; unfold fixedLocalTime, msPerDay; lia).
  assert (H2 : forall x, x - msPerDay <= fixedUTC 7200000 x)
    by (intros x; unfold fixedUTC, msPerDay; lia).
  assert (H3 : 1756634400005 < 1756634400000 + msPerDay)
    by (unfold msPerDay; lia).
  split; [exact H1 |]. split; [exact H2 |]. split; [exact H3 |].
  exact (proj1 (proj2 (generateInitialAufguesse_test_slot
                         (fixedLocalTime 7200000) (fixedUTC 7200000)
                         1756634400000 1756634400005 H1 H2 H3))).
Defined.

Example noon_2025_08_31_local :
  parseLocalDateTime (fixedUTC cest) "2025-08-31T12:00" = Some noon_2025_08_31.
Proof. vm_compute. reflexivity. Qed.

Example noon_2025_06_15_local :
  parseLocalDateTime (fixedUTC cest) "2025-06-15T12:00" = Some noon_2025_06_15.
Proof. vm_compute. reflexivity. Qed.

(** The scenario of the specification: on 15 June no slot of Location C. *)
Example june_15_closed :
  List.filter isLocationC
    (daySlots (fixedLocalTime cest) (fixedUTC cest) noon_2025_06_15 0) = [].
Proof. vm_compute. reflexivity. Qed.

(** C2, at the input where the code departs from it.  A slot set generated
    at noon of 31 August 2025 holds, for the generation day itself (31
    August), the eleven hourly slots 10:00 to 20:00 of both Location C
    saunas, although the location counts as closed through 31 August. *)
Theorem location_c_open_on_august_31 :
  map (fun a => (a_sauna a, a_date a, a_time a))
    (List.filter isLocationC
       (daySlots (fixedLocalTime cest) (fixedUTC cest) noon_2025_08_31 0))
  = (map (fun time => ("Natur-Sauna", "2025-08-31", time))
         (hourly 10 20 "00")
     ++ map (fun time => ("Schwarzwald-Hütte", "2025-08-31", time))
            (hourly 10 20 "00"))%list
  /\ incl (daySlots (fixedLocalTime cest) (fixedUTC cest) noon_2025_08_31 0)
          (generateInitialAufguesse (fixedLocalTime cest) (fixedUTC cest)
                                    noon_2025_08_31 noon_2025_08_31).
Proof.
  split.
  - vm_compute. reflexivity.
  - apply daySlots_generated. lia.
Qed.

(** What the seasonal test of Location C decides, for a host at a fixed
    offset from UTC: the location is open from the first millisecond after
    local midnight at the start of 31 August until the end of the year. *)
Lemma hswOpen_fixed_iff (offset currentDate : Z) :
  let t := fixedLocalTime offset currentDate in
  ~ (0 <= YearFromTime t <= 99) ->
  hswOpen (fixedLocalTime offset) (fixedUTC offset) currentDate = true <->
  8 <= MonthFromTime t \/
  (MonthFromTime t = 7 /\ DateFromTime t = 31 /\ 0 < TimeWithinDay t).
Proof.
  cbv zeta. intros Hy.
  unfold hswOpen, newDateYMD, getFullYear. cbv zeta.
  set (t := fixedLocalTime offset currentDate) in *.
  destruct ((0 <=? YearFromTime t) && (YearFromTime t <=? 99)) eqn:E.
  { apply andb_true_iff in E. destruct E as [E1 E2].
    apply Z.leb_le in E1, E2. lia. }
  clear E Hy.
  rewrite Z.ltb_lt.
  pose proof (DayWithinYear_range t) as Hr.
  assert (Ht : t = MakeDate (Day t) (TimeWithinDay t)).
  { pose proof (MakeDate_Day_TimeWithinDay t 0) as H.
    rewrite Z.add_0_r in H. lia. }
  assert (Hc : currentDate = t - offset) by (unfold t, fixedLocalTime; lia).
  assert (Htw : 0 <= TimeWithinDay t < msPerDay).
  { unfold TimeWithinDay. apply Z.mod_pos_bound. reflexivity. }
  unfold fixedUTC. rewrite Hc.
  unfold MakeDay, DateFromTime, MonthFromTime, InLeapYear in *.
  unfold DayWithinYear in *.
  set (Y := YearFromTime t) in *.
  set (D := Day t) in *.
  replace (7 / 12) with 0 by reflexivity.
  replace (7 mod 12) with 7 by reflexivity.
  rewrite Z.add_0_r.
  cbv zeta. unfold monthStart at 1.
  replace (MakeTime 0 0 0 0) with 0 by reflexivity.
  unfold MakeDate in *. unfold msPerDay in *.
  destruct (DaysInYear Y =? 366) eqn:EL.
  - apply Z.eqb_eq in EL. bool_cases; simpl monthStart; lia.
  - apply Z.eqb_neq in EL.
    assert (DaysInYear Y = 365).
    { revert EL. unfold DaysInYear. bool_cases; simpl; lia. }
    bool_cases; simpl monthStart; lia.
Qed.

(** The scenario of the specification for Location A: on a Wednesday the
    times are 14:00 to 20:00, seven slots per sauna. *)
Example wednesday_times :
  fdsTimes 3 = ["14:00"; "15:00"; "16:00"; "17:00"; "18:00"; "19:00"; "20:00"]
  /\ fdsTimes 1 = [].
Proof. vm_compute. split; reflexivity. Qed.

Example hourly_10_20 :
  hourly 10 20 "00"
  = [ "10:00"; "11:00"; "12:00"; "13:00"; "14:00"; "15:00"; "16:00"; "17:00";
      "18:00"; "19:00"; "20:00" ].
Proof. vm_compute. reflexivity. Qed.

Lemma slotsAt_location_c (dateStr : string) (times : list string) :
  slotsAt (location 2) dateStr times
  = (map (freeSlot (location 2) "Natur-Sauna" dateStr) times
     ++ map (freeSlot (location 2) "Schwarzwald-Hütte" dateStr) times)%list.
Proof. unfold slotsAt. simpl. rewrite app_nil_r. reflexivity. Qed.

(** The Location C slots of one day of the window, by the local calendar
    date of that day: none through 30 August, and from 1 September on the
    hourly slots 10:00 to 20:00 of each of the two saunas. *)
Lemma hswSlots_by_season (offset today day : Z) :
  let currentDate :=
    currentDateOf (fixedLocalTime offset) (fixedUTC offset) today day in
  let t := fixedLocalTime offset currentDate in
  ~ (0 <= YearFromTime t <= 99) ->
  (MonthFromTime t < 7 \/ (MonthFromTime t = 7 /\ DateFromTime t < 31) ->
     hswSlots (fixedLocalTime offset) (fixedUTC offset) today day = []) /\
  (8 <= MonthFromTime t ->
     hswSlots (fixedLocalTime offset) (fixedUTC offset) today day
     = (map (freeSlot (location 2) "Natur-Sauna" (isoDate currentDate))
            (hourly 10 20 "00")
        ++ map (freeSlot (location 2) "Schwarzwald-Hütte" (isoDate currentDate))
               (hourly 10 20 "00"))%list).
Proof.
  cbv zeta. intros Hy.
  pose proof (hswOpen_fixed_iff offset _ Hy) as Hopen. cbv zeta in Hopen.
  unfold hswSlots. cbv zeta.
  destruct (hswOpen (fixedLocalTime offset) (fixedUTC offset)
              (currentDateOf (fixedLocalTime offset) (fixedUTC offset)
                             today day)) eqn:E.
  - split.
    + intros Hclosed. destruct Hopen as [Hopen _].
      specialize (Hopen eq_refl). lia.
    + intros _. apply slotsAt_location_c.
  - split; [reflexivity |].
    intros Hsep. destruct Hopen as [_ Hopen].
    assert (false = true) by (apply Hopen; left; exact Hsep). discriminate.
Qed.

(* ================================================================== *)
(** * Application state controller                                     *)
(* ================================================================== *)

Import Controller.

Lemma lookup_map {A B} (f : A -> B) (l : list A) (i : nat) :
  map f l !! i = f <$> (l !! i).
Proof. apply (list_lookup_fmap f l i). Qed.

Lemma lookup_map_Some {A B} (f : A -> B) (l : list A) (i : nat) (x : A) :
  l !! i = Some x -> map f l !! i = Some (f x).
Proof. intros H. rewrite lookup_map, H. reflexivity. Qed.

Lemma strNe_true (x y : string) : strNe x y = true <-> x <> y.
Proof.
  unfold strNe. rewrite negb_true_iff. apply String.eqb_neq.
Qed.

Lemma In_filter_strNe (q x : string) (l : list string) :
  In x (List.filter (fun y => strNe y q) l) <-> In x l /\ x <> q.
Proof. rewrite List.filter_In, strNe_true. reflexivity. Qed.

(** ** Deleting a qualification *)

(** C10. Deleting a qualification removes it from [availableQuals] (the
    other names stay, in their order) and rewrites every user, position by
    position, to the same user without that name among the qualifications:
    the other qualifications stay and every other field is unchanged. *)
Theorem handleDeleteQual_cascades (st : AppState) (qualToDelete : string) :
  let st' := handleDeleteQual st qualToDelete in
  availableQuals st'
    = List.filter (fun q => strNe q qualToDelete) (availableQuals st) /\
  ~ In qualToDelete (availableQuals st') /\
  (forall q, q <> qualToDelete ->
     (In q (availableQuals st') <-> In q (availableQuals st))) /\
  List.length (users st') = List.length (users st) /\
  (forall i u, users st !! i = Some u ->
     exists u', users st' !! i = Some u' /\
       ~ In qualToDelete (u_qualifications u') /\
       (forall q, q <> qualToDelete ->
          (In q (u_qualifications u') <-> In q (u_qualifications u))) /\
       u_qualifications u'
         = List.filter (fun q => strNe q qualToDelete) (u_qualifications u) /\
       sameButQualifications u u').
Proof.
  cbv zeta. unfold handleDeleteQual. cbv zeta. simpl.
  split; [reflexivity |].
  split; [rewrite In_filter_strNe; tauto |].
  split; [intros q Hq; rewrite In_filter_strNe; tauto |].
  split; [apply length_map |].
  intros i u Hu. eexists. split; [apply lookup_map_Some; exact Hu |].
  simpl.
  split; [rewrite In_filter_strNe; tauto |].
  split; [intros q Hq; rewrite In_filter_strNe; tauto |].
  split; [reflexivity |].
  unfold sameButQualifications. simpl. repeat split.
Qed.

(** ** Likes *)

Lemma includes_In (x : Z) (xs : list Z) : includes x xs = true <-> In x xs.
Proof.
  unfold includes. rewrite existsb_exists. split.
  - intros (y & Hy & E). apply Z.eqb_eq in E. subst. exact Hy.
  - intros H. exists x. split; [exact H | apply Z.eqb_refl].
Qed.

Lemma includes_not_In (x : Z) (xs : list Z) :
  includes x xs = false <-> ~ In x xs.
Proof.
  rewrite <- includes_In. destruct (includes x xs); split; intros; try tauto;
    try discriminate; congruence.
Qed.

Lemma In_filter_ne (c x : Z) (l : list Z) :
  In x (List.filter (fun i => negb (i =? c)) l) <-> In x l /\ x <> c.
Proof.
  rewrite List.filter_In, negb_true_iff, Z.eqb_neq. reflexivity.
Qed.

Lemma filter_ne_absent (c : Z) (l : list Z) :
  ~ In c l -> List.filter (fun i => negb (i =? c)) l = l.
Proof.
  induction l as [| x l IH]; intros H; simpl; [reflexivity |].
  destruct (Z.eqb_spec x c) as [-> | Hne]; simpl.
  - exfalso. apply H. left. reflexivity.
  - f_equal. apply IH. intros Hin. apply H. right. exact Hin.
Qed.

(** One toggle: the acting user is in the new like list exactly when absent
    from the old one, and nobody else's like changes. *)
Lemma toggleLike_likes (cu : User) (p : Post) :
  (In (u_id cu) (p_likes (toggleLike cu p)) <-> ~ In (u_id cu) (p_likes p)) /\
  (forall x, x <> u_id cu ->
     (In x (p_likes (toggleLike cu p)) <-> In x (p_likes p))).
Proof.
  unfold toggleLike. cbv zeta.
  destruct (includes (u_id cu) (p_likes p)) eqn:E; simpl.
  - apply includes_In in E. split.
    + rewrite In_filter_ne. tauto.
    + intros x Hx. rewrite In_filter_ne. tauto.
  - apply includes_not_In in E. split.
    + rewrite in_app_iff. simpl. tauto.
    + intros x Hx. rewrite in_app_iff. simpl. split; [| tauto].
      intros [H | [H | []]]; [exact H | congruence].
Qed.

Lemma toggleLike_twice (cu : User) (p : Post) :
  toggleLike cu (toggleLike cu p)
  = withLikes p (p_likes (toggleLike cu (toggleLike cu p))) /\
  (forall x, In x (p_likes (toggleLike cu (toggleLike cu p)))
             <-> In x (p_likes p)) /\
  (~ In (u_id cu) (p_likes p) -> toggleLike cu (toggleLike cu p) = p).
Proof.
  split; [reflexivity |].
  pose proof (toggleLike_likes cu p) as [H1 H1'].
  pose proof (toggleLike_likes cu (toggleLike cu p)) as [H2 H2'].
  split.
  - intros x. destruct (Z.eq_dec x (u_id cu)) as [-> | Hne].
    + rewrite H2, H1.
      destruct (in_dec Z.eq_dec (u_id cu) (p_likes p)); tauto.
    + rewrite (H2' x Hne), (H1' x Hne). reflexivity.
  - intros Habs. unfold toggleLike at 2. cbv zeta.
    apply includes_not_In in Habs as E. rewrite E.
    unfold toggleLike. cbv zeta. simpl.
    assert (Hin : includes (u_id cu) (p_likes p ++ [u_id cu]) = true).
    { apply includes_In, in_or_app. right. left. reflexivity. }
    rewrite Hin. rewrite List.filter_app, filter_ne_absent by exact Habs.
    simpl. rewrite Z.eqb_refl. simpl. rewrite app_nil_r.
    destruct p; reflexivity.
Qed.

(** C6. Toggling a like adds the acting user to the like set of the post
    with the given id when absent and removes the user when present, and
    changes the like of no other user; a post with another id is not
    touched; and after two toggles in succession every post has the like
    set it started with (and is the very same post when the user was
    absent at the start), all other fields being as before. *)
Theorem handleLikePost_strict_toggle (cu : User) (st : AppState) (postId : Z) :
  let st1 := handleLikePost cu st postId in
  let st2 := handleLikePost cu st1 postId in
  List.length (posts st1) = List.length (posts st) /\
  forall i p, posts st !! i = Some p ->
    exists p1 p2,
      posts st1 !! i = Some p1 /\ posts st2 !! i = Some p2 /\
      (p_id p <> postId -> p1 = p /\ p2 = p) /\
      (p_id p = postId ->
         p1 = withLikes p (p_likes p1) /\
         (In (u_id cu) (p_likes p1) <-> ~ In (u_id cu) (p_likes p)) /\
         (forall x, x <> u_id cu ->
            (In x (p_likes p1) <-> In x (p_likes p))) /\
         p2 = withLikes p (p_likes p2) /\
         (forall x, In x (p_likes p2) <-> In x (p_likes p)) /\
         (~ In (u_id cu) (p_likes p) -> p2 = p)).
Proof.
  cbv zeta. unfold handleLikePost. cbv zeta. simpl.
  split; [apply length_map |].
  intros i p Hp.
  set (f := fun p0 : Post => if p_id p0 =? postId then toggleLike cu p0 else p0).
  exists (f p), (f (f p)).
  split; [apply lookup_map_Some; exact Hp |].
  split; [apply lookup_map_Some, lookup_map_Some; exact Hp |].
  unfold f. split.
  - intros Hne. apply Z.eqb_neq in Hne. rewrite Hne, Hne. auto.
  - intros He. apply Z.eqb_eq in He. rewrite He.
    assert (H1 : (p_id (toggleLike cu p) =? postId) = true) by exact He.
    rewrite H1.
    pose proof (toggleLike_likes cu p) as [Ha Hb].
    pose proof (toggleLike_twice cu p) as (Hc & Hd & He').
    split; [reflexivity |]. split; [exact Ha |]. split; [exact Hb |].
    split; [exact Hc |]. split; [exact Hd | exact He'].
Qed.

(** ** Deleting a festival *)

(** C7. Once the dialog is confirmed, deleting a festival keeps exactly the
    festivals with another id, in their order; when the deleted id was the
    selected one the selection becomes the id of the first remaining
    festival, or the empty string (no selection) when none remains; when
    another id was selected the selection stays.  When the dialog is
    declined nothing is deleted and the state stays as it is. *)
Theorem onDeleteFestival_selection (st : AppState) (festivalId : string) :
  let st' := onDeleteFestival true st festivalId in
  festivals st'
    = List.filter (fun f => strNe (f_id f) festivalId) (festivals st) /\
  (forall f, In f (festivals st') <->
             In f (festivals st) /\ f_id f <> festivalId) /\
  (selectedFestivalId st = festivalId ->
     selectedFestivalId st' = match festivals st' with
                              | f :: _ => f_id f
                              | [] => EmptyString
                              end) /\
  (selectedFestivalId st <> festivalId ->
     selectedFestivalId st' = selectedFestivalId st) /\
  onDeleteFestival false st festivalId = st.
Proof.
  cbv zeta. unfold onDeleteFestival. cbv zeta.
  destruct (String.eqb_spec (selectedFestivalId st) festivalId) as [E | E];
    simpl.
  - split; [reflexivity |].
    split; [intros f; rewrite List.filter_In, strNe_true; reflexivity |].
    split; [reflexivity |]. split; [congruence | reflexivity].
  - split; [reflexivity |].
    split; [intros f; rewrite List.filter_In, strNe_true; reflexivity |].
    split; [congruence |]. split; reflexivity.
Qed.

(** ** Claiming a slot *)




(** ** Cancelling a slot *)

Lemma NoDup_map_inj {A B} (f : A -> B) (l : list A) (x y : A) :
  List.NoDup (map f l) -> In x l -> In y l -> f x = f y -> x = y.
Proof.
  induction l as [| z l IH]; simpl; intros Hnd Hx Hy E; [destruct Hx |].
  inversion Hnd as [| ? ? Hz Hnd']; subst.
  destruct Hx as [-> | Hx], Hy as [-> | Hy].
  - reflexivity.
  - exfalso. apply Hz. rewrite E. apply in_map. exact Hy.
  - exfalso. apply Hz. rewrite <- E. apply in_map. exact Hx.
  - apply IH; assumption.
Qed.

(** With unique slot ids, [find] by id returns the slot itself. *)
Lemma find_by_id (l : list Aufguss) (a : Aufguss) :
  List.NoDup (map a_id l) -> In a l ->
  List.find (fun b => String.eqb (a_id b) (a_id a)) l = Some a.
Proof.
  intros Hnd Ha.
  destruct (List.find (fun b => String.eqb (a_id b) (a_id a)) l) as [b |] eqn:E.
  - apply List.find_some in E. destruct E as [Hb E]. apply String.eqb_eq in E.
    f_equal. apply (NoDup_map_inj a_id l); assumption.
  - apply (List.find_none _ _ E) in Ha. simpl in Ha.
    rewrite String.eqb_refl in Ha. discriminate.
Qed.

Lemma truthyId_Some (m : Z) : m <> 0 -> truthyId (Some m) = Some m.
Proof. intros H. simpl. apply Z.eqb_neq in H. rewrite H. reflexivity. Qed.

Section CancelFacts.
Variable dateTimeValue : string -> option Z.




End CancelFacts.


(** ** Voting on a poll *)

Lemma votesIn_absent (uid : Z) (opt : PollOption) :
  includes uid (opt_votes opt) = false -> votesIn uid opt = 0%nat.
Proof.
  intros H. apply includes_not_In in H. unfold votesIn.
  rewrite filter_none; [reflexivity |].
  intros v Hv. apply Z.eqb_neq. intros ->. exact (H Hv).
Qed.

Lemma votesIn_add (uid who : Z) (opt : PollOption) :
  votesIn uid (withVotes opt (opt_votes opt ++ [who])%list)
  = (votesIn uid opt + if Z.eqb who uid then 1 else 0)%nat.
Proof.
  unfold votesIn. simpl. rewrite List.filter_app, length_app. simpl.
  destruct (who =? uid); reflexivity.
Qed.

Lemma userVotes_unfold (uid : Z) (pd : PollData) :
  userVotes uid pd = list_sum (map (votesIn uid) (poll_options pd)).
Proof. reflexivity. Qed.

Lemma votes_absent (uid : Z) (opts : list PollOption) :
  existsb (fun opt => includes uid (opt_votes opt)) opts = false ->
  list_sum (map (votesIn uid) opts) = 0%nat.
Proof.
  induction opts as [| opt opts IH]; simpl; intros H; [reflexivity |].
  apply orb_false_iff in H. destruct H as [H1 H2].
  rewrite (votesIn_absent _ _ H1), (IH H2). reflexivity.
Qed.

Lemma addVote_cons (who optionIndex : Z) (base : nat) (opt : PollOption)
    (opts : list PollOption) :
  addVote who optionIndex base (opt :: opts)
  = (if Z.of_nat base =? optionIndex
     then withVotes opt (opt_votes opt ++ [who])%list
     else opt)
    :: addVote who optionIndex (S base) opts.
Proof.
  unfold addVote. rewrite imap_cons. rewrite Nat.add_0_r. f_equal.
  apply imap_ext. intros i x _. simpl.
  replace (base + S i)%nat with (S (base + i)) by lia. reflexivity.
Qed.

(** Options numbered beyond the chosen index are not touched. *)
Lemma addVote_beyond (who optionIndex : Z) (opts : list PollOption)
    (base : nat) :
  optionIndex < Z.of_nat base -> addVote who optionIndex base opts = opts.
Proof.
  revert base. induction opts as [| opt opts IH]; intros base H;
    [reflexivity |].
  rewrite addVote_cons, IH by lia.
  destruct (Z.eqb_spec (Z.of_nat base) optionIndex); [lia | reflexivity].
Qed.

(** A vote of [who] adds at most one vote of [who], and none of anybody
    else. *)
Lemma addVote_votes (uid who optionIndex : Z) (opts : list PollOption)
    (base : nat) :
  let total :=
    list_sum (map (votesIn uid) (addVote who optionIndex base opts)) in
  let before := list_sum (map (votesIn uid) opts) in
  (uid <> who -> total = before) /\ (before <= total <= before + 1)%nat.
Proof.
  revert base. induction opts as [| opt opts IH]; intros base; cbv zeta.
  - simpl. split; [reflexivity | lia].
  - rewrite addVote_cons. simpl.
    specialize (IH (S base)). cbv zeta in IH. destruct IH as [IH1 IH2].
    destruct (Z.eqb_spec (Z.of_nat base) optionIndex) as [E | E].
    + rewrite addVote_beyond by lia. rewrite votesIn_add.
      destruct (Z.eqb_spec who uid) as [-> | Hne].
      * split; [intros H; congruence | lia].
      * split; [intros _; lia | lia].
    + split; [intros H; rewrite (IH1 H); reflexivity | lia].
Qed.

Lemma votePoll_eq (cu : User) (optionIndex : Z) (p : Post) (pd : PollData) :
  votePoll cu optionIndex p pd
  = if hasVoted (u_id cu) pd then p
    else withPollData p
           (withOptions pd (addVote (u_id cu) optionIndex 0 (poll_options pd))).
Proof. reflexivity. Qed.

(** One vote keeps the bound of one vote per user on a post. *)
Lemma voteOn_bound (cu : User) (postId optionIndex : Z) (p : Post) :
  (forall pd uid, p_type p = poll_post -> p_pollData p = Some pd ->
                  (userVotes uid pd <= 1)%nat) ->
  forall pd' uid,
    p_type (voteOn cu postId optionIndex p) = poll_post ->
    p_pollData (voteOn cu postId optionIndex p) = Some pd' ->
    (userVotes uid pd' <= 1)%nat.
Proof.
  intros Hp pd' uid. unfold voteOn.
  destruct ((p_id p =? postId) && isPoll (p_type p)) eqn:E;
    [| intros; eapply Hp; eassumption].
  destruct (p_pollData p) as [pd |] eqn:Epd;
    [| simpl; intros; congruence].
  rewrite votePoll_eq.
  destruct (hasVoted (u_id cu) pd) eqn:Ev.
  - intros Ht Hpd'. rewrite Epd in Hpd'. injection Hpd' as <-.
    apply Hp; [exact Ht | reflexivity].
  - simpl. intros Ht Hpd'. injection Hpd' as <-.
    rewrite userVotes_unfold. simpl.
    pose proof (addVote_votes uid (u_id cu) optionIndex (poll_options pd) 0%nat)
      as [H1 H2].
    cbv zeta in H1, H2.
    destruct (Z.eq_dec uid (u_id cu)) as [-> | Hne].
    + rewrite (votes_absent _ _ Ev) in H2. lia.
    + rewrite (H1 Hne). rewrite <- userVotes_unfold.
      apply Hp; [exact Ht | reflexivity].
Qed.

Lemma onVote_bound (cu : User) (st : AppState) (postId optionIndex : Z) :
  atMostOneVote (posts st) ->
  atMostOneVote (posts (onVote cu st postId optionIndex)).
Proof.
  intros Hinv p' pd' uid Hin Ht Hpd'. simpl in Hin.
  apply in_map_iff in Hin. destruct Hin as (p & <- & Hp).
  eapply (voteOn_bound cu postId optionIndex p); try eassumption.
  intros pd uid' Htp Hpd. eapply Hinv; eassumption.
Qed.

(** C4. A vote of a user who already appears in the vote list of some option
    of the poll returns the post as it is; a vote of a user who appears in
    none appends the user's id to the vote list of the option at the chosen
    index and changes no other option (and nothing else of the post); a
    post that is not the addressed poll is not touched.  Hence any
    sequence of votes, by any users on any posts and options, keeps the
    bound of at most one vote per user over the options of each poll
    post. *)
Theorem onVote_one_vote_per_user :
  (forall cu postId optionIndex p pd,
     p_pollData p = Some pd -> hasVoted (u_id cu) pd = true ->
     voteOn cu postId optionIndex p = p) /\
  (forall cu postId optionIndex p pd,
     p_id p = postId -> p_type p = poll_post -> p_pollData p = Some pd ->
     hasVoted (u_id cu) pd = false ->
     exists pd',
       voteOn cu postId optionIndex p = withPollData p pd' /\
       poll_question pd' = poll_question pd /\
       List.length (poll_options pd') = List.length (poll_options pd) /\
       forall i opt, poll_options pd !! i = Some opt ->
         exists opt', poll_options pd' !! i = Some opt' /\
           (Z.of_nat i = optionIndex ->
              opt' = withVotes opt (opt_votes opt ++ [u_id cu])%list) /\
           (Z.of_nat i <> optionIndex -> opt' = opt)) /\
  (forall cu postId optionIndex p,
     p_id p <> postId \/ p_type p <> poll_post \/ p_pollData p = None ->
     voteOn cu postId optionIndex p = p) /\
  (forall cu st postId optionIndex,
     posts (onVote cu st postId optionIndex)
     = map (voteOn cu postId optionIndex) (posts st)) /\
  (forall st ops,
     atMostOneVote (posts st) -> atMostOneVote (posts (runVotes st ops))).
Proof.
  split; [| split; [| split; [| split]]].
  - intros cu postId optionIndex p pd Hpd Hv. unfold voteOn.
    destruct ((p_id p =? postId) && isPoll (p_type p)); [| reflexivity].
    rewrite Hpd, votePoll_eq, Hv. reflexivity.
  - intros cu postId optionIndex p pd Hid Ht Hpd Hv. unfold voteOn.
    apply Z.eqb_eq in Hid. rewrite Hid, Ht, Hpd. simpl.
    rewrite votePoll_eq, Hv.
    eexists. split; [reflexivity |]. simpl.
    split; [reflexivity |].
    split; [apply length_imap |].
    intros i opt Hopt. unfold addVote. eexists.
    split; [rewrite list_lookup_imap, Hopt; reflexivity |].
    simpl. destruct (Z.eqb_spec (Z.of_nat i) optionIndex); split; intros;
      congruence.
  - intros cu postId optionIndex p H. unfold voteOn.
    destruct (Z.eqb_spec (p_id p) postId) as [E | E]; [| reflexivity].
    destruct H as [H | [H | H]]; [contradiction | |].
    + destruct (p_type p); simpl; try reflexivity. congruence.
    + rewrite H. destruct (isPoll (p_type p)); reflexivity.
  - reflexivity.
  - intros st ops. revert st. induction ops as [| op ops IH]; intros st Hinv;
      [exact Hinv |].
    simpl. apply IH. apply onVote_bound. exact Hinv.
Qed.

(** ** Creating a festival *)

Section CreateFacts.
Variable LocalTime : Z -> Z.
Variable UTC : Z -> Z.
Variable dateValue : string -> option Z.

(** The new festival is appended and selected; its RSVP deadline is the
    ISO rendering of [getThursdayBefore] at the start date, and it has one
    pending participant per user. *)
Lemma handleCreateFestival_deadline (now : Z) (st : AppState)
    (festivalData : FestivalData) (startDate : Z) :
  dateValue (fd_startDate festivalData) = Some startDate ->
  exists f,
    handleCreateFestival LocalTime UTC dateValue now st festivalData
    = Some (setSelectedFestivalId
              (setFestivals st (festivals st ++ [f])%list) (f_id f)) /\
    f_rsvpDeadline f
    = toISOString (getThursdayBefore LocalTime UTC startDate) /\
    map fp_userId (f_participants f) = map u_id (users st) /\
    Forall (fun p => fp_status p = pending) (f_participants f).
Proof.
  intros H. unfold handleCreateFestival. rewrite H. cbv zeta.
  eexists. split; [reflexivity |]. simpl.
  split; [reflexivity |].
  split; [rewrite map_map; reflexivity |].
  apply Forall_forall. intros p Hp. apply list_elem_of_In, in_map_iff in Hp.
  destruct Hp as (u & <- & _). reflexivity.
Qed.

End CreateFacts.

Lemma parseDateOnly_midnight (s : string) (t : Z) :
  parseDateOnly s = Some t -> t = MakeDate (Day t) 0.
Proof.
  unfold parseDateOnly. intros H.
  repeat match type of H with
         | match ?x with _ => _ end = Some _ => destruct x; try discriminate
         | (if ?x then _ else _) = Some _ => destruct x; try discriminate
         end.
  injection H as <-. rewrite MakeDate_Day by (unfold msPerDay; lia).
  reflexivity.
Qed.

(** On a host at or east of UTC (by less than a day) the start date that
    [new Date('YYYY-MM-DD')] denotes falls on the same calendar day in local
    time, so the deadline of a new festival is counted from that day. *)
Lemma date_only_local_day (offset : Z) (s : string) (t : Z) :
  parseDateOnly s = Some t -> 0 <= offset < msPerDay ->
  Day (fixedLocalTime offset t) = Day t.
Proof.
  intros H Ho. apply parseDateOnly_midnight in H.
  unfold fixedLocalTime. rewrite H at 1.
  unfold MakeDate. rewrite Z.add_0_r.
  replace (Day t * msPerDay + offset) with (offset + Day t * msPerDay) by lia.
  rewrite Day_shift.
  assert (Day offset = 0)
    by (unfold Day, msPerDay in *; apply Z.div_small; lia).
  lia.
Qed.

(** A festival starting on Friday, 13 June 2025: on a host two hours east
    of UTC the deadline is Thursday, 12 June, 22:00 local time; on a host
    five hours west of UTC the start date reads as Thursday evening and the
    deadline falls on 5 June. *)
Example friday_deadline_east_and_west :
  parseDateOnly "2025-06-13" = Some 1749772800000 /\
  WeekDay 1749772800000 = 5 /\
  toISOString (getThursdayBefore (fixedLocalTime cest) (fixedUTC cest)
                                 1749772800000)
  = "2025-06-12T20:00:00.000Z" /\
  toISOString (getThursdayBefore (fixedLocalTime (-18000000))
                                 (fixedUTC (-18000000)) 1749772800000)
  = "2025-06-06T03:00:00.000Z".
Proof. vm_compute. repeat split; reflexivity. Qed.

Section DeadlineEast.
Variable LocalTime : Z -> Z.
Variable UTC : Z -> Z.

(** On a host whose local time is at or ahead of UTC by less than a day,
    daylight saving included, the deadline of a new festival is the
    Thursday, 22:00 local time, most recently before the start date that
    was entered. *)
Lemma handleCreateFestival_deadline_east (now : Z) (st : AppState)
    (festivalData : FestivalData) (startDate : Z) :
  (forall t, t <= LocalTime t < t + msPerDay) ->
  (forall x, x <= LocalTime (UTC x) <= x + msPerHour) ->
  (forall d, LocalTime (UTC (MakeDate d (MakeTime 22 0 0 0)))
             = MakeDate d (MakeTime 22 0 0 0)) ->
  parseDateOnly (fd_startDate festivalData) = Some startDate ->
  exists f deadline,
    handleCreateFestival LocalTime UTC parseDateOnly now st festivalData
    = Some (setSelectedFestivalId
              (setFestivals st (festivals st ++ [f])%list) (f_id f)) /\
    f_rsvpDeadline f = toISOString deadline /\
    WeekDay (LocalTime deadline) = 4 /\
    TimeWithinDay (LocalTime deadline) = MakeTime 22 0 0 0 /\
    Day startDate - 7 <= Day (LocalTime deadline) < Day startDate /\
    (forall d, Day (LocalTime deadline) < d < Day startDate ->
               WeekDayOfDay d <> 4).
Proof.
  intros Heast Hback H22 Hparse.
  destruct (handleCreateFestival_deadline LocalTime UTC parseDateOnly now st
              festivalData startDate Hparse) as (f & Hf & Hd & _).
  exists f, (getThursdayBefore LocalTime UTC startDate).
  split; [exact Hf |]. split; [exact Hd |].
  assert (HD : Day (LocalTime startDate) = Day startDate).
  { pose proof (parseDateOnly_midnight _ _ Hparse) as Hmid.
    pose proof (Heast startDate) as He. revert Hmid He.
    unfold MakeDate, Day, msPerDay. intros Hmid He.
    Z.div_mod_to_equations. lia. }
  pose proof (getThursdayBefore_most_recent_thursday LocalTime UTC Hback
                startDate) as H.
  cbv zeta in H. rewrite HD in H.
  destruct H as (H1 & _ & H2 & H3 & H4 & _).
  split; [exact H1 |]. split; [exact (H2 H22) |]. split; [exact H3 |].
  exact H4.
Qed.

End DeadlineEast.

(** The same festival on a host two hours ahead of UTC: the deadline is
    Thursday, 12 June, 22:00 local time, the day before the start date. *)
Example friday_deadline_two_hours_east (now : Z) (st : AppState) :
  exists f deadline,
    handleCreateFestival (fixedLocalTime cest) (fixedUTC cest) parseDateOnly
      now st fridayFestivalData
    = Some (setSelectedFestivalId
              (setFestivals st (festivals st ++ [f])%list) (f_id f)) /\
    f_rsvpDeadline f = toISOString deadline /\
    toISOString deadline = "2025-06-12T20:00:00.000Z" /\
    WeekDay (fixedLocalTime cest deadline) = 4 /\
    TimeWithinDay (fixedLocalTime cest deadline) = MakeTime 22 0 0 0 /\
    Day (fixedLocalTime cest deadline) = Day 1749772800000 - 1.
Proof.
  assert (Hparse : parseDateOnly (fd_startDate fridayFestivalData)
                   = Some 1749772800000) by (vm_compute; reflexivity).
  destruct (handleCreateFestival_deadline_east (fixedLocalTime cest)
              (fixedUTC cest) now st fridayFestivalData 1749772800000)
    as (f & deadline & Hf & Hd & Hw & Ht & Hday & Hnone).
  - intros t. unfold fixedLocalTime, cest, msPerDay. lia.
  - intros x. unfold fixedLocalTime, fixedUTC, msPerHour. lia.
  - intros x. unfold fixedLocalTime, fixedUTC. lia.
  - exact Hparse.
  - exists f, deadline. split; [exact Hf |]. split; [exact Hd |].
    assert (Hval : toISOString
                     (getThursdayBefore (fixedLocalTime cest) (fixedUTC cest)
                        1749772800000)
                   = "2025-06-12T20:00:00.000Z") by (vm_compute; reflexivity).
    assert (Hsame : f_rsvpDeadline f = "2025-06-12T20:00:00.000Z").
    { destruct (handleCreateFestival_deadline (fixedLocalTime cest)
                  (fixedUTC cest) parseDateOnly now st fridayFestivalData
                  1749772800000 Hparse) as (f' & Hf' & Hd' & _).
      rewrite Hf in Hf'. injection Hf' as Hf' _.
      apply app_inj_tail in Hf'. destruct Hf' as [_ <-].
      rewrite Hd'. exact Hval. }
    split; [rewrite <- Hd; exact Hsame |].
    split; [exact Hw |]. split; [exact Ht |].
    assert (Hthu : WeekDayOfDay (Day 1749772800000 - 1) = 4)
      by (vm_compute; reflexivity).
    destruct (Z.eq_dec (Day (fixedLocalTime cest deadline))
                       (Day 1749772800000 - 1)) as [E | E]; [exact E |].
    exfalso. apply (Hnone (Day 1749772800000 - 1)); [lia | exact Hthu].
Qed.

(** C5, on a host west of UTC.  A festival that starts on Friday, 13 June
    2025 is created on a host five hours behind UTC: the start date read
    from the form is midnight UTC, which is Thursday evening there; the
    deadline stored in the new festival is
    [2025-06-06T03:00:00.000Z], that is Thursday, 5 June, 22:00 local
    time, eight days before the start date, although Thursday, 12 June,
    lies strictly before the start date and after that deadline. *)
Theorem handleCreateFestival_deadline_west_of_utc (now : Z) (st : AppState) :
  parseDateOnly (fd_startDate fridayFestivalData) = Some 1749772800000 /\
  WeekDay 1749772800000 = 5 /\
  exists f,
    handleCreateFestival (fixedLocalTime utc_minus_5) (fixedUTC utc_minus_5)
      parseDateOnly now st fridayFestivalData
    = Some (setSelectedFestivalId
              (setFestivals st (festivals st ++ [f])%list) (f_id f)) /\
    f_rsvpDeadline f = "2025-06-06T03:00:00.000Z" /\
    f_rsvpDeadline f = toISOString 1749178800000 /\
    WeekDay (fixedLocalTime utc_minus_5 1749178800000) = 4 /\
    TimeWithinDay (fixedLocalTime utc_minus_5 1749178800000)
    = MakeTime 22 0 0 0 /\
    Day (fixedLocalTime utc_minus_5 1749178800000)
    = Day 1749772800000 - 8 /\
    WeekDayOfDay (Day 1749772800000 - 1) = 4 /\
    Day (fixedLocalTime utc_minus_5 1749178800000)
    < Day 1749772800000 - 1 < Day 1749772800000.
Proof.
  assert (Hparse : parseDateOnly (fd_startDate fridayFestivalData)
                   = Some 1749772800000) by (vm_compute; reflexivity).
  split; [exact Hparse |]. split; [vm_compute; reflexivity |].
  destruct (handleCreateFestival_deadline (fixedLocalTime utc_minus_5)
              (fixedUTC utc_minus_5) parseDateOnly now st fridayFestivalData
              1749772800000 Hparse) as (f & Hf & Hd & _).
  exists f. split; [exact Hf |].
  assert (Hval : getThursdayBefore (fixedLocalTime utc_minus_5)
                   (fixedUTC utc_minus_5) 1749772800000 = 1749178800000)
    by (vm_compute; reflexivity).
  rewrite Hval in Hd.
  split; [rewrite Hd; vm_compute; reflexivity |].
  split; [exact Hd |].
  vm_compute. repeat split; congruence.
Qed.

(* ================================================================== *)
(** * Persistence adapter                                              *)
(* ================================================================== *)

Import Persistence.

Section AdapterFacts.
Variable JSON_parse : string -> Result Value.
Variable mockUsers : list (list (string * Value)).
Variables MOCK_POSTS MOCK_FESTIVALS generatedAufguesse MOCK_AWARDS
          DEFAULT_AUFGUSS_TYPES DEFAULT_QUALIFICATIONS : Value.

Abbreviation safeParse := (safeJSONParse JSON_parse).
Abbreviation loadAll :=
  (loadAllData JSON_parse mockUsers MOCK_POSTS MOCK_FESTIVALS
     generatedAufguesse MOCK_AWARDS DEFAULT_AUFGUSS_TYPES
     DEFAULT_QUALIFICATIONS).
Abbreviation defaults :=
  (defaultData mockUsers MOCK_POSTS MOCK_FESTIVALS generatedAufguesse
     MOCK_AWARDS DEFAULT_AUFGUSS_TYPES DEFAULT_QUALIFICATIONS).
Abbreviation usersOf storage :=
  (migrateUsers (storedOr JSON_parse storage "users" (MOCK_USERS mockUsers))).

(** [safeJSONParse] always returns, with the stored value when there is one
    that parses and with the fallback otherwise. *)
Lemma safeJSONParse_eq (storage : Storage) (key : string) (fallback : Value) :
  safeParse storage key fallback
  = Ok (storedOr JSON_parse storage key fallback).
Proof.
  unfold safeJSONParse, storedOr.
  destruct (storage !! key) as [saved |]; [| reflexivity].
  destruct (String.eqb saved EmptyString); [reflexivity |].
  destruct (JSON_parse saved); reflexivity.
Qed.


Lemma storedOr_insert_ne (storage : Storage) (k k' text : string)
    (fallback : Value) :
  k <> k' ->
  storedOr JSON_parse (<[k := text]> storage) k' fallback
  = storedOr JSON_parse storage k' fallback.
Proof.
  intros Hne. unfold storedOr. rewrite lookup_insert_ne by exact Hne.
  reflexivity.
Qed.

Lemma getItemOr_insert_ne {A} (storage : Storage) (k k' text : string)
    (some : string -> A) (fallback : A) :
  k <> k' ->
  getItemOr (<[k := text]> storage) k' some fallback
  = getItemOr storage k' some fallback.
Proof.
  intros Hne. unfold getItemOr. rewrite lookup_insert_ne by exact Hne.
  reflexivity.
Qed.


(** The bulk load in closed form: when the users pass the migration every
    field is the value of its own key; when they do not, every field is
    reset to its default. *)
Lemma loadAllData_eq (storage : Storage) :
  loadAll storage
  = Ok match usersOf storage with
       | Ok users =>
           {| ld_users := users;
              ld_posts := storedOr JSON_parse storage "posts" MOCK_POSTS;
              ld_festivals :=
                storedOr JSON_parse storage "festivals" MOCK_FESTIVALS;
              ld_aufguesse :=
                storedOr JSON_parse storage "aufguesse" generatedAufguesse;
              ld_awards := storedOr JSON_parse storage "awards" MOCK_AWARDS;
              ld_aufgussTypes :=
                storedOr JSON_parse storage "aufgussTypes"
                         DEFAULT_AUFGUSS_TYPES;
              ld_availableQuals :=
                storedOr JSON_parse storage "availableQuals"
                         DEFAULT_QUALIFICATIONS;
              ld_registrationCode :=
                getItemOr storage "registrationCode" id "123456";
              ld_selectedFestivalId :=
                getItemOr storage "selectedFestivalId" Some None;
              ld_persistedBackgrounds :=
                storedOr JSON_parse storage "persistedBackgrounds" (VObj [])
           |}
       | Throw _ => defaults
       end.
Proof.
  unfold loadAllData. rewrite !safeJSONParse_eq. simpl.
  destruct (usersOf storage); reflexivity.
Qed.




End AdapterFacts.

(* ================================================================== *)
(** * The theorems at concrete inputs                                   *)
(* ================================================================== *)

Lemma handleDeleteQual_cascades_witness :
  let st' := handleDeleteQual sampleState "Ersthelfer" in
  availableQuals st' = ["Saunameister Basic"] /\
  map u_qualifications (users st')
    = [["Saunameister Basic"]; ["Saunameister Basic"]] /\
  exists u', users st' !! 1%nat = Some u' /\
    ~ In "Ersthelfer" (u_qualifications u') /\
    (forall q, q <> "Ersthelfer" ->
       (In q (u_qualifications u') <-> In q (u_qualifications sampleAnna))) /\
    u_qualifications u'
      = List.filter (fun q => strNe q "Ersthelfer")
                    (u_qualifications sampleAnna) /\
    sameButQualifications sampleAnna u'.
Proof.
  cbv zeta. split; [reflexivity |]. split; [reflexivity |].
  exact (proj2 (proj2 (proj2 (proj2
           (handleDeleteQual_cascades sampleState "Ersthelfer"))))
           1%nat sampleAnna eq_refl).
Defined.

Lemma handleLikePost_strict_toggle_witness :
  map p_likes (posts (handleLikePost sampleAnna feedState 1)) = [[1; 3]; [2]] /\
  map p_likes
    (posts (handleLikePost sampleAnna
              (handleLikePost sampleAnna feedState 1) 1)) = [[1]; [2]] /\
  map p_likes (posts (handleLikePost sampleMax feedState 3)) = [[1]; []] /\
  exists p1 p2,
    posts (handleLikePost sampleAnna feedState 1) !! 0%nat = Some p1 /\
    posts (handleLikePost sampleAnna
             (handleLikePost sampleAnna feedState 1) 1) !! 0%nat = Some p2 /\
    (p_id sampleTextPost <> 1 -> p1 = sampleTextPost /\ p2 = sampleTextPost) /\
    (p_id sampleTextPost = 1 ->
       p1 = withLikes sampleTextPost (p_likes p1) /\
       (In 3 (p_likes p1) <-> ~ In 3 (p_likes sampleTextPost)) /\
       (forall x, x <> 3 ->
          (In x (p_likes p1) <-> In x (p_likes sampleTextPost))) /\
       p2 = withLikes sampleTextPost (p_likes p2) /\
       (forall x, In x (p_likes p2) <-> In x (p_likes sampleTextPost)) /\
       (~ In 3 (p_likes sampleTextPost) -> p2 = sampleTextPost)).
Proof.
  split; [reflexivity |]. split; [reflexivity |]. split; [reflexivity |].
  exact (proj2 (handleLikePost_strict_toggle sampleAnna feedState 1)
           0%nat sampleTextPost eq_refl).
Defined.

Lemma onDeleteFestival_selection_witness :
  selectedFestivalId festivalState = "sommerfest-2024" /\
  map f_id (festivals (onDeleteFestival true festivalState "sommerfest-2024"))
    = ["fest-1756634400000"] /\
  selectedFestivalId (onDeleteFestival true festivalState "sommerfest-2024")
    = "fest-1756634400000".
Proof.
  split; [reflexivity |]. split; [reflexivity |].
  exact (proj1 (proj2 (proj2
           (onDeleteFestival_selection festivalState "sommerfest-2024")))
           eq_refl).
Defined.

Lemma samplePoll_bound : atMostOneVote (posts feedState).
Proof.
  intros p pd uid Hin Ht Hpd. simpl in Hin.
  destruct Hin as [<- | [<- | []]]; [discriminate Ht |].
  injection Hpd as <-.
  destruct (Z.eq_dec uid 2) as [-> | H2]; [vm_compute; lia |].
  destruct (Z.eq_dec uid 1) as [-> | H1]; [vm_compute; lia |].
  unfold userVotes. cbn -[Z.eqb].
  rewrite (proj2 (Z.eqb_neq 2 uid)), (proj2 (Z.eqb_neq 1 uid)) by lia.
  simpl. lia.
Qed.

Lemma onVote_one_vote_per_user_witness :
  atMostOneVote (posts feedState) /\
  map opt_votes
    (match p_pollData (voteOn sampleAnna 3 1 samplePollPost) with
     | Some pd => poll_options pd
     | None => []
     end) = [[2]; [3]; [1]] /\
  voteOn sampleAnna 3 0 (voteOn sampleAnna 3 1 samplePollPost)
    = voteOn sampleAnna 3 1 samplePollPost /\
  atMostOneVote
    (posts (runVotes feedState
              [mkVote sampleAnna 3 1; mkVote sampleAnna 3 0;
               mkVote sampleMax 3 2])).
Proof.
  split; [exact samplePoll_bound |]. split; [reflexivity |].
  split; [reflexivity |].
  exact (proj2 (proj2 (proj2 (proj2 onVote_one_vote_per_user)))
           feedState _ samplePoll_bound).
Defined.




(* ================================================================== *)
(** * Further handlers: login, registration, users                      *)
(* ================================================================== *)

Import Handlers.

(** X1. Login looks at the user name only: it succeeds, for every password,
    exactly when some user has that user name, and then logs in the first
    such user of the list and changes nothing else; otherwise it only
    raises the alert. *)
Theorem handleLogin_by_username_only (st : AppState)
    (username password : string) :
  (forall password', handleLogin st username password'
                     = handleLogin st username password) /\
  ((exists u, In u (users st) /\ u_username u = Some username) ->
   exists u before after,
     users st = (before ++ u :: after)%list /\
     u_username u = Some username /\
     (forall v, In v before -> u_username v <> Some username) /\
     handleLogin st username password
     = LoggedIn (setCurrentUser st (Some u))) /\
  ((forall u, In u (users st) -> u_username u <> Some username) ->
   handleLogin st username password = LoginAlert).
Proof.
  assert (Hmatch : forall u, usernameIs username u = true
                             <-> u_username u = Some username).
  { intros u. unfold usernameIs. destruct (u_username u) as [n |].
    - rewrite String.eqb_eq. split; congruence.
    - split; discriminate. }
  split; [reflexivity |]. unfold handleLogin. split.
  - intros (u0 & Hin & Hu0).
    assert (Hfind : exists u before after,
               users st = (before ++ u :: after)%list /\
               usernameIs username u = true /\
               (forall v, In v before -> usernameIs username v = false) /\
               List.find (usernameIs username) (users st) = Some u).
    { apply Hmatch in Hu0. revert Hin. generalize (users st) as l.
      intros l Hin.
      assert (Hex : exists v, In v l /\ usernameIs username v = true)
        by (exists u0; split; [exact Hin | exact Hu0]).
      clear Hin. induction l as [| x l IH]; [destruct Hex as (? & [] & _) |].
      simpl. destruct (usernameIs username x) eqn:Ex.
      - exists x, [], l. repeat split; auto. intros v [].
      - destruct IH as (u & before & after & -> & Hu & Hbefore & Hf).
        { destruct Hex as (v & [-> | Hv] & Hm); [congruence |].
          exists v. auto. }
        exists u, (x :: before), after. repeat split; auto.
        intros v [<- | Hv]; auto. }
    destruct Hfind as (u & before & after & Hsplit & Hu & Hbefore & Hf).
    exists u, before, after. rewrite Hf.
    split; [exact Hsplit |]. split; [apply Hmatch, Hu |].
    split; [| reflexivity].
    intros v Hv Hn. apply Hmatch in Hn. rewrite (Hbefore v Hv) in Hn.
    discriminate.
  - intros Hnone.
    destruct (List.find (usernameIs username) (users st)) as [u |] eqn:E;
      [| reflexivity].
    apply List.find_some in E. destruct E as [Hin Hu].
    apply Hmatch in Hu. exfalso. exact (Hnone u Hin Hu).
Qed.

Lemma handleLogin_by_username_only_witness :
  (exists u, In u (users sampleState) /\ u_username u = Some "anna") /\
  exists u,
    u_username u = Some "anna" /\
    handleLogin sampleState "anna" "not the password"
    = LoggedIn (setCurrentUser sampleState (Some u)).
Proof.
  assert (H : exists u, In u (users sampleState)
                        /\ u_username u = Some "anna").
  { exists sampleAnna. split; [simpl; auto | reflexivity]. }
  split; [exact H |].
  destruct (proj1 (proj2 (handleLogin_by_username_only sampleState "anna"
                            "not the password")) H)
    as (u & before & after & _ & Hu & _ & Hlogin).
  exists u. split; [exact Hu | exact Hlogin].
Defined.

Lemma hasParticipant_In (userId : Z) (f : Festival) :
  hasParticipant userId f = true <-> In userId (participantIds f).
Proof.
  unfold hasParticipant, participantIds. rewrite existsb_exists, in_map_iff.
  split.
  - intros (p & Hp & E). apply Z.eqb_eq in E. exists p. auto.
  - intros (p & E & Hp). exists p. split; [exact Hp | apply Z.eqb_eq, E].
Qed.

(** One festival as registration leaves it. *)
Lemma registration_festival (newUser : User) (f : Festival) :
  let f' :=
    if hasParticipant (u_id newUser) f then f
    else withParticipants f
           (f_participants f ++ [pendingParticipant newUser])%list in
  f_id f' = f_id f /\
  In (u_id newUser) (participantIds f') /\
  (In (u_id newUser) (participantIds f) -> f' = f) /\
  (~ In (u_id newUser) (participantIds f) ->
     participantIds f' = (participantIds f ++ [u_id newUser])%list) /\
  (forall i, In i (participantIds f) -> In i (participantIds f')) /\
  (List.NoDup (participantIds f) -> List.NoDup (participantIds f')).
Proof.
  cbv zeta. destruct (hasParticipant (u_id newUser) f) eqn:E.
  - apply hasParticipant_In in E. repeat split; auto. tauto.
  - assert (Hn : ~ In (u_id newUser) (participantIds f)).
    { rewrite <- hasParticipant_In, E. discriminate. }
    assert (Hids : participantIds
                     (withParticipants f
                        (f_participants f ++ [pendingParticipant newUser])%list)
                   = (participantIds f ++ [u_id newUser])%list).
    { unfold participantIds. simpl. rewrite map_app. reflexivity. }
    rewrite Hids. repeat split.
    + apply in_or_app. right. left. reflexivity.
    + tauto.
    + intros i Hi. apply in_or_app. left. exact Hi.
    + intros Hnd. apply List.NoDup_app.
      * exact Hnd.
      * constructor; [intros [] | constructor].
      * intros x Hx [<- | []]. exact (Hn Hx).
Qed.

(** X2. Registration appends the new user (with the id read from the
    clock) at the end of the user list and logs that user in; it keeps the
    festivals in place, leaves a festival that already has a participant
    with the new id exactly as it is, and appends one pending participant
    for the new user to every other festival, so that afterwards every
    festival has a participant with the new id. *)
Theorem handleCompleteRegistration_spec (idNow updateNow : Z)
    (avatar : string) (st : AppState) (newUserData : NewUserData) :
  let newUser := registeredUser idNow updateNow avatar newUserData in
  let st' :=
    handleCompleteRegistration idNow updateNow avatar st newUserData in
  users st' = (users st ++ [newUser])%list /\
  currentUser st' = Some newUser /\
  map f_id (festivals st') = map f_id (festivals st) /\
  posts st' = posts st /\ aufguesse st' = aufguesse st /\
  forall i f, festivals st !! i = Some f ->
    exists f', festivals st' !! i = Some f' /\
      In idNow (participantIds f') /\
      (In idNow (participantIds f) -> f' = f) /\
      (~ In idNow (participantIds f) ->
         f' = withParticipants f
                (f_participants f ++ [pendingParticipant newUser])%list /\
         fp_status (pendingParticipant newUser) = pending).
Proof.
  cbv zeta. unfold handleCompleteRegistration. cbv zeta. simpl.
  split; [reflexivity |]. split; [reflexivity |].
  split.
  { rewrite map_map. apply map_ext. intros f.
    destruct (hasParticipant idNow f); reflexivity. }
  split; [reflexivity |]. split; [reflexivity |].
  intros i f Hf. eexists. split; [apply lookup_map_Some; exact Hf |].
  simpl.
  pose proof (registration_festival
                (registeredUser idNow updateNow avatar newUserData) f) as H.
  cbv zeta in H. simpl in H.
  destruct H as (_ & Hin & Hsame & _ & _ & _).
  split; [exact Hin |]. split; [exact Hsame |].
  intros Hn. split; [| reflexivity].
  destruct (hasParticipant idNow f) eqn:E; [| reflexivity].
  apply hasParticipant_In in E. contradiction.
Qed.

Lemma handleCompleteRegistration_spec_witness :
  exists f',
    festivals (handleCompleteRegistration 1756634400000 1756634400001 "🔥"
                 festivalState sampleNewUser) !! 0%nat = Some f' /\
    In 1756634400000 (participantIds f') /\
    (In 1756634400000
        (participantIds (sampleFestival "sommerfest-2024"
                                        "Sommer-Saunafest 2024")) ->
     f' = sampleFestival "sommerfest-2024" "Sommer-Saunafest 2024") /\
    (~ In 1756634400000
         (participantIds (sampleFestival "sommerfest-2024"
                                         "Sommer-Saunafest 2024")) ->
     f' = withParticipants
            (sampleFestival "sommerfest-2024" "Sommer-Saunafest 2024")
            (f_participants (sampleFestival "sommerfest-2024"
                                            "Sommer-Saunafest 2024")
             ++ [pendingParticipant
                   (registeredUser 1756634400000 1756634400001 "🔥"
                                   sampleNewUser)])%list /\
     fp_status (pendingParticipant
                  (registeredUser 1756634400000 1756634400001 "🔥"
                                  sampleNewUser)) = pending).
Proof.
  exact (proj2 (proj2 (proj2 (proj2 (proj2
           (handleCompleteRegistration_spec 1756634400000 1756634400001 "🔥"
              festivalState sampleNewUser)))))
           0%nat _ eq_refl).
Defined.

(** ** The roster invariant *)

Lemma participantIds_map (g : FestivalParticipant -> FestivalParticipant)
    (f : Festival) :
  (forall p, fp_userId (g p) = fp_userId p) ->
  participantIds (withParticipants f (map g (f_participants f)))
  = participantIds f.
Proof.
  intros Hg. unfold participantIds. simpl. rewrite map_map.
  apply map_ext. exact Hg.
Qed.

Lemma NoDup_map_filter {A B} (g : A -> B) (keep : A -> bool) (l : list A) :
  List.NoDup (map g l) -> List.NoDup (map g (List.filter keep l)).
Proof.
  induction l as [| x l IH]; simpl; intros H; [constructor |].
  inversion H as [| ? ? Hx Hl]; subst.
  destruct (keep x); simpl; [| apply IH, Hl].
  constructor; [| apply IH, Hl].
  intros Hin. apply Hx. apply in_map_iff in Hin.
  destruct Hin as (y & E & Hy). apply List.filter_In in Hy.
  apply in_map_iff. exists y. tauto.
Qed.

(** Changing festivals one by one, every festival becoming a festival with
    the participant ids of some old festival, keeps the roster in order as
    long as the users are the same. *)
Lemma rosterOk_festivals (st : AppState) (fs : list Festival) :
  rosterOk st ->
  (forall f', In f' fs ->
     exists f, In f (festivals st) /\ participantIds f' = participantIds f) ->
  rosterOk (setFestivals st fs).
Proof.
  intros [Hu Hf] Hfs. split; [exact Hu |]. simpl.
  intros f' Hin. destruct (Hfs f' Hin) as (f & Hfin & ->).
  apply Hf. exact Hfin.
Qed.

Lemma updateSelected_festivals (st : AppState)
    (change : Festival -> Festival) :
  festivals (FestivalPlanner.updateSelected st change)
  = match FestivalPlanner.selectedFestival st with
    | Some sel =>
        map (fun f => if String.eqb (f_id f) (f_id (change sel))
                      then change sel else f)
            (festivals st)
    | None => festivals st
    end /\
  users (FestivalPlanner.updateSelected st change) = users st /\
  posts (FestivalPlanner.updateSelected st change) = posts st /\
  aufguesse (FestivalPlanner.updateSelected st change) = aufguesse st /\
  selectedFestivalId (FestivalPlanner.updateSelected st change)
  = selectedFestivalId st.
Proof.
  unfold FestivalPlanner.updateSelected.
  destruct (FestivalPlanner.selectedFestival st); repeat split; reflexivity.
Qed.

Lemma rosterOk_updateSelected (st : AppState)
    (change : Festival -> Festival) :
  (forall f, participantIds (change f) = participantIds f) ->
  rosterOk st -> rosterOk (FestivalPlanner.updateSelected st change).
Proof.
  intros Hc Hok. unfold FestivalPlanner.updateSelected.
  destruct (FestivalPlanner.selectedFestival st) as [sel |] eqn:E;
    [| exact Hok].
  apply List.find_some in E. destruct E as [Hsel _].
  apply rosterOk_festivals; [exact Hok |].
  intros f' Hin. apply in_map_iff in Hin. destruct Hin as (f & <- & Hf).
  destruct (String.eqb (f_id f) (f_id (change sel))).
  - exists sel. split; [exact Hsel | apply Hc].
  - exists f. split; [exact Hf | reflexivity].
Qed.

(** X3. The roster invariant (user ids unique; in every festival a
    participant record for every user and no two records for one user id)
    is kept by registration with an id no user has yet, by the creation of
    a festival, by RSVP, availability changes, task claims and releases,
    by logging hours, and by deleting a user. *)
Theorem rosterOk_preserved (st : AppState) :
  rosterOk st ->
  (forall idNow updateNow avatar newUserData,
     ~ In idNow (map u_id (users st)) ->
     rosterOk (handleCompleteRegistration idNow updateNow avatar st
                                          newUserData)) /\
  (forall LocalTime UTC dateValue now festivalData st',
     handleCreateFestival LocalTime UTC dateValue now st festivalData
     = Some st' -> rosterOk st') /\
  (forall user status, rosterOk (FestivalPlanner.handleRsvp user st status)) /\
  (forall user time checked,
     rosterOk (FestivalPlanner.handleAvailabilityChange user st time checked))
  /\
  (forall user taskId, rosterOk (FestivalPlanner.handleTaskClaim user st taskId))
  /\
  (forall taskId, rosterOk (FestivalPlanner.handleTaskRelease st taskId)) /\
  (forall festivalId hours, rosterOk (handleLogHours st festivalId hours)) /\
  (forall confirmed userId, rosterOk (handleDeleteUser confirmed st userId)).
Proof.
  intros Hok. pose proof Hok as [Hu Hf].
  split; [| split; [| split; [| split; [| split; [| split; [| split]]]]]].
  - intros idNow updateNow avatar newUserData Hfresh.
    unfold handleCompleteRegistration. cbv zeta. split; simpl.
    + rewrite map_app. simpl. apply List.NoDup_app.
      * exact Hu.
      * constructor; [intros [] | constructor].
      * intros x Hx [<- | []]. exact (Hfresh Hx).
    + intros f' Hin. apply in_map_iff in Hin. destruct Hin as (f & <- & Hin).
      pose proof (registration_festival
                    (registeredUser idNow updateNow avatar newUserData) f)
        as H.
      cbv zeta in H. simpl in H.
      destruct H as (_ & Hnew & _ & _ & Hkeep & Hnd).
      destruct (Hf f Hin) as [Hndf Hcov].
      split; [exact (Hnd Hndf) |].
      intros u Hu'. apply in_app_iff in Hu'. destruct Hu' as [Hu' | [<- | []]].
      * apply Hkeep, Hcov, Hu'.
      * exact Hnew.
  - intros LocalTime UTC dateValue now festivalData st'.
    unfold handleCreateFestival.
    destruct (dateValue (fd_startDate festivalData)); [| discriminate].
    cbv zeta. intros E. injection E as <-. split; [exact Hu |]. simpl.
    intros f Hin. apply in_app_iff in Hin. destruct Hin as [Hin | [<- | []]].
    + apply Hf, Hin.
    + unfold participantIds. simpl. rewrite map_map. simpl. split.
      * exact Hu.
      * intros u Hin. apply in_map. exact Hin.
  - intros user status. apply rosterOk_updateSelected; [| exact Hok].
    intros f. apply participantIds_map. intros p.
    destruct (fp_userId p =? u_id user); reflexivity.
  - intros user time checked. apply rosterOk_updateSelected; [| exact Hok].
    intros f. apply participantIds_map. intros p.
    destruct (fp_userId p =? u_id user); reflexivity.
  - intros user taskId. apply rosterOk_updateSelected; [| exact Hok].
    intros f. reflexivity.
  - intros taskId. apply rosterOk_updateSelected; [| exact Hok].
    intros f. reflexivity.
  - intros festivalId hours. unfold handleLogHours.
    destruct (currentUser st) as [cu |]; [| exact Hok].
    cbv zeta. split; simpl.
    + rewrite map_map.
      replace (map (fun x => u_id (if u_id x =? u_id cu
                                   then withWorkHours x (u_workHours x + hours)
                                   else x)) (users st))
        with (map u_id (users st)); [exact Hu |].
      apply map_ext. intros u. destruct (u_id u =? u_id cu); reflexivity.
    + intros f' Hin. apply in_map_iff in Hin. destruct Hin as (f & <- & Hin).
      assert (Hids : participantIds
                (if String.eqb (f_id f) festivalId
                 then withParticipants f
                        (map (fun p => if fp_userId p =? u_id cu
                                       then withHours p hours else p)
                             (f_participants f))
                 else f) = participantIds f).
      { destruct (String.eqb (f_id f) festivalId); [| reflexivity].
        apply participantIds_map. intros p.
        destruct (fp_userId p =? u_id cu); reflexivity. }
      rewrite Hids. destruct (Hf f Hin) as [Hnd Hcov]. split; [exact Hnd |].
      intros u' Hu'. apply in_map_iff in Hu'. destruct Hu' as (u & <- & Hu').
      replace (u_id (if u_id u =? u_id cu
                     then withWorkHours u (u_workHours u + hours) else u))
        with (u_id u) by (destruct (u_id u =? u_id cu); reflexivity).
      apply Hcov, Hu'.
  - intros confirmed userId. unfold handleDeleteUser.
    destruct confirmed; [| exact Hok]. split; simpl.
    + apply NoDup_map_filter, Hu.
    + intros f Hin. destruct (Hf f Hin) as [Hnd Hcov]. split; [exact Hnd |].
      intros u Hu'. apply List.filter_In in Hu'. apply Hcov. tauto.
Qed.

(** ** The selected festival *)

Lemma selectionOk_ids (st st' : AppState) :
  map f_id (festivals st') = map f_id (festivals st) ->
  selectedFestivalId st' = selectedFestivalId st ->
  selectionOk st -> selectionOk st'.
Proof.
  unfold selectionOk. intros Hids Hsel.
  destruct (festivals st) as [| f fs], (festivals st') as [| f' fs'];
    try discriminate; rewrite Hsel; [auto |].
  rewrite Hids. auto.
Qed.

Lemma handleUpdateFestival_ids (st : AppState) (updatedFestival : Festival) :
  map f_id (festivals (handleUpdateFestival st updatedFestival))
  = map f_id (festivals st).
Proof.
  simpl. rewrite map_map. apply map_ext. intros f.
  destruct (String.eqb_spec (f_id f) (f_id updatedFestival)); congruence.
Qed.

(** X4. The selection always names a festival of the list, or is empty when
    the list is empty: the initial load establishes this for every saved id,
    and deleting a festival, creating one, updating one and selecting a
    listed festival keep it. *)
Theorem selectionOk_preserved :
  (forall st loaded savedId,
     selectionOk (setSelectedFestivalId (setFestivals st loaded)
                    (initialSelection loaded savedId))) /\
  (forall st confirmed festivalId,
     selectionOk st -> selectionOk (onDeleteFestival confirmed st festivalId))
  /\
  (forall LocalTime UTC dateValue now st festivalData st',
     handleCreateFestival LocalTime UTC dateValue now st festivalData
     = Some st' -> selectionOk st') /\
  (forall st updatedFestival,
     selectionOk st -> selectionOk (handleUpdateFestival st updatedFestival))
  /\
  (forall st f, In f (festivals st) ->
     selectionOk (handleSelectFestival st (f_id f))).
Proof.
  split; [| split; [| split; [| split]]].
  - intros st loaded savedId. unfold selectionOk, initialSelection. simpl.
    destruct loaded as [| first rest]; [reflexivity |].
    destruct savedId as [saved |]; [| left; reflexivity].
    destruct (negb (String.eqb saved EmptyString)
              && existsb (fun f => String.eqb (f_id f) saved) (first :: rest))
      eqn:E; [| left; reflexivity].
    apply andb_true_iff in E. destruct E as [_ E].
    apply existsb_exists in E. destruct E as (f & Hf & E).
    apply String.eqb_eq in E. subst saved. apply in_map. exact Hf.
  - intros st confirmed festivalId Hok. unfold onDeleteFestival.
    destruct confirmed; [| exact Hok]. cbv zeta.
    destruct (String.eqb_spec (selectedFestivalId st) festivalId) as [E | E].
    + unfold selectionOk. simpl.
      destruct (List.filter (fun f => strNe (f_id f) festivalId)
                            (festivals st)) as [| f fs];
        [reflexivity | left; reflexivity].
    + unfold selectionOk in *. simpl.
      destruct (festivals st) as [| g gs] eqn:Eg; [exact Hok |].
      assert (Hin : In (selectedFestivalId st)
                (map f_id (List.filter (fun f => strNe (f_id f) festivalId)
                                       (g :: gs)))).
      { apply in_map_iff in Hok. destruct Hok as (f & Hid & Hf).
        apply in_map_iff. exists f. split; [exact Hid |].
        apply List.filter_In. split; [exact Hf |].
        apply strNe_true. congruence. }
      destruct (List.filter (fun f => strNe (f_id f) festivalId) (g :: gs));
        [destruct Hin | exact Hin].
  - intros LocalTime UTC dateValue now st festivalData st'.
    unfold handleCreateFestival.
    destruct (dateValue (fd_startDate festivalData)); [| discriminate].
    cbv zeta. intros E. injection E as <-. unfold selectionOk. simpl.
    destruct (festivals st) as [| g gs]; simpl; [left; reflexivity |].
    right. rewrite map_app. apply in_or_app. right. left. reflexivity.
  - intros st updatedFestival Hok.
    apply (selectionOk_ids st); [apply handleUpdateFestival_ids | reflexivity
                                | exact Hok].
  - intros st f Hin. unfold selectionOk. simpl.
    destruct (festivals st) as [| g gs]; [destruct Hin |].
    apply in_map. exact Hin.
Qed.

Lemma selectionOk_preserved_witness :
  selectionOk festivalState /\
  selectionOk (onDeleteFestival true festivalState "sommerfest-2024") /\
  selectedFestivalId
    (onDeleteFestival true
       (onDeleteFestival true festivalState "sommerfest-2024")
       "fest-1756634400000") = EmptyString.
Proof.
  assert (H : selectionOk festivalState) by (left; reflexivity).
  split; [exact H |]. split; [| reflexivity].
  exact (proj1 (proj2 selectionOk_preserved) festivalState true
           "sommerfest-2024" H).
Defined.

(** ** Logging hours *)

(** X5. Logging hours writes the hours into the acting user's participant
    record of the festival and adds them to the user's total; there is no
    check of [hoursLogged]: logging [h1] and then [h2] for the same
    festival leaves [h2] in the participant record and raises the total by
    [h1 + h2].  Without a logged-in user nothing happens. *)
Theorem handleLogHours_accumulates (st : AppState) (cu : User)
    (festivalId : string) (h1 h2 : Z) :
  currentUser st = Some cu ->
  let st1 := handleLogHours st festivalId h1 in
  let st2 := handleLogHours st1 festivalId h2 in
  (forall i u, users st !! i = Some u ->
     exists u1 u2, users st1 !! i = Some u1 /\ users st2 !! i = Some u2 /\
       (u_id u = u_id cu ->
          u1 = withWorkHours u (u_workHours u + h1) /\
          u2 = withWorkHours u (u_workHours u + h1 + h2)) /\
       (u_id u <> u_id cu -> u1 = u /\ u2 = u)) /\
  (forall i f, festivals st !! i = Some f ->
     exists f1 f2, festivals st1 !! i = Some f1 /\
       festivals st2 !! i = Some f2 /\
       (f_id f <> festivalId -> f1 = f /\ f2 = f) /\
       (f_id f = festivalId ->
          forall j p, f_participants f !! j = Some p ->
            exists p1 p2, f_participants f1 !! j = Some p1 /\
              f_participants f2 !! j = Some p2 /\
              (fp_userId p = u_id cu ->
                 p1 = withHours p h1 /\ p2 = withHours p h2 /\
                 fp_workHours p2 = h2 /\ fp_hoursLogged p2 = true) /\
              (fp_userId p <> u_id cu -> p1 = p /\ p2 = p))) /\
  handleLogHours (setCurrentUser st None) festivalId h1
  = setCurrentUser st None.
Proof.
  intros Hcu. cbv zeta.
  assert (Hcu1 : currentUser (handleLogHours st festivalId h1) = Some cu).
  { unfold handleLogHours. rewrite Hcu. exact Hcu. }
  split; [| split; [| reflexivity]].
  - intros i u Hu.
    unfold handleLogHours at 2. rewrite Hcu1. cbv zeta.
    unfold handleLogHours. rewrite Hcu. cbv zeta. simpl.
    eexists. eexists.
    split; [apply lookup_map_Some; exact Hu |].
    split; [apply lookup_map_Some, lookup_map_Some; exact Hu |].
    destruct (Z.eqb_spec (u_id u) (u_id cu)) as [E | E].
    + split; [| contradiction]. intros _. split; [reflexivity |].
      simpl. rewrite (proj2 (Z.eqb_eq _ _) E). reflexivity.
    + split; [contradiction |]. intros _.
      rewrite (proj2 (Z.eqb_neq _ _) E). auto.
  - intros i f Hf.
    unfold handleLogHours at 2. rewrite Hcu1. cbv zeta.
    unfold handleLogHours. rewrite Hcu. cbv zeta. simpl.
    eexists. eexists.
    split; [apply lookup_map_Some; exact Hf |].
    split; [apply lookup_map_Some, lookup_map_Some; exact Hf |].
    destruct (String.eqb_spec (f_id f) festivalId) as [E | E].
    + split; [contradiction |]. intros _. simpl.
      rewrite (proj2 (String.eqb_eq _ _) E).
      intros j p Hp. eexists. eexists.
      split; [apply lookup_map_Some; exact Hp |].
      split; [simpl; apply lookup_map_Some, lookup_map_Some; exact Hp |].
      destruct (Z.eqb_spec (fp_userId p) (u_id cu)) as [Ep | Ep].
      * split; [| contradiction]. intros _. simpl.
        rewrite (proj2 (Z.eqb_eq _ _) Ep). repeat split.
      * split; [contradiction |]. intros _.
        rewrite (proj2 (Z.eqb_neq _ _) Ep). auto.
    + split; [| contradiction]. intros _.
      rewrite (proj2 (String.eqb_neq _ _) E). auto.
Qed.

(* ================================================================== *)
(** * The festival planner view                                        *)
(* ================================================================== *)

Import FestivalPlanner.

(** ** The order that [sort()] uses *)

Lemma ascii_compare_cases (a b : ascii) :
  (Ascii.compare a b = Eq /\ a = b) \/
  (Ascii.compare a b = Lt /\ (N_of_ascii a < N_of_ascii b)%N) \/
  (Ascii.compare a b = Gt /\ (N_of_ascii b < N_of_ascii a)%N).
Proof.
  destruct (Ascii.compare a b) eqn:E.
  - left. split; [reflexivity | apply Ascii.compare_eq_iff, E].
  - right. left. split; [reflexivity | apply N.compare_lt_iff, E].
  - right. right. split; [reflexivity | apply N.compare_gt_iff, E].
Qed.

Lemma string_leb_trans (s1 s2 s3 : string) :
  String.leb s1 s2 = true -> String.leb s2 s3 = true ->
  String.leb s1 s3 = true.
Proof.
  unfold String.leb. revert s2 s3.
  induction s1 as [| a s1 IH]; intros [| b s2] [| c s3]; simpl;
    try (intros; reflexivity); try (intros; discriminate).
  destruct (ascii_compare_cases a b) as [[-> ->] | [[-> Hab] | [-> Hab]]];
    destruct (ascii_compare_cases b c) as [[E ->] | [[E Hbc] | [E Hbc]]];
    try rewrite E; try (intros; discriminate).
  - apply IH.
  - intros _ _. reflexivity.
  - intros _ _.
    destruct (ascii_compare_cases a c) as [[_ H] | [[E' _] | [_ H]]];
      [subst; lia | rewrite E'; reflexivity | lia].
  - intros _ _.
    destruct (ascii_compare_cases a c) as [[_ H] | [[E' _] | [_ H]]];
      [subst; lia | rewrite E'; reflexivity | lia].
Qed.

Lemma insertSorted_perm (x : string) (xs : list string) :
  Permutation (insertSorted x xs) (x :: xs).
Proof.
  induction xs as [| y ys IH]; simpl; [reflexivity |].
  destruct (String.leb x y); [reflexivity |].
  rewrite IH. apply perm_swap.
Qed.

Lemma sortStrings_perm (xs : list string) : Permutation (sortStrings xs) xs.
Proof.
  induction xs as [| x xs IH]; simpl; [reflexivity |].
  rewrite insertSorted_perm, IH. reflexivity.
Qed.

Lemma insertSorted_sorted (x : string) (xs : list string) :
  StronglySorted lebP xs -> StronglySorted lebP (insertSorted x xs).
Proof.
  induction xs as [| y ys IH]; intros Hs; simpl.
  - constructor; constructor.
  - inversion Hs as [| ? ? Hys Hall]; subst.
    destruct (String.leb x y) eqn:E.
    + constructor; [exact Hs |]. constructor; [exact E |].
      eapply List.Forall_impl; [| exact Hall].
      intros z Hz. exact (string_leb_trans x y z E Hz).
    + constructor; [apply IH, Hys |].
      assert (Hyx : lebP y x).
      { destruct (String.leb_total x y) as [H | H]; [congruence | exact H]. }
      apply List.Forall_forall. intros z Hz.
      apply (Permutation_in _ (insertSorted_perm x ys)) in Hz.
      destruct Hz as [<- | Hz]; [exact Hyx |].
      rewrite List.Forall_forall in Hall. exact (Hall z Hz).
Qed.

Lemma sortStrings_sorted (xs : list string) :
  StronglySorted lebP (sortStrings xs).
Proof.
  induction xs as [| x xs IH]; simpl; [constructor |].
  apply insertSorted_sorted, IH.
Qed.

Lemma insertSorted_head (x : string) (xs : list string) :
  List.Forall (lebP x) xs -> insertSorted x xs = x :: xs.
Proof.
  destruct xs as [| y ys]; [reflexivity |]. intros H.
  inversion H as [| ? ? Hxy _]; subst. simpl. rewrite Hxy. reflexivity.
Qed.

Lemma sortStrings_id (xs : list string) :
  StronglySorted lebP xs -> sortStrings xs = xs.
Proof.
  induction 1 as [| x xs Hs IH Hall]; simpl; [reflexivity |].
  rewrite IH. apply insertSorted_head, Hall.
Qed.

Lemma filter_insertSorted (keep : string -> bool) (x : string)
    (xs : list string) :
  StronglySorted lebP xs ->
  List.filter keep (insertSorted x xs)
  = if keep x then insertSorted x (List.filter keep xs)
    else List.filter keep xs.
Proof.
  induction 1 as [| y ys Hs IH Hall]; simpl.
  - destruct (keep x); reflexivity.
  - destruct (String.leb x y) eqn:E; simpl.
    + destruct (keep x) eqn:Ex; [| reflexivity].
      destruct (keep y) eqn:Ey; simpl; [rewrite E; reflexivity |].
      symmetry. apply insertSorted_head.
      apply List.Forall_forall. intros z Hz.
      apply List.filter_In in Hz. destruct Hz as [Hz _].
      rewrite List.Forall_forall in Hall.
      exact (string_leb_trans x y z E (Hall z Hz)).
    + rewrite IH.
      destruct (keep y) eqn:Ey, (keep x) eqn:Ex; simpl; try reflexivity.
      rewrite E. reflexivity.
Qed.

Lemma filter_sortStrings (keep : string -> bool) (xs : list string) :
  List.filter keep (sortStrings xs) = sortStrings (List.filter keep xs).
Proof.
  induction xs as [| x xs IH]; simpl; [reflexivity |].
  rewrite filter_insertSorted by apply sortStrings_sorted.
  rewrite IH. destruct (keep x); reflexivity.
Qed.

Lemma filter_strNe_absent (t : string) (xs : list string) :
  ~ In t xs -> List.filter (fun x => strNe x t) xs = xs.
Proof.
  induction xs as [| x xs IH]; simpl; intros H; [reflexivity |].
  destruct (strNe x t) eqn:E.
  - f_equal. apply IH. tauto.
  - exfalso. apply H. left.
    destruct (String.eqb_spec x t) as [-> | Hne]; [reflexivity |].
    apply strNe_true in Hne. congruence.
Qed.

(** X7. The availability list of the festival planner.  Ticking a time
    gives the old entries and the new time, each as often as before (a time
    already listed is listed twice), in ascending order; unticking a time
    removes every copy of it and keeps the others, each as often as before
    and in their order (the result is the list filtered for the other
    times: piece by piece, every other entry staying where it is); and
    ticking then unticking a time yields the sorted list of the other
    entries, which is the list before when that was sorted and did not
    hold the time. *)
Theorem newAvailability_spec (current : list string) (time : string) :
  Permutation (newAvailability current time true) (current ++ [time])%list /\
  StronglySorted lebP (newAvailability current time true) /\
  newAvailability current time false
  = List.filter (fun t => strNe t time) current /\
  (forall before after, current = (before ++ after)%list ->
     newAvailability current time false
     = (newAvailability before time false
        ++ newAvailability after time false)%list) /\
  (forall t, t <> time -> newAvailability [t] time false = [t]) /\
  newAvailability [time] time false = [] /\
  ~ In time (newAvailability current time false) /\
  (forall t, t <> time ->
     (In t (newAvailability current time false) <-> In t current)) /\
  newAvailability (newAvailability current time true) time false
  = sortStrings (List.filter (fun t => strNe t time) current) /\
  (StronglySorted lebP current -> ~ In time current ->
   newAvailability (newAvailability current time true) time false = current).
Proof.
  unfold newAvailability.
  assert (Hround :
    List.filter (fun t => strNe t time) (sortStrings (current ++ [time]))
    = sortStrings (List.filter (fun t => strNe t time) current)).
  { rewrite filter_sortStrings, List.filter_app. simpl.
    unfold strNe at 2. rewrite String.eqb_refl. simpl.
    rewrite app_nil_r. reflexivity. }
  split; [apply sortStrings_perm |].
  split; [apply sortStrings_sorted |].
  split; [reflexivity |].
  split; [intros before after ->; apply List.filter_app |].
  split.
  { intros t Ht. simpl. apply strNe_true in Ht. rewrite Ht. reflexivity. }
  split; [simpl; unfold strNe; rewrite String.eqb_refl; reflexivity |].
  split; [rewrite In_filter_strNe; tauto |].
  split; [intros t Ht; rewrite In_filter_strNe; tauto |].
  split; [exact Hround |].
  intros Hs Hn. rewrite Hround, filter_strNe_absent by exact Hn.
  apply sortStrings_id, Hs.
Qed.

Lemma newAvailability_spec_witness :
  StronglySorted lebP ["10:00"; "14:00"; "18:00"] /\
  ~ In "12:00" ["10:00"; "14:00"; "18:00"] /\
  newAvailability ["10:00"; "14:00"; "18:00"] "12:00" true
  = ["10:00"; "12:00"; "14:00"; "18:00"] /\
  newAvailability
    (newAvailability ["10:00"; "14:00"; "18:00"] "12:00" true) "12:00" false
  = ["10:00"; "14:00"; "18:00"].
Proof.
  assert (Hs : StronglySorted lebP ["10:00"; "14:00"; "18:00"]).
  { repeat (constructor; [| repeat constructor]). constructor. }
  assert (Hn : ~ In "12:00" ["10:00"; "14:00"; "18:00"]).
  { simpl. intros [H | [H | [H | []]]]; discriminate H. }
  split; [exact Hs |]. split; [exact Hn |]. split; [reflexivity |].
  exact (proj2 (proj2 (proj2 (proj2 (proj2 (proj2 (proj2 (proj2 (proj2
           (newAvailability_spec ["10:00"; "14:00"; "18:00"] "12:00")))))))))
           Hs Hn).
Defined.

(** ** RSVP and tasks through [handleUpdateFestival] *)

(** With unique festival ids, a change of the selected festival rewrites
    that festival in place and nothing else; a selection that names no
    festival changes nothing. *)
Lemma updateSelected_unique (st : AppState) (change : Festival -> Festival) :
  List.NoDup (map f_id (festivals st)) ->
  (forall f, f_id (change f) = f_id f) ->
  festivals (updateSelected st change)
  = map (fun f => if String.eqb (f_id f) (selectedFestivalId st)
                  then change f else f)
        (festivals st).
Proof.
  intros Hnd Hid. unfold updateSelected, selectedFestival.
  destruct (List.find (fun f => String.eqb (f_id f) (selectedFestivalId st))
                      (festivals st)) as [sel |] eqn:E.
  - apply List.find_some in E. destruct E as [Hsel Es].
    apply String.eqb_eq in Es. simpl. apply map_ext_in. intros f Hf.
    rewrite Hid, Es.
    destruct (String.eqb_spec (f_id f) (selectedFestivalId st)) as [Ef | Ef];
      [| reflexivity].
    f_equal. apply (NoDup_map_inj f_id (festivals st)); congruence.
  - rewrite <- (map_id (festivals st)) at 1. apply map_ext_in.
    intros f Hf. apply (List.find_none _ _ E) in Hf. simpl in Hf.
    rewrite Hf. reflexivity.
Qed.

(** X6. RSVP, in a state with unique festival ids: in the selected festival
    every participant record of the acting user gets the chosen status and
    keeps all its other fields; the other participants, the tasks and all
    other fields of that festival, every other festival, the users and the
    selection stay as they are; the deadline is not looked at.  When the
    selection names no festival nothing changes. *)
Theorem handleRsvp_spec (user : User) (st : AppState)
    (status : ParticipantStatus) :
  List.NoDup (map f_id (festivals st)) ->
  let st' := handleRsvp user st status in
  users st' = users st /\ selectedFestivalId st' = selectedFestivalId st /\
  (forall i f, festivals st !! i = Some f ->
     exists f', festivals st' !! i = Some f' /\
       (f_id f <> selectedFestivalId st -> f' = f) /\
       (f_id f = selectedFestivalId st ->
          f' = withParticipants f (f_participants f') /\
          forall j p, f_participants f !! j = Some p ->
            exists p', f_participants f' !! j = Some p' /\
              (fp_userId p = u_id user -> p' = withStatus p status) /\
              (fp_userId p <> u_id user -> p' = p))) /\
  ((forall f, In f (festivals st) -> f_id f <> selectedFestivalId st) ->
   st' = st).
Proof.
  intros Hnd. cbv zeta. unfold handleRsvp.
  set (change := fun sel : Festival =>
         withParticipants sel
           (map (fun p => if fp_userId p =? u_id user
                          then withStatus p status else p)
                (f_participants sel))).
  pose proof (updateSelected_festivals st change) as (_ & Hu & _ & _ & Hs).
  pose proof (updateSelected_unique st change Hnd (fun f => eq_refl)) as Hf.
  split; [exact Hu |]. split; [exact Hs |]. split.
  - intros i f Hi. rewrite Hf. eexists.
    split; [apply lookup_map_Some; exact Hi |]. simpl.
    destruct (String.eqb_spec (f_id f) (selectedFestivalId st)) as [E | E].
    + split; [contradiction |]. intros _. split; [reflexivity |].
      intros j p Hp. eexists.
      split; [simpl; apply lookup_map_Some; exact Hp |]. simpl.
      destruct (Z.eqb_spec (fp_userId p) (u_id user)); split; intros;
        try reflexivity; contradiction.
    + split; [reflexivity | contradiction].
  - intros Hnone. unfold updateSelected, selectedFestival.
    destruct (List.find (fun f => String.eqb (f_id f) (selectedFestivalId st))
                        (festivals st)) as [sel |] eqn:E; [| reflexivity].
    apply List.find_some in E. destruct E as [Hsel Es].
    apply String.eqb_eq in Es. exfalso. exact (Hnone sel Hsel Es).
Qed.

Lemma plannerState_ids : List.NoDup (map f_id (festivals plannerState)).
Proof.
  simpl. constructor; [simpl; intros [H | []]; discriminate H |].
  constructor; [intros [] | constructor].
Qed.

Lemma handleRsvp_spec_witness :
  List.NoDup (map f_id (festivals plannerState)) /\
  map (fun f => map fp_status (f_participants f))
      (festivals (handleRsvp sampleAnna plannerState not_attending))
  = [[attending; not_attending]; []] /\
  users (handleRsvp sampleAnna plannerState not_attending)
  = users plannerState.
Proof.
  split; [exact plannerState_ids |]. split; [reflexivity |].
  exact (proj1 (handleRsvp_spec sampleAnna plannerState not_attending
                  plannerState_ids)).
Defined.

(** X8. Tasks, in a state with unique festival ids: claiming a task makes
    the acting user responsible for every task with that id in the selected
    festival, whoever held it before (there is no check of the current
    holder), releasing sets it to nobody, and so releasing after claiming
    leaves the task with nobody; the other tasks, the participants and the
    other festivals stay as they are. *)
Theorem handleTaskClaim_release_spec (user : User) (st : AppState)
    (taskId : Z) :
  List.NoDup (map f_id (festivals st)) ->
  let claimed := handleTaskClaim user st taskId in
  let released := handleTaskRelease claimed taskId in
  forall i f, festivals st !! i = Some f ->
    exists f1 f2, festivals claimed !! i = Some f1 /\
      festivals released !! i = Some f2 /\
      (f_id f <> selectedFestivalId st -> f1 = f /\ f2 = f) /\
      (f_id f = selectedFestivalId st ->
         f1 = withTasks f (f_tasks f1) /\ f2 = withTasks f (f_tasks f2) /\
         forall j t, f_tasks f !! j = Some t ->
           exists t1 t2, f_tasks f1 !! j = Some t1 /\
             f_tasks f2 !! j = Some t2 /\
             (ft_id t = taskId ->
                t1 = withResponsible t (Some (u_id user)) /\
                t2 = withResponsible t None) /\
             (ft_id t <> taskId -> t1 = t /\ t2 = t)).
Proof.
  intros Hnd. cbv zeta. unfold handleTaskClaim, handleTaskRelease.
  pose proof (updateSelected_unique st (assignTask taskId (Some (u_id user)))
                Hnd (fun f => eq_refl)) as H1.
  pose proof (updateSelected_festivals st
                (assignTask taskId (Some (u_id user)))) as (_ & _ & _ & _ & Hs).
  set (st1 := updateSelected st (assignTask taskId (Some (u_id user)))) in *.
  assert (Hids : map f_id (festivals st1) = map f_id (festivals st)).
  { rewrite H1, map_map. apply map_ext. intros f.
    destruct (String.eqb (f_id f) (selectedFestivalId st)); reflexivity. }
  assert (Hnd1 : List.NoDup (map f_id (festivals st1)))
    by (rewrite Hids; exact Hnd).
  pose proof (updateSelected_unique st1 (assignTask taskId None) Hnd1
                (fun f => eq_refl)) as H2.
  rewrite Hs in H2.
  intros i f Hi. rewrite H2, H1. eexists. eexists.
  split; [apply lookup_map_Some; exact Hi |].
  split; [apply lookup_map_Some, lookup_map_Some; exact Hi |].
  destruct (String.eqb_spec (f_id f) (selectedFestivalId st)) as [E | E].
  - split; [contradiction |]. intros _. simpl.
    rewrite (proj2 (String.eqb_eq _ _) E).
    split; [reflexivity |]. split; [reflexivity |].
    intros j t Ht. eexists. eexists.
    split; [simpl; apply lookup_map_Some; exact Ht |].
    split; [simpl; apply lookup_map_Some, lookup_map_Some; exact Ht |].
    destruct (Z.eqb_spec (ft_id t) taskId) as [Et | Et].
    + split; [| contradiction]. intros _. simpl.
      rewrite (proj2 (Z.eqb_eq _ _) Et). split; reflexivity.
    + split; [contradiction |]. intros _.
      rewrite (proj2 (Z.eqb_neq _ _) Et). auto.
  - split; [| contradiction]. intros _.
    rewrite (proj2 (String.eqb_neq _ _) E). auto.
Qed.

Lemma handleTaskClaim_release_spec_witness :
  List.NoDup (map f_id (festivals plannerState)) /\
  map (fun f => map ft_responsible (f_tasks f))
      (festivals (handleTaskClaim sampleAnna plannerState 2))
  = [[None; Some 3]; []] /\
  map (fun f => map ft_responsible (f_tasks f))
      (festivals (handleTaskRelease
                    (handleTaskClaim sampleAnna plannerState 2) 2))
  = [[None; None]; []] /\
  exists f1 f2,
    festivals (handleTaskClaim sampleAnna plannerState 2) !! 1%nat = Some f1 /\
    festivals (handleTaskRelease
                 (handleTaskClaim sampleAnna plannerState 2) 2) !! 1%nat
    = Some f2 /\
    (f_id (sampleFestival "herbst" "Herbstfest")
       <> selectedFestivalId plannerState ->
     f1 = sampleFestival "herbst" "Herbstfest" /\
     f2 = sampleFestival "herbst" "Herbstfest").
Proof.
  split; [exact plannerState_ids |]. split; [reflexivity |].
  split; [reflexivity |].
  destruct (handleTaskClaim_release_spec sampleAnna plannerState 2
              plannerState_ids 1%nat _ eq_refl)
    as (f1 & f2 & H1 & H2 & Hother & _).
  exists f1, f2. split; [exact H1 |]. split; [exact H2 | exact Hother].
Defined.

Lemma rosterState_roster : rosterOk rosterState.
Proof.
  split.
  - simpl. constructor; [simpl; intros [H | []]; discriminate H |].
    constructor; [intros [] | constructor].
  - intros f [<- | []]. split.
    + unfold participantIds. simpl.
      constructor; [simpl; intros [H | []]; discriminate H |].
      constructor; [intros [] | constructor].
    + intros u [<- | [<- | []]]; unfold participantIds; simpl; auto.
Qed.

Lemma rosterOk_preserved_witness :
  rosterOk rosterState /\
  ~ In 1756634400000 (map u_id (users rosterState)) /\
  rosterOk (handleCompleteRegistration 1756634400000 1756634400001 "🔥"
              rosterState sampleNewUser) /\
  rosterOk (handleRsvp sampleAnna rosterState attending).
Proof.
  assert (Hfresh : ~ In 1756634400000 (map u_id (users rosterState))).
  { simpl. intros [H | [H | []]]; discriminate H. }
  split; [exact rosterState_roster |]. split; [exact Hfresh |].
  split.
  - exact (proj1 (rosterOk_preserved rosterState rosterState_roster)
             1756634400000 1756634400001 "🔥" sampleNewUser Hfresh).
  - exact (proj1 (proj2 (proj2 (rosterOk_preserved rosterState
                                  rosterState_roster)))
             sampleAnna attending).
Defined.

Lemma handleLogHours_accumulates_witness :
  currentUser rosterState = Some sampleAnna /\
  map u_workHours (users (handleLogHours (handleLogHours rosterState
                            "sommerfest-2024" 4) "sommerfest-2024" 6))
  = [0; 10] /\
  map (fun f => map fp_workHours (f_participants f))
      (festivals (handleLogHours (handleLogHours rosterState
                    "sommerfest-2024" 4) "sommerfest-2024" 6))
  = [[0; 6]] /\
  exists u1 u2,
    users (handleLogHours rosterState "sommerfest-2024" 4) !! 1%nat
    = Some u1 /\
    users (handleLogHours (handleLogHours rosterState "sommerfest-2024" 4)
             "sommerfest-2024" 6) !! 1%nat = Some u2 /\
    (u_id sampleAnna = u_id sampleAnna ->
     u1 = withWorkHours sampleAnna (u_workHours sampleAnna + 4) /\
     u2 = withWorkHours sampleAnna (u_workHours sampleAnna + 4 + 6)).
Proof.
  split; [reflexivity |]. split; [reflexivity |]. split; [reflexivity |].
  destruct (proj1 (handleLogHours_accumulates rosterState sampleAnna
                     "sommerfest-2024" 4 6 eq_refl) 1%nat sampleAnna eq_refl)
    as (u1 & u2 & H1 & H2 & Hsame & _).
  exists u1, u2. split; [exact H1 |]. split; [exact H2 | exact Hsame].
Defined.

(* ================================================================== *)
(** * The social feed                                                   *)
(* ================================================================== *)

Lemma setPosts_same (st : AppState) : setPosts st (posts st) = st.
Proof. destruct st; reflexivity. Qed.

Lemma filter_all {A} (keep : A -> bool) (l : list A) :
  (forall x, In x l -> keep x = true) -> List.filter keep l = l.
Proof.
  induction l as [| x l IH]; simpl; intros H; [reflexivity |].
  rewrite (H x) by (left; reflexivity). f_equal. apply IH.
  intros y Hy. apply H. right. exact Hy.
Qed.

(** X9. A new post goes to the front of the feed with the clock reading as
    id, the acting user as author and no likes or comments.  Deleting by id
    removes every post with that id, so deleting the new post restores the
    feed exactly when no older post carries the same clock reading (an
    older post with the same id is deleted along with it); declining the
    dialog deletes nothing. *)
Theorem post_add_then_delete (now : Z) (cu : User) (st : AppState)
    (postData : PostData) :
  let added := handleAddPost now cu st postData in
  (exists newPost, posts added = newPost :: posts st /\
     p_id newPost = now /\ p_userId newPost = u_id cu /\
     p_likes newPost = [] /\ p_comments newPost = [] /\
     p_type newPost = pd_type postData /\
     p_content newPost = pd_content postData /\
     p_pollData newPost = pd_pollData postData) /\
  (forall postId p, In p (posts (onDeletePost true added postId)) <->
                    In p (posts added) /\ p_id p <> postId) /\
  posts (onDeletePost true added now)
  = List.filter (fun p => negb (p_id p =? now)) (posts st) /\
  ((forall p, In p (posts st) -> p_id p <> now) ->
   onDeletePost true added now = st) /\
  onDeletePost false added now = added.
Proof.
  cbv zeta. split; [eexists; split; [reflexivity |]; repeat split |].
  split.
  { intros postId p. unfold onDeletePost, setPosts. cbn [posts].
    rewrite List.filter_In, negb_true_iff, Z.eqb_neq. reflexivity. }
  assert (Hposts : posts (onDeletePost true (handleAddPost now cu st postData)
                            now)
                   = List.filter (fun p => negb (p_id p =? now)) (posts st)).
  { simpl. rewrite Z.eqb_refl. reflexivity. }
  split; [exact Hposts |]. split; [| reflexivity].
  intros Hfresh. unfold onDeletePost, handleAddPost. simpl.
  rewrite Z.eqb_refl. simpl. rewrite filter_all.
  - destruct st; reflexivity.
  - intros p Hp. apply negb_true_iff, Z.eqb_neq, Hfresh, Hp.
Qed.

Lemma post_add_then_delete_witness :
  (forall p, In p (posts feedState) -> p_id p <> 1756634400000) /\
  onDeletePost true
    (handleAddPost 1756634400000 sampleAnna feedState
                   (newPollData "Wann?" ["Freitag"; "Samstag"]))
    1756634400000 = feedState /\
  map p_id (posts (onDeletePost true
                     (handleAddPost 3 sampleAnna feedState
                        (newPollData "Wann?" ["Freitag"; "Samstag"])) 3))
  = [1].
Proof.
  assert (H : forall p, In p (posts feedState) -> p_id p <> 1756634400000).
  { intros p [<- | [<- | []]]; discriminate. }
  split; [exact H |]. split; [| reflexivity].
  exact (proj1 (proj2 (proj2 (proj2
           (post_add_then_delete 1756634400000 sampleAnna feedState
              (newPollData "Wann?" ["Freitag"; "Samstag"]))))) H).
Defined.

(** X10. A comment is appended to every post with the given id and to no
    other; deleting a comment by post id and comment id removes every
    comment with that id from those posts only, so deleting the comment
    just added restores a post exactly when none of its older comments
    carries the same clock reading. *)
Theorem comment_add_then_delete (now : Z) (cu : User) (st : AppState)
    (postId : Z) (text : string) :
  let added := handleAddComment now cu st postId text in
  let removed := onDeleteComment added postId now in
  forall i p, posts st !! i = Some p ->
    exists p1 p2, posts added !! i = Some p1 /\ posts removed !! i = Some p2 /\
      (p_id p <> postId -> p1 = p /\ p2 = p) /\
      (p_id p = postId ->
         p1 = withComments p
                (p_comments p ++ [mkComment now (u_id cu) text])%list /\
         p2 = withComments p
                (List.filter (fun c => negb (c_id c =? now)) (p_comments p)) /\
         ((forall c, In c (p_comments p) -> c_id c <> now) -> p2 = p)).
Proof.
  cbv zeta. intros i p Hp. unfold onDeleteComment, handleAddComment. simpl.
  eexists. eexists.
  split; [apply lookup_map_Some; exact Hp |].
  split; [apply lookup_map_Some, lookup_map_Some; exact Hp |].
  destruct (Z.eqb_spec (p_id p) postId) as [E | E].
  - split; [contradiction |]. intros _. simpl.
    rewrite (proj2 (Z.eqb_eq _ _) E). split; [reflexivity |].
    assert (Hf : List.filter (fun c => negb (c_id c =? now))
                   (p_comments p ++ [mkComment now (u_id cu) text])
                 = List.filter (fun c => negb (c_id c =? now)) (p_comments p)).
    { rewrite List.filter_app. simpl. rewrite Z.eqb_refl. simpl.
      apply app_nil_r. }
    unfold withComments at 1. simpl. rewrite Hf.
    split; [reflexivity |]. intros Hfresh. rewrite filter_all.
    + destruct p; reflexivity.
    + intros c Hc. apply negb_true_iff, Z.eqb_neq, Hfresh, Hc.
  - split; [| contradiction]. intros _.
    rewrite (proj2 (Z.eqb_neq _ _) E). auto.
Qed.

Lemma comment_add_then_delete_witness :
  map (fun p => map c_text (p_comments p))
      (posts (handleAddComment 77 sampleAnna feedState 1 "Bin dabei!"))
  = [["Bin dabei!"]; []] /\
  exists p1 p2,
    posts (handleAddComment 77 sampleAnna feedState 1 "Bin dabei!") !! 0%nat
    = Some p1 /\
    posts (onDeleteComment
             (handleAddComment 77 sampleAnna feedState 1 "Bin dabei!") 1 77)
      !! 0%nat = Some p2 /\
    (p_id sampleTextPost = 1 ->
     p1 = withComments sampleTextPost
            (p_comments sampleTextPost ++ [mkComment 77 3 "Bin dabei!"])%list
     /\ p2 = sampleTextPost).
Proof.
  split; [reflexivity |].
  destruct (comment_add_then_delete 77 sampleAnna feedState 1 "Bin dabei!"
              0%nat sampleTextPost eq_refl)
    as (p1 & p2 & H1 & H2 & _ & Hsame).
  exists p1, p2. split; [exact H1 |]. split; [exact H2 |].
  intros E. destruct (Hsame E) as (Hp1 & _ & Hp2).
  split; [exact Hp1 |]. apply Hp2. intros c [].
Defined.

Lemma userVotes_no_votes (uid : Z) (question : string)
    (optionTexts : list string) :
  userVotes uid
    {| poll_question := question;
       poll_options :=
         map (fun opt => {| opt_text := opt; opt_votes := [] |}) optionTexts |}
  = 0%nat.
Proof.
  unfold userVotes. simpl. induction optionTexts as [| o os IH];
    [reflexivity | simpl; exact IH].
Qed.

(** X11. The bound of at most one vote per user and poll, once it holds,
    survives every operation of the feed: a new poll from the form (which
    starts without votes), a new post without a poll, likes, comments,
    votes, and the deletion of posts and comments. *)
Theorem atMostOneVote_feed (st : AppState) :
  atMostOneVote (posts st) ->
  (forall now cu question optionTexts,
     atMostOneVote
       (posts (handleAddPost now cu st (newPollData question optionTexts))))
  /\
  (forall now cu postData, pd_pollData postData = None ->
     atMostOneVote (posts (handleAddPost now cu st postData))) /\
  (forall cu postId, atMostOneVote (posts (handleLikePost cu st postId))) /\
  (forall now cu postId text,
     atMostOneVote (posts (handleAddComment now cu st postId text))) /\
  (forall cu postId optionIndex,
     atMostOneVote (posts (onVote cu st postId optionIndex))) /\
  (forall confirmed postId,
     atMostOneVote (posts (onDeletePost confirmed st postId))) /\
  (forall postId commentId,
     atMostOneVote (posts (onDeleteComment st postId commentId))).
Proof.
  intros Hinv.
  assert (Hmap : forall g : Post -> Post,
            (forall p, p_type (g p) = p_type p
                       /\ p_pollData (g p) = p_pollData p) ->
            atMostOneVote (map g (posts st))).
  { intros g Hg p' pd uid Hin Ht Hpd. apply in_map_iff in Hin.
    destruct Hin as (p & <- & Hp). destruct (Hg p) as [Et Ep].
    rewrite Et in Ht. rewrite Ep in Hpd. exact (Hinv p pd uid Hp Ht Hpd). }
  split; [| split; [| split; [| split; [| split; [| split]]]]].
  - intros now cu question optionTexts p pd uid [<- | Hin] Ht Hpd.
    + simpl in Hpd. injection Hpd as <-.
      rewrite userVotes_no_votes. lia.
    + exact (Hinv p pd uid Hin Ht Hpd).
  - intros now cu postData Hno p pd uid [<- | Hin] Ht Hpd.
    + simpl in Hpd. congruence.
    + exact (Hinv p pd uid Hin Ht Hpd).
  - intros cu postId. apply Hmap. intros p.
    destruct (p_id p =? postId); split; reflexivity.
  - intros now cu postId text. apply Hmap. intros p.
    destruct (p_id p =? postId); split; reflexivity.
  - intros cu postId optionIndex. apply onVote_bound, Hinv.
  - intros confirmed postId p pd uid Hin. unfold onDeletePost in Hin.
    destruct confirmed; [| exact (Hinv p pd uid Hin)].
    simpl in Hin. apply List.filter_In in Hin. apply Hinv. tauto.
  - intros postId commentId. apply Hmap. intros p.
    destruct (p_id p =? postId); split; reflexivity.
Qed.

Lemma atMostOneVote_feed_witness :
  atMostOneVote (posts feedState) /\
  atMostOneVote
    (posts (handleAddPost 9 sampleAnna feedState
              (newPollData "Wann?" ["Freitag"; "Samstag"]))).
Proof.
  split; [exact samplePoll_bound |].
  exact (proj1 (atMostOneVote_feed feedState samplePoll_bound)
           9 sampleAnna "Wann?" ["Freitag"; "Samstag"]).
Defined.

(* ================================================================== *)
(** * Admin lists: aufguss types and qualifications                     *)
(* ================================================================== *)

Lemma onRenameType_back (types : list string) (a b : string) :
  ~ In b types -> onRenameType (onRenameType types a b) b a = types.
Proof.
  unfold onRenameType. induction types as [| t ts IH]; simpl; intros Hb;
    [reflexivity |].
  rewrite IH by tauto. f_equal.
  destruct (String.eqb_spec t a) as [-> | Hta].
  - rewrite String.eqb_refl. reflexivity.
  - destruct (String.eqb_spec t b) as [-> | _]; [tauto | reflexivity].
Qed.

Lemma onRenameType_then_delete (types : list string) (a b : string) :
  onDeleteType (onRenameType types a b) b
  = onDeleteType (onDeleteType types a) b.
Proof.
  unfold onDeleteType, onRenameType, strNe.
  induction types as [| t ts IH]; simpl; [reflexivity |].
  destruct (String.eqb_spec t a) as [-> | Hta]; simpl.
  - rewrite String.eqb_refl. simpl. exact IH.
  - destruct (String.eqb t b); simpl; rewrite IH; reflexivity.
Qed.

(** X12. The list of aufguss types.  Renaming keeps the length and the
    places (the entry at each index is the new name where the old name
    stood and the entry itself elsewhere) and leaves no entry with the old
    name; renaming to a name that
    was not in the list and back restores the list; renaming to a name that
    is already listed merges the two, so that deleting the new name
    afterwards removes both; deleting removes every copy of a name, also
    the ones that adding the name twice produced. *)
Theorem aufgussTypes_rename_delete (types : list string) (a b : string) :
  (forall (i : nat) t, types !! i = Some t ->
     onRenameType types a b !! i = Some (if String.eqb t a then b else t)) /\
  List.length (onRenameType types a b) = List.length types /\
  (a <> b -> ~ In a (onRenameType types a b)) /\
  (forall t, t <> a -> t <> b ->
     (In t (onRenameType types a b) <-> In t types)) /\
  (~ In b types -> onRenameType (onRenameType types a b) b a = types) /\
  onDeleteType (onRenameType types a b) b
  = onDeleteType (onDeleteType types a) b /\
  ~ In a (onDeleteType (onAddType (onAddType types a) a) a) /\
  onDeleteType (onAddType types a) a = onDeleteType types a /\
  (~ In a types -> onDeleteType (onAddType types a) a = types).
Proof.
  assert (Hadd : onDeleteType (onAddType types a) a = onDeleteType types a).
  { unfold onDeleteType, onAddType. rewrite List.filter_app. simpl.
    unfold strNe at 2. rewrite String.eqb_refl. simpl. apply app_nil_r. }
  split.
  { intros i t Hi. unfold onRenameType.
    apply (lookup_map_Some (fun t => if String.eqb t a then b else t)).
    exact Hi. }
  split; [apply length_map |].
  split.
  { intros Hab Hin. unfold onRenameType in Hin. apply in_map_iff in Hin.
    destruct Hin as (t & E & _).
    destruct (String.eqb_spec t a); congruence. }
  split.
  { intros t Hta Htb. unfold onRenameType. rewrite in_map_iff. split.
    - intros (x & E & Hx). destruct (String.eqb_spec x a); congruence.
    - intros Hin. exists t. split; [| exact Hin].
      destruct (String.eqb_spec t a); congruence. }
  split; [apply onRenameType_back |].
  split; [apply onRenameType_then_delete |].
  split; [unfold onDeleteType; rewrite In_filter_strNe; tauto |].
  split; [exact Hadd |].
  intros Hn. rewrite Hadd. apply filter_strNe_absent, Hn.
Qed.

Lemma aufgussTypes_rename_delete_witness :
  onRenameType ["Räucherritual"; "Kräutersud"] "Kräutersud" "Birke"
  = ["Räucherritual"; "Birke"] /\
  onRenameType
    (onRenameType ["Räucherritual"; "Kräutersud"] "Kräutersud" "Birke")
    "Birke" "Kräutersud" = ["Räucherritual"; "Kräutersud"].
Proof.
  split; [reflexivity |].
  apply (proj1 (proj2 (proj2 (proj2 (proj2
           (aufgussTypes_rename_delete ["Räucherritual"; "Kräutersud"]
              "Kräutersud" "Birke")))))).
  simpl. intros [H | [H | []]]; discriminate H.
Defined.

Lemma withQualifications_same (u : User) :
  withQualifications u (u_qualifications u) = u.
Proof. destruct u; reflexivity. Qed.

(** X13. Qualifications.  Adding a name to the available list and deleting
    it again leaves the list without any copy of the name, and restores the
    whole state when the name was neither listed nor held by any user.  A
    qualification that was assigned to a user and is deleted afterwards is
    gone from that user as well, the user's other qualifications staying in
    their order. *)
Theorem qualification_add_assign_delete (st : AppState) (qual : string) :
  availableQuals (handleDeleteQual (handleAddQual st qual) qual)
  = List.filter (fun q => strNe q qual) (availableQuals st) /\
  (~ In qual (availableQuals st) ->
   (forall u, In u (users st) -> ~ In qual (u_qualifications u)) ->
   handleDeleteQual (handleAddQual st qual) qual = st) /\
  (forall userId quals i u, users st !! i = Some u ->
     exists u', users (handleDeleteQual (handleSaveQuals st userId quals) qual)
                  !! i = Some u' /\
       (u_id u = userId ->
          u' = withQualifications u
                 (List.filter (fun q => strNe q qual) quals)) /\
       (u_id u <> userId ->
          u' = withQualifications u
                 (List.filter (fun q => strNe q qual) (u_qualifications u)))).
Proof.
  assert (Hav : List.filter (fun q => strNe q qual)
                  (availableQuals st ++ [qual])
                = List.filter (fun q => strNe q qual) (availableQuals st)).
  { rewrite List.filter_app. simpl. unfold strNe at 2.
    rewrite String.eqb_refl. simpl. apply app_nil_r. }
  split; [exact Hav |]. split.
  - intros Hn Hu. unfold handleDeleteQual, handleAddQual. cbv zeta. simpl.
    rewrite Hav, filter_strNe_absent by exact Hn.
    replace (map (fun u => withQualifications u
                    (List.filter (fun q => strNe q qual) (u_qualifications u)))
                 (users st)) with (users st); [destruct st; reflexivity |].
    rewrite <- (map_id (users st)) at 1. apply map_ext_in. intros u Hin.
    rewrite filter_strNe_absent by exact (Hu u Hin).
    symmetry. apply withQualifications_same.
  - intros userId quals i u Hi. unfold handleDeleteQual, handleSaveQuals.
    cbv zeta. simpl. eexists.
    split; [apply lookup_map_Some, lookup_map_Some; exact Hi |].
    destruct (Z.eqb_spec (u_id u) userId); split; intros;
      try contradiction; reflexivity.
Qed.

Lemma qualification_add_assign_delete_witness :
  ~ In "Zeremonienmeister" (availableQuals sampleState) /\
  (forall u, In u (users sampleState) ->
             ~ In "Zeremonienmeister" (u_qualifications u)) /\
  handleDeleteQual (handleAddQual sampleState "Zeremonienmeister")
                   "Zeremonienmeister" = sampleState.
Proof.
  assert (H1 : ~ In "Zeremonienmeister" (availableQuals sampleState)).
  { simpl. intros [H | [H | []]]; discriminate H. }
  assert (H2 : forall u, In u (users sampleState) ->
                 ~ In "Zeremonienmeister" (u_qualifications u)).
  { intros u [<- | [<- | []]]; simpl; intros [H | [H | []]]; discriminate H. }
  split; [exact H1 |]. split; [exact H2 |].
  exact (proj1 (proj2 (qualification_add_assign_delete sampleState
                         "Zeremonienmeister")) H1 H2).
Defined.

(* ================================================================== *)
(** * The two time locks                                                *)
(* ================================================================== *)


Section ProfileLock.
Variable trim : string -> string.


End ProfileLock.


Section ShareLock.
Variable localeDate : string -> string.

(** X15. Sharing a slot at a clock reading [now] other than 0 puts one text
    post of the acting user at the front of the feed and stamps [now] into
    every user with the acting user's id, changing nothing else of the
    users; from then on [canShare] is false up to and including 24 hours
    after [now] and true later.  The handler itself does not test
    [canShare]. *)
Theorem share_locks_for_24_hours (postNow now : Z) (cu : User)
    (st : AppState) (aufguss : Aufguss) :
  now <> 0 ->
  let st' := handleShareAufguss localeDate postNow now cu st aufguss in
  (exists newPost, posts st' = newPost :: posts st /\
     p_id newPost = postNow /\ p_userId newPost = u_id cu /\
     p_type newPost = text_post /\
     p_content newPost = sharePostContent localeDate aufguss) /\
  aufguesse st' = aufguesse st /\
  forall i u, users st !! i = Some u ->
    exists u', users st' !! i = Some u' /\
      (u_id u <> u_id cu -> u' = u) /\
      (u_id u = u_id cu ->
         u' = withShareTimestamp u now /\
         forall t, canShare t u' = true <-> now + 24 * 60 * 60 * 1000 < t).
Proof.
  intros Hnow. cbv zeta. unfold handleShareAufguss. cbv zeta. simpl.
  split; [eexists; repeat split |]. split; [reflexivity |].
  intros i u Hi. eexists. split; [apply lookup_map_Some; exact Hi |].
  destruct (Z.eqb_spec (u_id u) (u_id cu)) as [E | E].
  - split; [contradiction |]. intros _. split; [reflexivity |].
    intros t. unfold canShare. simpl.
    apply Z.eqb_neq in Hnow. rewrite Hnow. simpl. rewrite Z.ltb_lt. lia.
  - split; [reflexivity | contradiction].
Qed.

End ShareLock.

Lemma share_locks_for_24_hours_witness :
  1756634400000 <> 0 /\
  exists u',
    users (handleShareAufguss (fun d => d) 1756634399999 1756634400000
             sampleAnna claimedState claimedSlot2) !! 1%nat = Some u' /\
    canShare (1756634400000 + 24 * 60 * 60 * 1000) u' = false /\
    canShare (1756634400001 + 24 * 60 * 60 * 1000) u' = true.
Proof.
  assert (Hn : 1756634400000 <> 0) by discriminate.
  split; [exact Hn |].
  destruct (proj2 (proj2 (share_locks_for_24_hours (fun d => d)
                            1756634399999 1756634400000 sampleAnna
                            claimedState claimedSlot2 Hn))
              1%nat (withAufgussCount sampleAnna 1) eq_refl)
    as (u' & Hu' & _ & Hsame).
  exists u'. split; [exact Hu' |].
  destruct (Hsame eq_refl) as [_ Hlock]. split.
  - destruct (canShare (1756634400000 + 24 * 60 * 60 * 1000) u') eqn:E;
      [| reflexivity].
    apply Hlock in E. lia.
  - apply Hlock. lia.
Defined.

(* ================================================================== *)
(** * Claiming a slot and cancelling it again                           *)
(* ================================================================== *)

Lemma withOwner_unclaimed (a : Aufguss) :
  aufgussmeisterId a = None -> aufgussmeisterName a = None ->
  a_type a = None -> withOwner a None None None = a.
Proof.
  destruct a; simpl; intros -> -> ->; reflexivity.
Qed.

Lemma withCounts_same (u : User) :
  withCounts u (u_aufgussCount u) (u_shortNoticeCancellations u) = u.
Proof. destruct u; reflexivity. Qed.

Section ClaimCancel.
Variable dateTimeValue : string -> option Z.

(** X16. Claiming a free slot and cancelling it again (the dialog answered
    with yes), in a state with unique slot ids and counts that are not
    negative, for an acting user whose id is not 0: the slot list is as
    before, every user's aufgussCount is as before, and the only trace is
    one more short-notice cancellation of the acting user when the slot
    starts less than 24 hours after the cancellation; otherwise the users
    are as before too. *)
Theorem claim_then_cancel_restores (now : Z) (cu : User) (st : AppState)
    (a : Aufguss) (type : string) :
  List.NoDup (map a_id (aufguesse st)) ->
  In a (aufguesse st) ->
  aufgussmeisterId a = None -> aufgussmeisterName a = None ->
  a_type a = None ->
  u_id cu <> 0 ->
  (forall u, In u (users st) -> 0 <= u_aufgussCount u) ->
  let st1 := handleClaimAufguss cu st (a_id a) type in
  let st2 := handleCancelAufguss dateTimeValue true now cu st1 (a_id a) in
  aufguesse st2 = aufguesse st /\
  (isShortNotice dateTimeValue a now = false -> users st2 = users st) /\
  forall i u, users st !! i = Some u ->
    exists u', users st2 !! i = Some u' /\
      u_aufgussCount u' = u_aufgussCount u /\
      (u_id u <> u_id cu -> u' = u) /\
      (u_id u = u_id cu ->
         u' = withCounts u (u_aufgussCount u)
                (if isShortNotice dateTimeValue a now
                 then u_shortNoticeCancellations u + 1
                 else u_shortNoticeCancellations u)).
Proof.
  intros Hnd Ha Hid Hname Htype Hcu Hcount. cbv zeta.
  set (claim := fun b : Aufguss =>
         if String.eqb (a_id b) (a_id a)
         then withOwner b (Some (u_id cu)) (Some (u_name cu)) (Some type)
         else b).
  set (incr := fun u : User =>
         if u_id u =? u_id cu
         then withAufgussCount u (u_aufgussCount u + 1) else u).
  set (a1 := withOwner a (Some (u_id cu)) (Some (u_name cu)) (Some type)).
  remember (handleClaimAufguss cu st (a_id a) type) as st1 eqn:Est1.
  assert (Hst1 : aufguesse st1 = map claim (aufguesse st))
    by (subst st1; reflexivity).
  assert (Hus1 : users st1 = map incr (users st))
    by (subst st1; reflexivity).
  clear Est1.
  assert (Hids : map a_id (map claim (aufguesse st))
                 = map a_id (aufguesse st)).
  { rewrite map_map. apply map_ext. intros b. unfold claim.
    destruct (String.eqb (a_id b) (a_id a)); reflexivity. }
  assert (Hfind : List.find (fun b => String.eqb (a_id b) (a_id a))
                    (aufguesse st1) = Some a1).
  { rewrite Hst1. apply (find_by_id (map claim (aufguesse st)) a1).
    - rewrite Hids. exact Hnd.
    - apply in_map_iff. exists a. split; [| exact Ha].
      unfold claim. rewrite String.eqb_refl. reflexivity. }
  assert (Hshort : isShortNotice dateTimeValue a1 now
                   = isShortNotice dateTimeValue a now) by reflexivity.
  unfold handleCancelAufguss. rewrite Hfind.
  change (aufgussmeisterId a1) with (Some (u_id cu)).
  rewrite (truthyId_Some _ Hcu). cbv zeta. rewrite Hshort.
  simpl aufguesse. simpl users. rewrite Hst1, Hus1.
  assert (Huser : forall u, 0 <= u_aufgussCount u ->
            cancelFor (isShortNotice dateTimeValue a now) (u_id cu) (incr u)
            = if u_id u =? u_id cu
              then withCounts u (u_aufgussCount u)
                     (if isShortNotice dateTimeValue a now
                      then u_shortNoticeCancellations u + 1
                      else u_shortNoticeCancellations u)
              else u).
  { intros u Hu. unfold incr, cancelFor.
    destruct (u_id u =? u_id cu) eqn:E.
    - simpl u_id. rewrite E. simpl u_aufgussCount.
      replace (0 <? u_aufgussCount u + 1) with true
        by (symmetry; apply Z.ltb_lt; lia).
      replace (u_aufgussCount u + 1 - 1) with (u_aufgussCount u) by lia.
      destruct u; reflexivity.
    - rewrite E. reflexivity. }
  split; [| split].
  - rewrite map_map. rewrite <- (map_id (aufguesse st)) at 2.
    apply map_ext_in. intros b Hb. unfold claim.
    destruct (String.eqb_spec (a_id b) (a_id a)) as [E | E].
    + simpl a_id. rewrite E, String.eqb_refl.
      assert (b = a) by (apply (NoDup_map_inj a_id (aufguesse st));
                         assumption).
      subst b. transitivity (withOwner a None None None); [reflexivity |].
      apply withOwner_unclaimed; assumption.
    + apply String.eqb_neq in E. rewrite E. reflexivity.
  - intros Hs. rewrite map_map.
    rewrite <- (map_id (users st)) at 2. apply map_ext_in. intros u Hu.
    rewrite Huser by (apply Hcount, Hu). rewrite Hs.
    destruct (u_id u =? u_id cu); [apply withCounts_same | reflexivity].
  - intros i u Hi. eexists.
    split; [apply lookup_map_Some, lookup_map_Some; exact Hi |].
    rewrite Huser
      by (apply Hcount, list_elem_of_In, (list_elem_of_lookup_2 _ i), Hi).
    destruct (Z.eqb_spec (u_id u) (u_id cu)) as [E | E].
    + split; [reflexivity |]. split; [contradiction | reflexivity].
    + split; [reflexivity |]. split; [reflexivity | contradiction].
Qed.

End ClaimCancel.

Lemma claim_then_cancel_restores_witness :
  List.NoDup (map a_id (aufguesse sampleState)) /\
  In sampleSlot2 (aufguesse sampleState) /\
  u_id sampleAnna <> 0 /\
  (forall u, In u (users sampleState) -> 0 <= u_aufgussCount u) /\
  aufguesse
    (handleCancelAufguss (fun _ => Some 1756634400000) true 1756630000000
       sampleAnna
       (handleClaimAufguss sampleAnna sampleState (a_id sampleSlot2)
          "Birke")
       (a_id sampleSlot2))
  = aufguesse sampleState.
Proof.
  assert (H1 : List.NoDup (map a_id (aufguesse sampleState))).
  { simpl. repeat constructor; simpl; intros H;
      repeat (destruct H as [H | H]; [discriminate H |]); exact H. }
  assert (H2 : In sampleSlot2 (aufguesse sampleState))
    by (simpl; tauto).
  assert (H3 : u_id sampleAnna <> 0) by discriminate.
  assert (H4 : forall u, In u (users sampleState) -> 0 <= u_aufgussCount u).
  { intros u [<- | [<- | []]]; simpl; lia. }
  repeat (split; [assumption |]).
  exact (proj1 (claim_then_cancel_restores (fun _ => Some 1756634400000)
                  1756630000000 sampleAnna sampleState sampleSlot2 "Birke"
                  H1 H2 eq_refl eq_refl eq_refl H3 H4)).
Defined.

(* ================================================================== *)
(** * Date strings written and read back                                *)
(* ================================================================== *)

Import Views.

Lemma pad4_reads_back_ok (y : Z) :
  0 <= y <= 9999 -> pad4_reads_back y = true.
Proof.
  intros Hy.
  assert (H : forallb pad4_reads_back (map Z.of_nat (seq 0 (Z.to_nat 10000))) = true)
    by (vm_compute; reflexivity).
  rewrite forallb_forall in H. apply H.
  apply in_map_iff. exists (Z.to_nat y). split; [lia |].
  apply in_seq. lia.
Qed.

Lemma pad2_reads_back_ok (n : Z) :
  0 <= n <= 99 -> pad2_reads_back n = true.
Proof.
  intros Hn.
  assert (H : forallb pad2_reads_back (map Z.of_nat (seq 0 (Z.to_nat 100))) = true)
    by (vm_compute; reflexivity).
  rewrite forallb_forall in H. apply H.
  apply in_map_iff. exists (Z.to_nat n). split; [lia |].
  apply in_seq. lia.
Qed.

Lemma pad4_digits (y : Z) :
  0 <= y <= 9999 ->
  exists a b c d,
    pad 4 y = String a (String b (String c (String d EmptyString))) /\
    digits 0 [a; b; c; d] = Some y.
Proof.
  intros Hy. pose proof (pad4_reads_back_ok y Hy) as H.
  unfold pad4_reads_back in H.
  destruct (list_ascii_of_string (pad 4 y))
    as [| a [| b [| c [| d [| e l]]]]] eqn:E; try discriminate H.
  destruct (digits 0 [a; b; c; d]) as [y' |] eqn:Ed; [| discriminate H].
  apply Z.eqb_eq in H. subst y'.
  exists a, b, c, d. split; [| exact Ed].
  rewrite <- (string_of_list_ascii_of_string (pad 4 y)), E. reflexivity.
Qed.

Lemma pad2_digits (n : Z) :
  0 <= n <= 99 ->
  exists a b,
    pad 2 n = String a (String b EmptyString) /\ digits 0 [a; b] = Some n.
Proof.
  intros Hn. pose proof (pad2_reads_back_ok n Hn) as H.
  unfold pad2_reads_back in H.
  destruct (list_ascii_of_string (pad 2 n)) as [| a [| b [| c l]]] eqn:E;
    try discriminate H.
  destruct (digits 0 [a; b]) as [n' |] eqn:Ed; [| discriminate H].
  apply Z.eqb_eq in H. subst n'.
  exists a, b. split; [| exact Ed].
  rewrite <- (string_of_list_ascii_of_string (pad 2 n)), E. reflexivity.
Qed.

Lemma DaysInMonth_le_31 (y m : Z) : DaysInMonth y m <= 31.
Proof.
  unfold DaysInMonth. cbv zeta.
  destruct (DaysInYear y =? 366);
    repeat match goal with
           | |- context [match ?x with _ => _ end] => destruct x
           end; lia.
Qed.

Lemma parseDateOnly_isoDate (s : Z) :
  0 <= YearFromTime s <= 9999 ->
  parseDateOnly (isoDate s) = Some (MakeDate (Day s) 0).
Proof.
  intros Hy.
  pose proof (MonthFromTime_range s) as Hm.
  pose proof (DateFromTime_range s) as Hd.
  pose proof (DaysInMonth_le_31 (YearFromTime s) (MonthFromTime s)) as H31.
  destruct (pad4_digits (YearFromTime s) Hy) as (y1 & y2 & y3 & y4 & Ey & Dy).
  destruct (pad2_digits (MonthFromTime s + 1)) as (m1 & m2 & Em & Dm);
    [lia |].
  destruct (pad2_digits (DateFromTime s)) as (d1 & d2 & Ed & Dd); [lia |].
  unfold parseDateOnly, isoDate, isoYear.
  replace ((0 <=? YearFromTime s) && (YearFromTime s <=? 9999)) with true
    by (symmetry; apply andb_true_iff; split; apply Z.leb_le; lia).
  rewrite Ey, Em, Ed. cbv [String.append list_ascii_of_string].
  rewrite Dy, Dm, Dd.
  replace (MonthFromTime s + 1 - 1) with (MonthFromTime s) by lia.
  replace ((1 <=? MonthFromTime s + 1) && (MonthFromTime s + 1 <=? 12)
           && (1 <=? DateFromTime s)
           && (DateFromTime s
               <=? DaysInMonth (YearFromTime s) (MonthFromTime s)))
    with true
    by (symmetry; repeat (apply andb_true_iff; split); apply Z.leb_le; lia).
  pose proof (MakeDay_DateFromTime s 0) as Hday.
  rewrite !Z.add_0_r in Hday. rewrite Hday. reflexivity.
Qed.

Lemma isoDate_same_day (t t' : Z) : Day t = Day t' -> isoDate t = isoDate t'.
Proof.
  intros E. unfold isoDate, DateFromTime, MonthFromTime, DayWithinYear,
    InLeapYear, YearFromTime.
  rewrite E. reflexivity.
Qed.

Lemma isoDate_inj_day (t t' : Z) :
  0 <= YearFromTime t <= 9999 -> 0 <= YearFromTime t' <= 9999 ->
  isoDate t = isoDate t' -> Day t = Day t'.
Proof.
  intros Hy Hy' E.
  pose proof (parseDateOnly_isoDate t Hy) as H1.
  pose proof (parseDateOnly_isoDate t' Hy') as H2.
  rewrite E, H2 in H1. injection H1 as H1. unfold MakeDate, msPerDay in H1.
  lia.
Qed.

(** X17. The date string of a time value whose UTC year lies in 0..9999, as
    the generator and the planner write it ([toISOString().split('T')[0]]),
    is read back by [new Date(...)] as midnight UTC of the same day; so two
    time values have the same date string exactly when they lie on the same
    UTC day. *)
Theorem isoDate_reads_back (t : Z) :
  0 <= YearFromTime t <= 9999 ->
  parseDateOnly (isoDate t) = Some (MakeDate (Day t) 0) /\
  forall t', 0 <= YearFromTime t' <= 9999 ->
    (isoDate t = isoDate t' <-> Day t = Day t').
Proof.
  intros Hy. split; [apply parseDateOnly_isoDate, Hy |].
  intros t' Hy'. split.
  - apply isoDate_inj_day; assumption.
  - apply isoDate_same_day.
Qed.

Lemma isoDate_reads_back_witness :
  0 <= YearFromTime noon_2025_08_31 <= 9999 /\
  isoDate noon_2025_08_31 = "2025-08-31" /\
  parseDateOnly "2025-08-31" = Some (MakeDate (Day noon_2025_08_31) 0).
Proof.
  assert (H : 0 <= YearFromTime noon_2025_08_31 <= 9999)
    by (vm_compute; split; discriminate).
  split; [exact H |]. split; [reflexivity |].
  exact (proj1 (isoDate_reads_back noon_2025_08_31 H)).
Defined.

(* ================================================================== *)
(** * Days since the last aufguss                                       *)
(* ================================================================== *)

Lemma insertBy_In {A} (cmp : A -> A -> option Z) (x z : A) (l : list A) :
  In z (insertBy cmp x l) <-> z = x \/ In z l.
Proof.
  induction l as [| y l IH]; simpl.
  - split; [intros [<- | []]; auto | intros [-> | []]; auto].
  - destruct (notAfter (cmp x y)); simpl.
    + split; [intros [<- | H]; auto | intros [-> | H]; auto].
    + rewrite IH. split.
      * intros [<- | [-> | H]]; auto.
      * intros [-> | [<- | H]]; auto.
Qed.

Lemma sortBy_In {A} (cmp : A -> A -> option Z) (z : A) (l : list A) :
  In z (sortBy cmp l) <-> In z l.
Proof.
  unfold sortBy. induction l as [| x l IH]; simpl; [reflexivity |].
  rewrite insertBy_In, IH. split; intros [H | H]; auto.
Qed.

Section DaysSince.
Variable offset : Z.
Variable dateValue : string -> option Z.

(** The sorted list starts with a slot of the latest date. *)
Lemma sortBy_byDate_head (l : list Aufguss) :
  (forall a, In a l -> exists t, dateValue (a_date a) = Some t) ->
  match sortBy (byDateDescending dateValue) l with
  | [] => l = []
  | h :: _ =>
      In h l /\
      forall a ta th, In a l -> dateValue (a_date a) = Some ta ->
        dateValue (a_date h) = Some th -> ta <= th
  end.
Proof.
  induction l as [| x l IH]; intros Hall; [reflexivity |].
  assert (Hl : forall a, In a l -> exists t, dateValue (a_date a) = Some t)
    by (intros a Ha; apply Hall; right; exact Ha).
  specialize (IH Hl). unfold sortBy in *. simpl foldr.
  destruct (foldr (insertBy (byDateDescending dateValue)) [] l)
    as [| y r] eqn:E; simpl.
  - subst l. split; [left; reflexivity |].
    intros a ta th [<- | []] H1 H2. rewrite H1 in H2. injection H2. lia.
  - destruct IH as [Hy Hmax].
    destruct (Hall x (or_introl eq_refl)) as (tx & Ex).
    destruct (Hl y Hy) as (ty & Ey).
    unfold byDateDescending at 1. rewrite Ey, Ex. simpl notAfter.
    destruct (Z.leb_spec (ty - tx) 0) as [Hle | Hgt].
    + split; [left; reflexivity |].
      intros a ta th [<- | Ha] H1 H2.
      * rewrite H1 in H2. injection H2. lia.
      * rewrite Ex in H2. injection H2 as <-.
        pose proof (Hmax a ta ty Ha H1 Ey). lia.
    + split; [right; exact Hy |].
      intros a ta th [<- | Ha] H1 H2.
      * rewrite Ex in H1. injection H1 as <-.
        rewrite Ey in H2. injection H2 as <-. lia.
      * exact (Hmax a ta th Ha H1 H2).
Qed.

Lemma setHours_midnight_fixed (d : Z) :
  setHours (fixedLocalTime offset) (fixedUTC offset) d 0 0 0 0
  = Day (d + offset) * msPerDay - offset.
Proof.
  unfold setHours, fixedLocalTime, fixedUTC, MakeDate, MakeTime. lia.
Qed.

Lemma before_midnight_fixed (t now : Z) :
  t < setHours (fixedLocalTime offset) (fixedUTC offset) now 0 0 0 0
  <-> Day (t + offset) < Day (now + offset).
Proof.
  rewrite setHours_midnight_fixed. unfold Day, msPerDay.
  split; intros H; Z.div_mod_to_equations; lia.
Qed.

Lemma ownedBy_true (userId : Z) (a : Aufguss) :
  ownedBy userId a = true <-> aufgussmeisterId a = Some userId.
Proof.
  unfold ownedBy. destruct (aufgussmeisterId a) as [m |].
  - rewrite Z.eqb_eq. split; congruence.
  - split; discriminate.
Qed.

(** X18. Days since the last aufguss, for a host at a fixed offset from
    UTC.  A slot counts when it belongs to the user and its date, as the
    host reads it, falls on a local day before the local day of the call.
    Without such a slot the result is [null]; otherwise it is the number of
    local days from the latest such slot to today, which is at least 1.
    The result is never [NaN], and slots of other users, slots without an
    owner, slots of today or later and slots with an unreadable date do not
    count. *)
Theorem calculateDaysSinceLastAufguss_spec (userId : Z)
    (allAufguesse : list Aufguss) (now : Z) :
  let localDay := fun t => Day (fixedLocalTime offset t) in
  let past := fun a t =>
    In a allAufguesse /\ aufgussmeisterId a = Some userId /\
    dateValue (a_date a) = Some t /\ localDay t < localDay now in
  let result :=
    calculateDaysSinceLastAufguss (fixedLocalTime offset) (fixedUTC offset)
      dateValue userId allAufguesse now in
  (result = None <-> ~ exists a t, past a t) /\
  result <> Some NaN /\
  forall d, result = Some (Finite d) ->
    1 <= d /\
    (exists a t, past a t /\ d = localDay now - localDay t) /\
    (forall a t, past a t -> d <= localDay now - localDay t).
Proof.
  cbv zeta. unfold calculateDaysSinceLastAufguss. cbv zeta.
  set (today := setHours (fixedLocalTime offset) (fixedUTC offset) now 0 0 0 0).
  set (l := List.filter
              (fun a => ownedBy userId a && before (dateValue (a_date a)) today)
              allAufguesse).
  assert (Hin : forall a, In a l <->
            exists t, In a allAufguesse /\ aufgussmeisterId a = Some userId /\
                      dateValue (a_date a) = Some t /\
                      Day (fixedLocalTime offset t)
                      < Day (fixedLocalTime offset now)).
  { intros a. unfold l. rewrite List.filter_In, andb_true_iff, ownedBy_true.
    unfold before, fixedLocalTime.
    destruct (dateValue (a_date a)) as [t |].
    - rewrite Z.ltb_lt. unfold today. rewrite before_midnight_fixed.
      split.
      + intros (H1 & H2 & H3). exists t. auto.
      + intros (t' & H1 & H2 & H3 & H4). injection H3 as <-. auto.
    - split; [intros (_ & _ & H); discriminate H |].
      intros (t' & _ & _ & H & _). discriminate H. }
  assert (Hall : forall a, In a l -> exists t, dateValue (a_date a) = Some t).
  { intros a Ha. apply Hin in Ha. destruct Ha as (t & _ & _ & H & _).
    exists t. exact H. }
  pose proof (sortBy_byDate_head l Hall) as Hhead.
  destruct (sortBy (byDateDescending dateValue) l) as [| h r].
  - split; [| split; [discriminate | discriminate]].
    split; [| reflexivity]. intros _ (a & t & H1 & H2 & H3 & H4).
    assert (Ha : In a l) by (apply Hin; exists t; auto).
    rewrite Hhead in Ha. destruct Ha.
  - destruct Hhead as [Hh Hmax].
    pose proof Hh as Hh'. apply Hin in Hh'.
    destruct Hh' as (th & H1 & H2 & H3 & H4). rewrite H3.
    assert (Hdiff : (today - setHours (fixedLocalTime offset)
                               (fixedUTC offset) th 0 0 0 0)
                    / (1000 * 60 * 60 * 24)
                    = Day (fixedLocalTime offset now)
                      - Day (fixedLocalTime offset th)).
    { unfold today. rewrite !setHours_midnight_fixed.
      unfold fixedLocalTime, msPerDay.
      set (D := Day (now + offset)). set (L := Day (th + offset)).
      replace (D * 86400000 - offset - (L * 86400000 - offset))
        with ((D - L) * (1000 * 60 * 60 * 24)) by lia.
      apply Z.div_mul. lia. }
    rewrite Hdiff.
    split; [| split; [discriminate |]].
    + split; [discriminate |]. intros Hno. exfalso. apply Hno.
      exists h, th. auto.
    + intros d Hd. injection Hd as <-. split; [lia |]. split.
      * exists h, th. auto.
      * intros a t (Ha1 & Ha2 & Ha3 & Ha4).
        assert (Ha : In a l) by (apply Hin; exists t; auto).
        pose proof (Hmax a t th Ha Ha3 H3) as Hle.
        assert (Day (fixedLocalTime offset t)
                <= Day (fixedLocalTime offset th))
          by (apply Day_mono; unfold fixedLocalTime; lia).
        lia.
Qed.

End DaysSince.

Lemma calculateDaysSinceLastAufguss_spec_witness :
  calculateDaysSinceLastAufguss (fixedLocalTime cest) (fixedUTC cest)
    parseDateOnly 2 [sampleSlot1; testSlot noon_2025_08_31] noon_2025_08_31
  = Some (Finite 15) /\
  1 <= 15.
Proof.
  assert (H : calculateDaysSinceLastAufguss (fixedLocalTime cest)
                (fixedUTC cest) parseDateOnly 2
                [sampleSlot1; testSlot noon_2025_08_31] noon_2025_08_31
              = Some (Finite 15)) by (vm_compute; reflexivity).
  split; [exact H |].
  exact (proj1 (proj2 (proj2 (calculateDaysSinceLastAufguss_spec cest
                                parseDateOnly 2
                                [sampleSlot1; testSlot noon_2025_08_31]
                                noon_2025_08_31)) 15 H)).
Defined.

Lemma ownedBy_freeSlot (userId : Z) (loc sauna dateStr time : string) :
  ownedBy userId (freeSlot loc sauna dateStr time) = false.
Proof. reflexivity. Qed.

(** X19. The generated test slot on the dashboard, for a host at a fixed
    offset of less than a day east of UTC: whenever the days since the last
    aufguss are computed for user 2 from a freshly generated slot set, at a
    time [now'] not before the generation, the result is the local day
    number of [now'] less the UTC day number of the generation, plus 15.
    So it is at least 15, and at the moment of generation it is 15 or, when
    the local day is already one ahead of the UTC day, 16.  For every other
    user the result is [null]. *)
Theorem test_slot_days_since (offset today now now' : Z) :
  0 <= offset < msPerDay ->
  0 <= YearFromTime (now - 15 * 24 * 60 * 60 * 1000) <= 9999 ->
  now <= now' ->
  let slots :=
    generateInitialAufguesse (fixedLocalTime offset) (fixedUTC offset)
      today now in
  let days := Day (fixedLocalTime offset now') - Day now + 15 in
  calculateDaysSinceLastAufguss (fixedLocalTime offset) (fixedUTC offset)
    parseDateOnly 2 slots now' = Some (Finite days) /\
  15 <= days /\
  (now' = now -> days <= 16) /\
  forall userId, userId <> 2 ->
    calculateDaysSinceLastAufguss (fixedLocalTime offset) (fixedUTC offset)
      parseDateOnly userId slots now' = None.
Proof.
  intros Hoff Hyear Hnow. cbv zeta.
  set (midnight := setHours (fixedLocalTime offset) (fixedUTC offset)
                     now' 0 0 0 0).
  set (t0 := MakeDate (Day (now - 15 * 24 * 60 * 60 * 1000)) 0).
  assert (Hparse : parseDateOnly (a_date (testSlot now)) = Some t0)
    by (apply parseDateOnly_isoDate, Hyear).
  assert (Hday0 : Day (now - 15 * 24 * 60 * 60 * 1000) = Day now - 15).
  { replace (now - 15 * 24 * 60 * 60 * 1000) with (now + (-15) * msPerDay)
      by (unfold msPerDay; lia).
    rewrite Day_shift. lia. }
  assert (Hlocal : Day (t0 + offset) = Day now - 15).
  { unfold t0, MakeDate. rewrite Hday0, Z.add_0_r.
    unfold msPerDay in *. unfold Day at 1. unfold msPerDay.
    Z.div_mod_to_equations. lia. }
  assert (Hmono : Day now <= Day (now' + offset))
    by (apply Day_mono; lia).
  assert (Hwindow : forall userId,
            List.filter
              (fun a => ownedBy userId a
                        && before (parseDateOnly (a_date a)) midnight)
              (windowSlots (fixedLocalTime offset) (fixedUTC offset) today)
            = []).
  { intros userId. apply filter_none. intros a Ha.
    apply windowSlots_In in Ha.
    destruct Ha as (day & loc & sauna & time & _ & _ & ->).
    reflexivity. }
  split; [| split; [| split]].
  - unfold calculateDaysSinceLastAufguss, generateInitialAufguesse. cbv zeta.
    fold midnight. rewrite List.filter_app, Hwindow.
    cbn [List.filter app]. rewrite Hparse.
    change (ownedBy 2 (testSlot now)) with true.
    replace (before (Some t0) midnight) with true.
    2:{ symmetry. unfold before. apply Z.ltb_lt. unfold midnight.
        apply before_midnight_fixed. lia. }
    cbn [andb sortBy foldr insertBy]. rewrite Hparse. unfold midnight.
    rewrite !setHours_midnight_fixed, Hlocal. unfold fixedLocalTime.
    do 2 f_equal. unfold msPerDay.
    set (D := Day (now' + offset)).
    replace (D * 86400000 - offset - ((Day now - 15) * 86400000 - offset))
      with ((D - Day now + 15) * (1000 * 60 * 60 * 24)) by lia.
    apply Z.div_mul. lia.
  - unfold fixedLocalTime. lia.
  - intros ->. unfold fixedLocalTime, Day, msPerDay in *.
    Z.div_mod_to_equations. lia.
  - intros userId Hne.
    unfold calculateDaysSinceLastAufguss, generateInitialAufguesse. cbv zeta.
    fold midnight. rewrite List.filter_app, Hwindow.
    cbn [List.filter app].
    replace (ownedBy userId (testSlot now)) with false; [reflexivity |].
    symmetry. change (ownedBy userId (testSlot now)) with (2 =? userId).
    apply Z.eqb_neq. congruence.
Qed.

Lemma test_slot_days_since_witness :
  0 <= cest < msPerDay /\
  0 <= YearFromTime (noon_2025_08_31 - 15 * 24 * 60 * 60 * 1000) <= 9999 /\
  noon_2025_08_31 <= noon_2025_08_31 /\
  calculateDaysSinceLastAufguss (fixedLocalTime cest) (fixedUTC cest)
    parseDateOnly 2
    (generateInitialAufguesse (fixedLocalTime cest) (fixedUTC cest)
       noon_2025_08_31 noon_2025_08_31)
    noon_2025_08_31
  = Some (Finite 15).
Proof.
  assert (H1 : 0 <= cest < msPerDay) by (vm_compute; split; congruence).
  assert (H2 : 0 <= YearFromTime
                      (noon_2025_08_31 - 15 * 24 * 60 * 60 * 1000) <= 9999)
    by (vm_compute; split; discriminate).
  assert (H3 : noon_2025_08_31 <= noon_2025_08_31) by reflexivity.
  repeat (split; [assumption |]).
  exact (proj1 (test_slot_days_since cest noon_2025_08_31 noon_2025_08_31
                  noon_2025_08_31 H1 H2 H3)).
Defined.

(* ================================================================== *)
(** * Holidays and the page background                                  *)
(* ================================================================== *)

Lemma truthy_Some (o : option string) (s : string) :
  truthy o = Some s -> o = Some s /\ s <> EmptyString.
Proof.
  unfold truthy. destruct o as [x |]; [| discriminate].
  destruct (String.eqb_spec x EmptyString); [discriminate |].
  intros H. injection H as <-. auto.
Qed.

Lemma truthy_nonempty (s : string) :
  s <> EmptyString -> truthy (Some s) = Some s.
Proof.
  intros H. unfold truthy. apply String.eqb_neq in H. rewrite H. reflexivity.
Qed.

Section Background.
Variable LocalTime : Z -> Z.

Lemma getHoliday_truthy (today : Z) :
  truthy (getHoliday LocalTime today) = getHoliday LocalTime today.
Proof.
  unfold getHoliday. cbv zeta.
  repeat match goal with
         | |- context [if ?c then _ else _] => destruct c
         end; reflexivity.
Qed.

(** X20. The page background.  The two copies of the holiday test agree on
    every date.  The background is never the empty string.  On a holiday it
    is the same on every page and in every stage; on other days an uploaded
    picture that is not empty is shown on its own page, and after the
    picture of a page has been removed that page shows what it would show
    with no uploads at all, the other pages being unaffected. *)
Theorem backgroundUrl_spec (today : Z)
    (persistedBackgrounds : gmap string string) :
  getHolidayKey LocalTime today = getHoliday LocalTime today /\
  (forall appStage view,
     backgroundUrl LocalTime today appStage view persistedBackgrounds
     <> EmptyString) /\
  (getHoliday LocalTime today <> None ->
   forall appStage view appStage' view',
     backgroundUrl LocalTime today appStage view persistedBackgrounds
     = backgroundUrl LocalTime today appStage' view' persistedBackgrounds) /\
  (getHoliday LocalTime today = None ->
   forall view,
     (forall url, persistedBackgrounds !! view = Some url ->
        url <> EmptyString ->
        backgroundUrl LocalTime today "loggedIn" view persistedBackgrounds
        = url) /\
     backgroundUrl LocalTime today "loggedIn" view
       (handleRemoveBackground true persistedBackgrounds view)
     = backgroundUrl LocalTime today "loggedIn" view ∅ /\
     forall other, other <> view ->
       backgroundUrl LocalTime today "loggedIn" other
         (handleRemoveBackground true persistedBackgrounds view)
       = backgroundUrl LocalTime today "loggedIn" other persistedBackgrounds).
Proof.
  split; [| split; [| split]].
  - unfold getHolidayKey, getHoliday. cbv zeta.
    generalize (getMonth LocalTime today), (getDate LocalTime today).
    intros month day.
    destruct ((month =? 2) && (29 <=? day) || (month =? 3) && (day <=? 1));
      [reflexivity |].
    destruct ((month =? 11) && (5 <=? day) && (day <=? 7)); [reflexivity |].
    destruct ((month =? 11) && (20 <=? day) && (day <=? 27));
      [reflexivity |].
    destruct ((month =? 11) && (30 <=? day)); [reflexivity |].
    destruct ((month =? 0) && (day <=? 2)); reflexivity.
  - intros appStage view. unfold backgroundUrl. cbv zeta.
    match goal with
    | |- context [truthy (persistedBackgrounds !! ?k)] => set (key := k)
    end.
    destruct (truthy (persistedBackgrounds !! key)) as [url |] eqn:E1.
    { apply truthy_Some in E1. tauto. }
    destruct (truthy (FALLBACK_BACKGROUND_URLS !! key)) as [url |] eqn:E2.
    { apply truthy_Some in E2. tauto. }
    vm_compute. discriminate.
  - intros Hh appStage view appStage' view'. unfold backgroundUrl. cbv zeta.
    rewrite getHoliday_truthy.
    destruct (getHoliday LocalTime today); [reflexivity | contradiction].
  - intros Hh view. unfold backgroundUrl, handleRemoveBackground. cbv zeta.
    rewrite Hh. simpl truthy at 1. simpl String.eqb. cbv iota.
    split; [| split].
    + intros url Hurl Hne. rewrite Hurl, (truthy_nonempty url Hne).
      reflexivity.
    + rewrite lookup_delete_eq, lookup_empty. reflexivity.
    + intros other Hne. simpl truthy at 1.
      rewrite lookup_delete_ne by congruence. reflexivity.
Qed.

End Background.

Lemma backgroundUrl_spec_witness :
  getHoliday (fixedLocalTime cest) 1766570400000 = Some "christmas" /\
  backgroundUrl (fixedLocalTime cest) 1766570400000 "loggedIn" "social" ∅
  = backgroundUrl (fixedLocalTime cest) 1766570400000 "login" "dashboard" ∅.
Proof.
  assert (H : getHoliday (fixedLocalTime cest) 1766570400000
              = Some "christmas") by (vm_compute; reflexivity).
  split; [exact H |].
  apply (proj1 (proj2 (proj2 (backgroundUrl_spec (fixedLocalTime cest)
                                1766570400000 ∅)))).
  rewrite H. discriminate.
Defined.

(* ================================================================== *)
(** * The date navigation of the planner                                *)
(* ================================================================== *)

Lemma setDate_fixed (offset d k : Z) :
  setDate (fixedLocalTime offset) (fixedUTC offset) d
          (getDate (fixedLocalTime offset) d + k)
  = d + k * msPerDay.
Proof.
  rewrite setDate_getDate. unfold fixedLocalTime, fixedUTC. lia.
Qed.

Section DateNavigation.
Variable offset : Z.

(** X21. The date navigation, for a host at a fixed offset from UTC and a
    selected date that reads as a date.  The handler moves the selection by
    [direction] days when the target, midnight UTC of the new day, is not
    before the instant [today] at which the view was rendered and not after
    the handler's clock reading moved on by 29 days (corrected by the
    difference of the two readings' days of the month); otherwise the
    selection stays.  So a new selection never lies before the UTC day of
    [today], and unless the view was rendered exactly at midnight UTC it
    lies after it: the navigation never arrives at today's date, which only
    the initial selection has. *)
Theorem handleDateChange_window (today now : Z) (selectedDate : string)
    (direction current : Z) :
  parseDateOnly selectedDate = Some current ->
  let target := current + direction * msPerDay in
  let latest :=
    now + (getDate (fixedLocalTime offset) today
           - getDate (fixedLocalTime offset) now + 29) * msPerDay in
  let result :=
    handleDateChange (fixedLocalTime offset) (fixedUTC offset) parseDateOnly
      today now selectedDate direction in
  result = (if (today <=? target) && (target <=? latest)
            then isoDate target else selectedDate) /\
  (result <> selectedDate ->
     Day target = Day current + direction /\
     Day today <= Day target <= Day latest /\
     (TimeWithinDay today <> 0 -> Day today < Day target)) /\
  (TimeWithinDay today <> 0 ->
   0 <= YearFromTime today <= 9999 -> 0 <= YearFromTime target <= 9999 ->
   result = isoDate today -> selectedDate = isoDate today).
Proof.
  intros Hparse. cbv zeta.
  assert (Hform : handleDateChange (fixedLocalTime offset) (fixedUTC offset)
                    parseDateOnly today now selectedDate direction
                  = if (today <=? current + direction * msPerDay)
                       && (current + direction * msPerDay
                           <=? now + (getDate (fixedLocalTime offset) today
                                      - getDate (fixedLocalTime offset) now
                                      + 29) * msPerDay)
                    then isoDate (current + direction * msPerDay)
                    else selectedDate).
  { unfold handleDateChange. rewrite Hparse. cbv zeta.
    rewrite setDate_fixed.
    replace (getDate (fixedLocalTime offset) today + 29)
      with (getDate (fixedLocalTime offset) now
            + (getDate (fixedLocalTime offset) today
               - getDate (fixedLocalTime offset) now + 29)) by lia.
    rewrite setDate_fixed. reflexivity. }
  pose proof (parseDateOnly_midnight _ _ Hparse) as Hmid.
  assert (Hchanged :
            (today <=? current + direction * msPerDay)
            && (current + direction * msPerDay
                <=? now + (getDate (fixedLocalTime offset) today
                           - getDate (fixedLocalTime offset) now + 29)
                          * msPerDay) = true ->
            Day (current + direction * msPerDay) = Day current + direction /\
            Day today <= Day (current + direction * msPerDay)
            <= Day (now + (getDate (fixedLocalTime offset) today
                           - getDate (fixedLocalTime offset) now + 29)
                          * msPerDay) /\
            (TimeWithinDay today <> 0 ->
             Day today < Day (current + direction * msPerDay))).
  { intros Hc. apply andb_true_iff in Hc. destruct Hc as [H1 H2].
    apply Z.leb_le in H1. apply Z.leb_le in H2.
    split; [apply Day_shift |]. split.
    - split; apply Day_mono; assumption.
    - intros Hne. rewrite Day_shift.
      unfold MakeDate in Hmid. unfold TimeWithinDay in Hne.
      unfold Day, msPerDay in *. Z.div_mod_to_equations. lia. }
  split; [exact Hform |]. split.
  - intros Hne. rewrite Hform in Hne.
    destruct ((today <=? current + direction * msPerDay)
              && (current + direction * msPerDay
                  <=? now + (getDate (fixedLocalTime offset) today
                             - getDate (fixedLocalTime offset) now + 29)
                            * msPerDay)) eqn:Hc.
    + apply Hchanged. reflexivity.
    + contradiction.
  - intros Hne Hy Hy' Hres. rewrite Hform in Hres.
    destruct ((today <=? current + direction * msPerDay)
              && (current + direction * msPerDay
                  <=? now + (getDate (fixedLocalTime offset) today
                             - getDate (fixedLocalTime offset) now + 29)
                            * msPerDay)) eqn:Hc; [| exact Hres].
    exfalso. destruct (Hchanged eq_refl) as (_ & _ & Hlt).
    apply isoDate_inj_day in Hres; [| exact Hy' | exact Hy].
    specialize (Hlt Hne). lia.
Qed.

End DateNavigation.

Lemma handleDateChange_window_witness :
  parseDateOnly "2025-08-31" = Some 1756598400000 /\
  handleDateChange (fixedLocalTime cest) (fixedUTC cest) parseDateOnly
    noon_2025_08_31 noon_2025_08_31 "2025-08-31" 1 = "2025-09-01" /\
  parseDateOnly "2025-09-01" = Some 1756684800000 /\
  handleDateChange (fixedLocalTime cest) (fixedUTC cest) parseDateOnly
    noon_2025_08_31 noon_2025_08_31 "2025-09-01" (-1) = "2025-09-01".
Proof.
  assert (H1 : parseDateOnly "2025-08-31" = Some 1756598400000)
    by reflexivity.
  assert (H2 : parseDateOnly "2025-09-01" = Some 1756684800000)
    by reflexivity.
  split; [exact H1 |]. split.
  - exact (proj1 (handleDateChange_window cest noon_2025_08_31
                    noon_2025_08_31 "2025-08-31" 1 1756598400000 H1)).
  - split; [exact H2 |].
    exact (proj1 (handleDateChange_window cest noon_2025_08_31
                    noon_2025_08_31 "2025-09-01" (-1) 1756684800000 H2)).
Defined.

(* ================================================================== *)
(** * The time generator of the festival form                           *)
(* ================================================================== *)

Lemma setMinutes_fixed (offset d i : Z) :
  setMinutes (fixedLocalTime offset) (fixedUTC offset) d
             (getMinutes (fixedLocalTime offset) d + i)
  = d + i * msPerMinute.
Proof.
  unfold setMinutes, getMinutes, fixedLocalTime, fixedUTC, MakeDate, MakeTime,
    Day, HourFromTime, MinFromTime, SecFromTime, msFromTime, msPerDay,
    msPerHour, msPerMinute, msPerSecond.
  cbv zeta. Z.div_mod_to_equations. lia.
Qed.

Lemma timesFrom_nil (offset from step count : Z) :
  count <= 0 -> timesFrom offset from step count = [].
Proof.
  intros H. unfold timesFrom, seqZ.
  replace (Z.to_nat count) with 0%nat by lia. reflexivity.
Qed.

Lemma timesFrom_cons (offset from step count : Z) :
  0 < count ->
  timesFrom offset from step count
  = timeOfDay (fixedLocalTime offset) from
    :: timesFrom offset (from + step) step (count - 1).
Proof.
  intros H. unfold timesFrom.
  rewrite seqZ_cons by lia. simpl map. f_equal.
  - f_equal. lia.
  - replace (Z.succ 0) with (1 + 0) by lia.
    rewrite <- (fmap_add_seqZ 1 0 (Z.pred count)).
    replace (Z.pred count) with (count - 1) by lia.
    change (map ?f (Z.add 1 <$> ?l)) with (map f (map (Z.add 1) l)).
    rewrite map_map. apply map_ext. intros k. f_equal. lia.
Qed.

Section TimeGenerator.
Variable offset : Z.
Variable dateTimeValue : string -> option Z.

(** The number of times from [s] to [e] in steps of [step]. *)
Lemma generateTimes_fixed (e i : Z) :
  1 <= i ->
  forall fuel s,
    let count := if s <=? e then (e - s) / (i * msPerMinute) + 1 else 0 in
    (Z.to_nat count < fuel)%nat ->
    generateTimes (fixedLocalTime offset) (fixedUTC offset) fuel
      (Some s) (Some e) (Some i)
    = Some (timesFrom offset s (i * msPerMinute) count).
Proof.
  intros Hi. induction fuel as [| fuel IH]; intros s count Hfuel; [lia |].
  subst count. simpl generateTimes.
  destruct (Z.leb_spec s e) as [Hle | Hgt].
  - rewrite setMinutes_fixed.
    assert (Hcount : (if s + i * msPerMinute <=? e
                      then (e - (s + i * msPerMinute)) / (i * msPerMinute) + 1
                      else 0)
                     = (e - s) / (i * msPerMinute) + 1 - 1).
    { unfold msPerMinute in *.
      destruct (Z.leb_spec (s + i * 60000) e);
        Z.div_mod_to_equations; nia. }
    assert (Hpos : 0 < (e - s) / (i * msPerMinute) + 1).
    { unfold msPerMinute. Z.div_mod_to_equations. nia. }
    rewrite IH.
    + rewrite Hcount, <- timesFrom_cons by exact Hpos. reflexivity.
    + cbv zeta. rewrite Hcount. lia.
  - rewrite timesFrom_nil by lia. reflexivity.
Qed.

Lemma generateTimes_stuck (e s : Z) :
  s <= e ->
  forall fuel,
    generateTimes (fixedLocalTime offset) (fixedUTC offset) fuel
      (Some s) (Some e) (Some 0) = None.
Proof.
  intros Hle. induction fuel as [| fuel IH]; [reflexivity |].
  simpl generateTimes.
  replace (s <=? e) with true by (symmetry; apply Z.leb_le; exact Hle).
  rewrite setMinutes_fixed. replace (s + 0 * msPerMinute) with s by lia.
  rewrite IH. reflexivity.
Qed.

(** X22. The time generator, for a host at a fixed offset from UTC, with
    start and end times that read as instants [s] and [e].  With an
    interval of at least one minute the loop ends and the form's list of
    times is replaced by the times of day of [s], [s] + interval, ... up
    to the last one that is not after [e]: [(e - s) / interval + 1] of them
    when [s] is not after [e] and none otherwise, whatever the list held
    before.  With an interval of 0 and [s] not after [e] the loop never
    ends, whatever the fuel; with an interval that is not a number only
    the start time is produced. *)
Theorem handleGenerateTimes_spec (aufgussTimes : list string)
    (start end_ : string) (s e : Z) :
  start <> EmptyString -> end_ <> EmptyString ->
  dateTimeValue ("1970-01-01T" ++ start ++ ":00") = Some s ->
  dateTimeValue ("1970-01-01T" ++ end_ ++ ":00") = Some e ->
  let run := fun fuel intervalMinutes =>
    handleGenerateTimes (fixedLocalTime offset) (fixedUTC offset)
      dateTimeValue fuel aufgussTimes start end_ intervalMinutes in
  (forall i fuel, 1 <= i ->
     let count := if s <=? e then (e - s) / (i * msPerMinute) + 1 else 0 in
     (Z.to_nat count < fuel)%nat ->
     run fuel (Some i) = Some (timesFrom offset s (i * msPerMinute) count) /\
     Z.of_nat (List.length (timesFrom offset s (i * msPerMinute) count))
     = count) /\
  (s <= e -> forall fuel, run fuel (Some 0) = None) /\
  (s <= e -> forall fuel, (2 <= fuel)%nat ->
     run fuel None = Some [timeOfDay (fixedLocalTime offset) s]).
Proof.
  intros Hs He Es Ee. cbv zeta. unfold handleGenerateTimes.
  apply String.eqb_neq in Hs. apply String.eqb_neq in He.
  rewrite Hs, He, Es, Ee. simpl orb. cbv iota.
  split; [| split].
  - intros i fuel Hi Hfuel. split.
    + apply generateTimes_fixed; assumption.
    + unfold timesFrom. rewrite length_map, length_seqZ.
      destruct (Z.leb_spec s e); [| reflexivity].
      unfold msPerMinute. Z.div_mod_to_equations. nia.
  - intros Hle fuel. apply generateTimes_stuck, Hle.
  - intros Hle fuel Hfuel.
    destruct fuel as [| [| fuel]]; [lia | lia |].
    simpl generateTimes.
    replace (s <=? e) with true by (symmetry; apply Z.leb_le; exact Hle).
    reflexivity.
Qed.

End TimeGenerator.

Lemma handleGenerateTimes_spec_witness :
  "10:00" <> EmptyString /\ "22:00" <> EmptyString /\
  parseLocalDateTimeSec (fixedUTC cest) ("1970-01-01T" ++ "10:00" ++ ":00")
  = Some 28800000 /\
  parseLocalDateTimeSec (fixedUTC cest) ("1970-01-01T" ++ "22:00" ++ ":00")
  = Some 72000000 /\
  handleGenerateTimes (fixedLocalTime cest) (fixedUTC cest)
    (parseLocalDateTimeSec (fixedUTC cest)) 20 ["09:15"] "10:00" "22:00"
    (Some 60)
  = Some ["10:00"; "11:00"; "12:00"; "13:00"; "14:00"; "15:00"; "16:00";
          "17:00"; "18:00"; "19:00"; "20:00"; "21:00"; "22:00"].
Proof.
  assert (H1 : "10:00" <> EmptyString) by discriminate.
  assert (H2 : "22:00" <> EmptyString) by discriminate.
  assert (H3 : parseLocalDateTimeSec (fixedUTC cest)
                 ("1970-01-01T" ++ "10:00" ++ ":00") = Some 28800000)
    by (vm_compute; reflexivity).
  assert (H4 : parseLocalDateTimeSec (fixedUTC cest)
                 ("1970-01-01T" ++ "22:00" ++ ":00") = Some 72000000)
    by (vm_compute; reflexivity).
  repeat (split; [assumption |]).
  refine (eq_trans
            (proj1 (proj1 (handleGenerateTimes_spec cest
                             (parseLocalDateTimeSec (fixedUTC cest))
                             ["09:15"] "10:00" "22:00" 28800000 72000000
                             H1 H2 H3 H4) 60 20%nat _ _)) _).
  - lia.
  - vm_compute. lia.
  - vm_compute. reflexivity.
Defined.

(* ================================================================== *)
(** * The migration of the stored users                                 *)
(* ================================================================== *)

Lemma lookupProp_setProp_eq (key : string) (v : Value)
    (props : list (string * Value)) :
  lookupProp key (setProp key v props) = v.
Proof.
  induction props as [| [k w] rest IH]; simpl.
  - rewrite String.eqb_refl. reflexivity.
  - destruct (String.eqb k key) eqn:E; simpl; rewrite E; [reflexivity | exact IH].
Qed.

Lemma lookupProp_setProp_ne (key key' : string) (v : Value)
    (props : list (string * Value)) :
  key' <> key -> lookupProp key' (setProp key v props) = lookupProp key' props.
Proof.
  intros Hne. induction props as [| [k w] rest IH]; simpl.
  - destruct (String.eqb_spec key key'); [congruence | reflexivity].
  - destruct (String.eqb_spec k key) as [-> | Hk]; simpl.
    + destruct (String.eqb_spec key key'); [congruence | reflexivity].
    + rewrite IH. reflexivity.
Qed.

Lemma setProp_twice (key : string) (v : Value)
    (props : list (string * Value)) :
  setProp key v (setProp key v props) = setProp key v props.
Proof.
  induction props as [| [k w] rest IH]; simpl.
  - rewrite String.eqb_refl. reflexivity.
  - destruct (String.eqb k key) eqn:E; simpl; rewrite E; [reflexivity |].
    rewrite IH. reflexivity.
Qed.

(** The status that the migration writes. *)
Lemma migrateUser_inv (u u' : Value) :
  migrateUser u = Ok u' ->
  exists status,
    getProp u "status" = Ok status /\
    u' = VObj (setProp "status"
                 (match status with
                  | VStr s => if String.eqb s "pending_approval"
                              then VStr "active" else status
                  | _ => status
                  end) (spread u)).
Proof.
  unfold migrateUser. destruct (getProp u "status") as [status | e] eqn:E;
    simpl; [| discriminate].
  intros H. injection H as <-. exists status. auto.
Qed.

Lemma migrated_status_not_pending (status : Value) :
  match status with
  | VStr s => if String.eqb s "pending_approval" then VStr "active" else status
  | _ => status
  end <> VStr "pending_approval".
Proof.
  destruct status as [| | b | n | s | items | props]; try discriminate.
  destruct (String.eqb_spec s "pending_approval"); [discriminate | congruence].
Qed.

Lemma migrateUser_again (u u' : Value) :
  migrateUser u = Ok u' -> migrateUser u' = Ok u'.
Proof.
  intros H. apply migrateUser_inv in H. destruct H as (status & _ & ->).
  pose proof (migrated_status_not_pending status) as Hne.
  set (status' := match status with
                  | VStr s => if String.eqb s "pending_approval"
                              then VStr "active" else status
                  | _ => status
                  end) in *.
  assert (Hsame : match status' with
                  | VStr s => if String.eqb s "pending_approval"
                              then VStr "active" else status'
                  | _ => status'
                  end = status').
  { destruct status' as [| | b | n | s | items | props]; try reflexivity.
    destruct (String.eqb_spec s "pending_approval");
      [congruence | reflexivity]. }
  unfold migrateUser. simpl getProp. rewrite lookupProp_setProp_eq.
  simpl mbind. simpl spread. rewrite Hsame, setProp_twice. reflexivity.
Qed.

Lemma mapR_inv {A B} (f : A -> Result B) (l : list A) (l' : list B) :
  mapR f l = Ok l' -> Forall2 (fun x y => f x = Ok y) l l'.
Proof.
  revert l'. induction l as [| x l IH]; simpl; intros l' H.
  - injection H as <-. constructor.
  - destruct (f x) as [y | e] eqn:Ex; simpl in H; [| discriminate].
    destruct (mapR f l) as [ys | e] eqn:El; simpl in H; [| discriminate].
    injection H as <-. constructor; [exact Ex | apply IH; reflexivity].
Qed.

Lemma mapR_again {A} (f : A -> Result A) (l l' : list A) :
  (forall x y, f x = Ok y -> f y = Ok y) ->
  mapR f l = Ok l' -> mapR f l' = Ok l'.
Proof.
  intros Hf H. apply mapR_inv in H.
  induction H as [| x y l l' Hxy _ IH]; [reflexivity |].
  simpl. rewrite (Hf x y Hxy). simpl. rewrite IH. reflexivity.
Qed.

(** X23. The migration of the stored users, when it succeeds: the input was
    an array and the output is an array of objects of the same length; no
    migrated user has the status [pending_approval]; a user object that had
    it is [active] now, every other status is kept, and so is every other
    property; migrating the result again changes nothing. *)
Theorem migrateUsers_spec (initialUsers migrated : Value) :
  migrateUsers initialUsers = Ok migrated ->
  exists items items',
    initialUsers = VArr items /\ migrated = VArr items' /\
    List.length items' = List.length items /\
    (forall (i : nat) u', items' !! i = Some u' ->
       exists u props',
         items !! i = Some u /\ u' = VObj props' /\
         lookupProp "status" props' <> VStr "pending_approval" /\
         forall props, u = VObj props ->
           (lookupProp "status" props = VStr "pending_approval" ->
            lookupProp "status" props' = VStr "active") /\
           (lookupProp "status" props <> VStr "pending_approval" ->
            lookupProp "status" props' = lookupProp "status" props) /\
           (forall key, key <> "status" ->
              lookupProp key props' = lookupProp key props)) /\
    migrateUsers migrated = Ok migrated.
Proof.
  intros H. unfold migrateUsers in H.
  destruct initialUsers as [| | b | n | s | items | props]; try discriminate H.
  destruct (mapR migrateUser items) as [us | e] eqn:E; simpl in H;
    [| discriminate H].
  injection H as <-. exists items, us.
  pose proof (mapR_inv _ _ _ E) as HF.
  split; [reflexivity |]. split; [reflexivity |].
  split; [symmetry; apply (Forall2_length _ _ _ HF) |]. split.
  - intros i u' Hi.
    destruct (Forall2_lookup_r _ _ _ _ _ HF Hi) as (u & Hu & Hm).
    apply migrateUser_inv in Hm. destruct Hm as (status & Hst & ->).
    eexists u, _. split; [exact Hu |]. split; [reflexivity |].
    split.
    + rewrite lookupProp_setProp_eq. apply migrated_status_not_pending.
    + intros props ->. simpl in Hst. injection Hst as <-. simpl spread.
      split; [| split].
      * intros Hp. rewrite lookupProp_setProp_eq, Hp. reflexivity.
      * intros Hp. rewrite lookupProp_setProp_eq.
        destruct (lookupProp "status" props) as [| | b | n | s | its | ps];
          try reflexivity.
        destruct (String.eqb_spec s "pending_approval");
          [congruence | reflexivity].
      * intros key Hkey. apply lookupProp_setProp_ne, Hkey.
  - simpl. rewrite (mapR_again migrateUser items us migrateUser_again E).
    reflexivity.
Qed.

Lemma migrateUsers_spec_witness :
  migrateUsers (VArr [VObj [("id", VNum 1);
                            ("status", VStr "pending_approval")];
                      VObj [("id", VNum 2); ("status", VStr "inactive")]])
  = Ok (VArr [VObj [("id", VNum 1); ("status", VStr "active")];
              VObj [("id", VNum 2); ("status", VStr "inactive")]]) /\
  migrateUsers (VArr [VObj [("id", VNum 1); ("status", VStr "active")];
                      VObj [("id", VNum 2); ("status", VStr "inactive")]])
  = Ok (VArr [VObj [("id", VNum 1); ("status", VStr "active")];
              VObj [("id", VNum 2); ("status", VStr "inactive")]]).
Proof.
  assert (H : migrateUsers
                (VArr [VObj [("id", VNum 1);
                             ("status", VStr "pending_approval")];
                       VObj [("id", VNum 2); ("status", VStr "inactive")]])
              = Ok (VArr [VObj [("id", VNum 1); ("status", VStr "active")];
                          VObj [("id", VNum 2);
                                ("status", VStr "inactive")]]))
    by reflexivity.
  split; [exact H |].
  destruct (migrateUsers_spec _ _ H) as (items & items' & _ & _ & _ & _ & Hagain).
  exact Hagain.
Defined.

(* ================================================================== *)
(** * Saving and loading again                                          *)
(* ================================================================== *)

Section SaveFacts.
Variable JSON_parse : string -> Result Value.
Variable JSON_stringify : Value -> string.
Variable mockUsers : list (list (string * Value)).
Variables MOCK_POSTS MOCK_FESTIVALS generatedAufguesse MOCK_AWARDS
          DEFAULT_AUFGUSS_TYPES DEFAULT_QUALIFICATIONS : Value.

Abbreviation reload :=
  (loadAllData JSON_parse mockUsers MOCK_POSTS MOCK_FESTIVALS
     generatedAufguesse MOCK_AWARDS DEFAULT_AUFGUSS_TYPES
     DEFAULT_QUALIFICATIONS).
Abbreviation storedUsers storage :=
  (migrateUsers (storedOr JSON_parse storage "users" (MOCK_USERS mockUsers))).

Lemma storedOr_insert_eq (storage : Storage) (k text : string)
    (fallback v : Value) :
  text <> EmptyString -> JSON_parse text = Ok v ->
  storedOr JSON_parse (<[k := text]> storage) k fallback = v.
Proof.
  intros Hne Hv. unfold storedOr. rewrite lookup_insert_eq.
  apply String.eqb_neq in Hne. rewrite Hne, Hv. reflexivity.
Qed.

Ltac same_collections :=
  intros k'; unfold collection; simpl;
  repeat match goal with
         | |- context [String.eqb k' ?s] => destruct (String.eqb_spec k' s)
         end;
  congruence.

(** X24. Saving and loading again, in a storage whose users pass the
    migration.  A saved registration code is the loaded one, except that an
    empty code loads as [123456]; a saved festival selection is the loaded
    one, except that the empty selection loads as [null]; a collection
    other than the users that is saved as text which is not empty and which
    parses back to the saved data is loaded as that data.  In each case
    every other loaded field is as it was before the save. *)
Theorem save_then_load (storage : Storage) (users : Value) :
  storedUsers storage = Ok users ->
  (forall code, exists data data',
     reload storage = Ok data /\
     reload (saveRegistrationCode storage code) = Ok data' /\
     ld_registrationCode data'
     = (if String.eqb code EmptyString then "123456" else code) /\
     ld_selectedFestivalId data' = ld_selectedFestivalId data /\
     forall k, collection k data' = collection k data) /\
  (forall id, exists data data',
     reload storage = Ok data /\
     reload (saveSelectedFestivalId storage id) = Ok data' /\
     ld_selectedFestivalId data'
     = (if String.eqb id EmptyString then None else Some id) /\
     ld_registrationCode data' = ld_registrationCode data /\
     forall k, collection k data' = collection k data) /\
  (forall key v,
     In key collectionKeys -> key <> "users" ->
     JSON_stringify v <> EmptyString ->
     JSON_parse (JSON_stringify v) = Ok v ->
     exists data data',
       reload storage = Ok data /\
       reload (saveData JSON_stringify storage key v) = Ok data' /\
       collection key data' = v /\
       (forall k, k <> key -> collection k data' = collection k data) /\
       ld_registrationCode data' = ld_registrationCode data /\
       ld_selectedFestivalId data' = ld_selectedFestivalId data).
Proof.
  intros Hu. split; [| split].
  - intros code. unfold saveRegistrationCode.
    rewrite !loadAllData_eq.
    rewrite !storedOr_insert_ne by discriminate.
    rewrite (getItemOr_insert_ne storage "registrationCode"
               "selectedFestivalId") by discriminate.
    rewrite Hu.
    eexists. eexists. split; [reflexivity |]. split; [reflexivity |].
    split; [| split; [reflexivity | same_collections]].
    simpl. unfold getItemOr. rewrite lookup_insert_eq.
    destruct (String.eqb code EmptyString); reflexivity.
  - intros id. unfold saveSelectedFestivalId.
    rewrite !loadAllData_eq.
    rewrite !storedOr_insert_ne by discriminate.
    rewrite (getItemOr_insert_ne storage "selectedFestivalId"
               "registrationCode") by discriminate.
    rewrite Hu.
    eexists. eexists. split; [reflexivity |]. split; [reflexivity |].
    split; [| split; [reflexivity | same_collections]].
    simpl. unfold getItemOr. rewrite lookup_insert_eq.
    destruct (String.eqb id EmptyString); reflexivity.
  - intros key v Hkey Hne Htext Hparse. unfold saveData.
    assert (Hnew : forall fb,
              storedOr JSON_parse (<[key := JSON_stringify v]> storage) key fb
              = v)
      by (intros fb; apply storedOr_insert_eq; assumption).
    rewrite !loadAllData_eq.
    simpl in Hkey.
    destruct Hkey as [<- | [<- | [<- | [<- | [<- | [<- | [<- | [<- | []]]]]]]]];
      try congruence;
      rewrite ?Hnew;
      rewrite ?storedOr_insert_ne by discriminate;
      rewrite ?getItemOr_insert_ne by discriminate;
      rewrite ?Hu;
      (eexists; eexists; split; [reflexivity |]; split; [reflexivity |];
       split; [reflexivity |];
       split; [| split; reflexivity];
       intros k' Hk'; unfold collection; simpl;
       repeat match goal with
         | |- context [String.eqb k' ?s] =>
             destruct (String.eqb_spec k' s)
         end;
       congruence).
Qed.

End SaveFacts.

Lemma save_then_load_witness :
  migrateUsers (storedOr toyParse toyStorage "users" (MOCK_USERS toyMockUsers))
  = Ok (VArr [VObj [("status", VStr "active")]]) /\
  exists data data',
    toyLoad toyStorage = Ok data /\
    toyLoad (saveRegistrationCode toyStorage "271828") = Ok data' /\
    ld_registrationCode data' = "271828" /\
    ld_selectedFestivalId data' = ld_selectedFestivalId data.
Proof.
  assert (H : migrateUsers
                (storedOr toyParse toyStorage "users" (MOCK_USERS toyMockUsers))
              = Ok (VArr [VObj [("status", VStr "active")]]))
    by (vm_compute; reflexivity).
  split; [exact H |].
  destruct (proj1 (save_then_load toyParse toyStringify toyMockUsers
                     (VStr "posts") (VStr "festivals") (VStr "aufguesse")
                     (VStr "awards") (VStr "types") (VStr "quals")
                     toyStorage _ H) "271828")
    as (data & data' & H1 & H2 & H3 & H4 & _).
  exists data, data'. repeat split; assumption.
Defined.

(* ================================================================== *)
(** * The ids of the generated slots                                    *)
(* ================================================================== *)

Lemma string_length_append (a b : string) :
  String.length (a ++ b) = (String.length a + String.length b)%nat.
Proof.
  induction a as [| c a IH]; [reflexivity |].
  change (String c a ++ b) with (String c (a ++ b)). simpl. rewrite IH.
  reflexivity.
Qed.

Lemma string_append_assoc (a b c : string) : (a ++ b) ++ c = a ++ (b ++ c).
Proof.
  induction a as [| x a IH]; [reflexivity |].
  change (String x a ++ b) with (String x (a ++ b)).
  change (String x (a ++ b) ++ c) with (String x ((a ++ b) ++ c)).
  rewrite IH. reflexivity.
Qed.

(** Two texts that end in parts of the same length agree part by part. *)
Lemma append_suffix_inj (a b s s' : string) :
  String.length s = String.length s' ->
  a ++ s = b ++ s' -> a = b /\ s = s'.
Proof.
  intros Hlen. revert b. induction a as [| x a IH]; intros b E.
  - destruct b as [| y b]; [split; [reflexivity | exact E] |].
    exfalso. apply (f_equal String.length) in E.
    change (EmptyString ++ s) with s in E.
    rewrite string_length_append in E. simpl in E. lia.
  - destruct b as [| y b].
    + exfalso. apply (f_equal String.length) in E.
      change (EmptyString ++ s') with s' in E.
      rewrite string_length_append in E. simpl in E. lia.
    + change (String x (a ++ s) = String y (b ++ s')) in E.
      injection E as -> E. destruct (IH b E) as [-> ->]. auto.
Qed.

Lemma isoDate_length (t : Z) :
  0 <= YearFromTime t <= 9999 -> String.length (isoDate t) = 10%nat.
Proof.
  intros Hy.
  pose proof (MonthFromTime_range t) as Hm.
  pose proof (DateFromTime_range t) as Hd.
  pose proof (DaysInMonth_le_31 (YearFromTime t) (MonthFromTime t)) as H31.
  destruct (pad4_digits (YearFromTime t) Hy) as (y1 & y2 & y3 & y4 & Ey & _).
  destruct (pad2_digits (MonthFromTime t + 1)) as (m1 & m2 & Em & _); [lia |].
  destruct (pad2_digits (DateFromTime t)) as (d1 & d2 & Ed & _); [lia |].
  unfold isoDate, isoYear.
  replace ((0 <=? YearFromTime t) && (YearFromTime t <=? 9999)) with true
    by (symmetry; apply andb_true_iff; split; apply Z.leb_le; lia).
  rewrite Ey, Em, Ed. reflexivity.
Qed.

Lemma NoDup_flat_map {A B} (f : A -> list B) (l : list A) :
  List.NoDup l ->
  (forall x, In x l -> List.NoDup (f x)) ->
  (forall x y b, In x l -> In y l -> In b (f x) -> In b (f y) -> x = y) ->
  List.NoDup (flat_map f l).
Proof.
  induction l as [| x l IH]; intros Hnd Hf Hdis; simpl; [constructor |].
  inversion Hnd as [| ? ? Hx Hnd']; subst.
  apply List.NoDup_app.
  - apply Hf. left. reflexivity.
  - apply IH; [exact Hnd' | |].
    + intros y Hy. apply Hf. right. exact Hy.
    + intros y z b Hy Hz. apply Hdis; right; assumption.
  - intros b Hb Hb'. apply in_flat_map in Hb'. destruct Hb' as (y & Hy & Hby).
    assert (x = y)
      by (apply (Hdis x y b); [left; reflexivity | right; exact Hy | |];
          assumption).
    subst y. contradiction.
Qed.

(** The times of day of the generator are five characters long and do not
    repeat. *)
Ltac concrete_NoDup :=
  vm_compute;
  repeat (constructor; [simpl; intuition discriminate |]);
  constructor.

Ltac concrete_times :=
  split;
  [ concrete_NoDup
  | let t := fresh "t" in
    let Ht := fresh "Ht" in
    intros t Ht; vm_compute in Ht;
    repeat (destruct Ht as [Ht | Ht]; [subst t; reflexivity |]);
    destruct Ht ].

Lemma hourly_10_20_ok (minutes : string) :
  minutes = "00" \/ minutes = "30" ->
  List.NoDup (hourly 10 20 minutes) /\
  forall t, In t (hourly 10 20 minutes) -> String.length t = 5%nat.
Proof. intros [-> | ->]; concrete_times. Qed.

Lemma fdsTimes_ok (dayOfWeek : Z) :
  List.NoDup (fdsTimes dayOfWeek) /\
  forall t, In t (fdsTimes dayOfWeek) -> String.length t = 5%nat.
Proof.
  unfold fdsTimes.
  destruct ((2 <=? dayOfWeek) && (dayOfWeek <=? 4)); [concrete_times |].
  destruct ((5 <=? dayOfWeek) || (dayOfWeek =? 0)); [concrete_times |].
  split; [constructor | intros t []].
Qed.

(** The id of a slot, split behind the sauna. *)
Lemma freeSlot_id (loc sauna dateStr time : string) :
  a_id (freeSlot loc sauna dateStr time)
  = (loc ++ "-" ++ sauna) ++ ("-" ++ dateStr ++ "-" ++ time).
Proof.
  simpl a_id. rewrite (string_append_assoc loc ("-" ++ sauna)). reflexivity.
Qed.

Lemma slotsAt_NoDup (loc dateStr : string) (times : list string) :
  List.NoDup (LOCATION_SAUNAS loc) -> List.NoDup times ->
  List.NoDup (slotsAt loc dateStr times).
Proof.
  intros Hs Ht. unfold slotsAt. apply NoDup_flat_map; [exact Hs | |].
  - intros sauna _. apply NoDup_map_NoDup_ForallPairs; [| exact Ht].
    intros t t' _ _ E. exact (f_equal a_time E).
  - intros x y b _ _ Hx Hy.
    apply in_map_iff in Hx. destruct Hx as (t & <- & _).
    apply in_map_iff in Hy. destruct Hy as (t' & E & _).
    exact (eq_sym (f_equal a_sauna E)).
Qed.

Lemma slotsAt_fields (loc dateStr : string) (times : list string)
    (a : Aufguss) :
  In a (slotsAt loc dateStr times) ->
  a = freeSlot loc (a_sauna a) dateStr (a_time a) /\
  In (a_sauna a) (LOCATION_SAUNAS loc) /\ In (a_time a) times.
Proof.
  intros H. apply slotsAt_In in H.
  destruct H as (sauna & time & Hs & Ht & ->). auto.
Qed.

Lemma saunas_NoDup (i : nat) : List.NoDup (LOCATION_SAUNAS (location i)).
Proof.
  destruct i as [| [| [| i]]]; try concrete_NoDup.
  destruct i as [| i]; vm_compute; constructor.
Qed.

Section WindowIds.
Variable LocalTime : Z -> Z.
Variable UTC : Z -> Z.
Variable today : Z.

Abbreviation dateOf day := (isoDate (currentDateOf LocalTime UTC today day)).

Hypothesis dates_distinct :
  forall d1 d2, 0 <= d1 < 30 -> 0 <= d2 < 30 -> dateOf d1 = dateOf d2 ->
                d1 = d2.
Hypothesis dates_length :
  forall day, 0 <= day < 30 -> String.length (dateOf day) = 10%nat.

(** What a slot of day [day] looks like. *)
Lemma daySlots_fields (day : Z) (a : Aufguss) :
  In a (daySlots LocalTime UTC today day) ->
  exists i, (i < 3)%nat /\
    a = freeSlot (location i) (a_sauna a) (dateOf day) (a_time a) /\
    In (a_sauna a) (LOCATION_SAUNAS (location i)) /\
    String.length (a_time a) = 5%nat.
Proof.
  unfold daySlots. rewrite !in_app_iff. intros [H | [H | H]].
  - unfold fdsSlots in H. cbv zeta in H. apply slotsAt_fields in H.
    destruct H as (H1 & H2 & H3). exists 0%nat.
    split; [lia |]. split; [exact H1 |]. split; [exact H2 |].
    exact (proj2 (fdsTimes_ok _) _ H3).
  - unfold urachSlots in H. cbv zeta in H. apply slotsAt_fields in H.
    destruct H as (H1 & H2 & H3). exists 1%nat.
    split; [lia |]. split; [exact H1 |]. split; [exact H2 |].
    exact (proj2 (hourly_10_20_ok "30" (or_intror eq_refl)) _ H3).
  - unfold hswSlots in H. cbv zeta in H.
    destruct (hswOpen _ _ _); [| destruct H].
    apply slotsAt_fields in H.
    destruct H as (H1 & H2 & H3). exists 2%nat.
    split; [lia |]. split; [exact H1 |]. split; [exact H2 |].
    exact (proj2 (hourly_10_20_ok "00" (or_introl eq_refl)) _ H3).
Qed.

Lemma daySlots_NoDup (day : Z) :
  List.NoDup (daySlots LocalTime UTC today day).
Proof.
  assert (H0 : List.NoDup
                 (fdsSlots LocalTime UTC today day)).
  { unfold fdsSlots. cbv zeta.
    apply slotsAt_NoDup; [apply saunas_NoDup | apply fdsTimes_ok]. }
  assert (H1 : List.NoDup
                 (urachSlots LocalTime UTC
                    today day)).
  { unfold urachSlots. cbv zeta.
    apply slotsAt_NoDup; [apply saunas_NoDup |].
    exact (proj1 (hourly_10_20_ok "30" (or_intror eq_refl))). }
  assert (H2 : List.NoDup
                 (hswSlots LocalTime UTC today day)).
  { unfold hswSlots. cbv zeta. destruct (hswOpen _ _ _); [| constructor].
    apply slotsAt_NoDup; [apply saunas_NoDup |].
    exact (proj1 (hourly_10_20_ok "00" (or_introl eq_refl))). }
  assert (Hloc0 : forall a,
            In a (fdsSlots LocalTime UTC today day)
            -> a_location a = location 0).
  { intros a Ha. unfold fdsSlots in Ha. cbv zeta in Ha.
    apply slotsAt_fields in Ha. destruct Ha as (-> & _). reflexivity. }
  assert (Hloc1 : forall a,
            In a (urachSlots LocalTime UTC
                    today day)
            -> a_location a = location 1).
  { intros a Ha. unfold urachSlots in Ha. cbv zeta in Ha.
    apply slotsAt_fields in Ha. destruct Ha as (-> & _). reflexivity. }
  assert (Hloc2 : forall a,
            In a (hswSlots LocalTime UTC today day)
            -> a_location a = location 2).
  { intros a Ha. unfold hswSlots in Ha. cbv zeta in Ha.
    destruct (hswOpen _ _ _); [| destruct Ha].
    apply slotsAt_fields in Ha. destruct Ha as (-> & _). reflexivity. }
  unfold daySlots. apply List.NoDup_app; [exact H0 | |].
  - apply List.NoDup_app; [exact H1 | exact H2 |].
    intros a Ha Ha'. apply Hloc1 in Ha. apply Hloc2 in Ha'.
    rewrite Ha in Ha'. discriminate Ha'.
  - intros a Ha Ha'. apply Hloc0 in Ha. apply in_app_iff in Ha'.
    destruct Ha' as [Ha' | Ha'];
      [apply Hloc1 in Ha' | apply Hloc2 in Ha'];
      rewrite Ha in Ha'; discriminate Ha'.
Qed.

Lemma windowSlots_NoDup :
  List.NoDup (windowSlots LocalTime UTC today).
Proof.
  unfold windowSlots. apply NoDup_flat_map.
  - apply NoDup_ListNoDup, NoDup_seqZ.
  - intros day _. apply daySlots_NoDup.
  - intros d1 d2 a Hd1 Hd2 H1 H2.
    apply list_elem_of_In, elem_of_seqZ in Hd1.
    apply list_elem_of_In, elem_of_seqZ in Hd2.
    apply daySlots_fields in H1. destruct H1 as (i & _ & E1 & _).
    apply daySlots_fields in H2. destruct H2 as (j & _ & E2 & _).
    apply (f_equal a_date) in E1. apply (f_equal a_date) in E2.
    simpl in E1, E2. apply dates_distinct; [lia | lia | congruence].
Qed.

(** Location and sauna can be read off the front of an id. *)
Lemma prefix_inj (i j : nat) (s s' : string) :
  (i < 3)%nat -> (j < 3)%nat ->
  In s (LOCATION_SAUNAS (location i)) ->
  In s' (LOCATION_SAUNAS (location j)) ->
  location i ++ "-" ++ s = location j ++ "-" ++ s' ->
  i = j /\ s = s'.
Proof.
  intros Hi Hj Hs Hs' E.
  destruct i as [| [| [| i]]]; [| | | lia];
    destruct j as [| [| [| j]]]; try lia;
    vm_compute in Hs, Hs';
    repeat match goal with
           | H : _ \/ _ |- _ => destruct H as [H | H]
           | H : False |- _ => destruct H
           end;
    subst; first [split; reflexivity | vm_compute in E; discriminate E].
Qed.

Lemma window_id_inj (a a' : Aufguss) :
  In a (windowSlots LocalTime UTC today) ->
  In a' (windowSlots LocalTime UTC today) ->
  a_id a = a_id a' -> a = a'.
Proof.
  unfold windowSlots. rewrite !in_flat_map.
  intros (d & Hd & Ha) (d' & Hd' & Ha') E.
  apply list_elem_of_In, elem_of_seqZ in Hd.
  apply list_elem_of_In, elem_of_seqZ in Hd'.
  apply daySlots_fields in Ha. destruct Ha as (i & Hi & Ea & Hs & Ht).
  apply daySlots_fields in Ha'. destruct Ha' as (j & Hj & Ea' & Hs' & Ht').
  rewrite Ea, Ea', !freeSlot_id in E.
  apply append_suffix_inj in E.
  2:{ rewrite !string_length_append, !dates_length by lia.
      rewrite Ht, Ht'. reflexivity. }
  destruct E as [Epre Esuf].
  destruct (prefix_inj i j _ _ Hi Hj Hs Hs' Epre) as [-> Esauna].
  apply String.app_inj in Esuf.
  apply append_suffix_inj in Esuf.
  2:{ rewrite !string_length_append, Ht, Ht'. reflexivity. }
  destruct Esuf as [Edate Etime]. apply String.app_inj in Etime.
  rewrite Ea, Ea', Esauna, Edate, Etime. reflexivity.
Qed.

Lemma generated_ids_NoDup (now : Z) :
  List.NoDup (map a_id (generateInitialAufguesse LocalTime UTC today now)).
Proof.
  unfold generateInitialAufguesse. rewrite map_app.
  apply List.NoDup_app.
  - apply NoDup_map_NoDup_ForallPairs; [| apply windowSlots_NoDup].
    intros a a' Ha Ha'. apply window_id_inj; assumption.
  - simpl. constructor; [intros [] | constructor].
  - intros id Hid [Hid' | []]. subst id.
    apply in_map_iff in Hid. destruct Hid as (a & E & Ha).
    apply windowSlots_In in Ha.
    destruct Ha as (day & loc & sauna & time & _ & Hloc & ->).
    pose proof (freeSlot_not_test loc sauna (dateOf day) time Hloc) as Hn.
    unfold isTestSlot in Hn. rewrite E in Hn. discriminate Hn.
Qed.

End WindowIds.

Section GeneratedIds.
Variable offset : Z.
Variable today : Z.
Hypothesis window_years :
  forall day, 0 <= day < 30 ->
    0 <= YearFromTime (today + day * msPerDay) <= 9999.

Lemma currentDateOf_fixed (day : Z) :
  currentDateOf (fixedLocalTime offset) (fixedUTC offset) today day
  = today + day * msPerDay.
Proof. rewrite currentDateOf_eq. unfold fixedLocalTime, fixedUTC. lia. Qed.

(** X25. The slot ids of a freshly generated slot set are pairwise
    distinct, for a host at a fixed offset from UTC whose 30 window days
    lie in the years 0 to 9999.  This is the uniqueness of ids that the
    handlers rely on when they look a slot up by its id. *)
Theorem generated_ids_unique (now : Z) :
  List.NoDup
    (map a_id (generateInitialAufguesse (fixedLocalTime offset)
                 (fixedUTC offset) today now)).
Proof.
  apply generated_ids_NoDup.
  - intros d1 d2 H1 H2 E. rewrite !currentDateOf_fixed in E.
    apply isoDate_inj_day in E; [| apply window_years; assumption ..].
    rewrite !Day_shift in E. lia.
  - intros day H. rewrite currentDateOf_fixed.
    apply isoDate_length, window_years, H.
Qed.

End GeneratedIds.

Lemma generated_ids_unique_witness :
  (forall day, 0 <= day < 30 ->
     0 <= YearFromTime (noon_2025_08_31 + day * msPerDay) <= 9999) /\
  List.NoDup
    (map a_id (generateInitialAufguesse (fixedLocalTime cest)
                 (fixedUTC cest) noon_2025_08_31 noon_2025_08_31)).
Proof.
  assert (H : forall day, 0 <= day < 30 ->
            0 <= YearFromTime (noon_2025_08_31 + day * msPerDay) <= 9999).
  { intros day Hday.
    assert (Hall : forallb
              (fun d => (0 <=? YearFromTime (noon_2025_08_31 + d * msPerDay))
                        && (YearFromTime (noon_2025_08_31 + d * msPerDay)
                            <=? 9999))
              (seqZ 0 30) = true) by (vm_compute; reflexivity).
    rewrite forallb_forall in Hall.
    specialize (Hall day).
    rewrite andb_true_iff, !Z.leb_le in Hall. apply Hall.
    apply list_elem_of_In, elem_of_seqZ. lia. }
  split; [exact H |].
  exact (generated_ids_unique cest noon_2025_08_31 H noon_2025_08_31).
Defined.

(* ================================================================== *)
(** * The slot list under claims and cancellations                      *)
(* ================================================================== *)

Import Planner.

Section SlotRuns.
Variable dateTimeValue : string -> option Z.

Lemma runSlotOp_keys (st : AppState) (op : SlotOp) :
  map slotKey (aufguesse (runSlotOp dateTimeValue st op))
  = map slotKey (aufguesse st).
Proof.
  destruct op as [cu aufgussId type | confirmed now cu aufgussId];
    simpl runSlotOp.
  - simpl. rewrite map_map. apply map_ext. intros a.
    destruct (String.eqb (a_id a) aufgussId); reflexivity.
  - unfold handleCancelAufguss.
    destruct (List.find _ (aufguesse st)) as [a |]; [| reflexivity].
    destruct (truthyId (aufgussmeisterId a)); [| reflexivity].
    destruct confirmed; [| reflexivity].
    simpl. rewrite map_map. apply map_ext. intros b.
    destruct (String.eqb (a_id b) aufgussId); reflexivity.
Qed.

Lemma runSlotOps_keys (ops : list SlotOp) (st : AppState) :
  map slotKey (aufguesse (runSlotOps dateTimeValue st ops))
  = map slotKey (aufguesse st).
Proof.
  unfold runSlotOps. revert st.
  induction ops as [| op ops IH]; intros st; [reflexivity |].
  simpl. rewrite IH. apply runSlotOp_keys.
Qed.

Lemma keys_ids (l : list Aufguss) :
  map a_id l = map (fun k => fst (fst (fst (fst k)))) (map slotKey l).
Proof. rewrite map_map. reflexivity. Qed.

(** X26. Whatever sequence of claims and cancellations is run, by whatever
    users and with whatever answers of the dialog, the slot list keeps its
    slots in their order with their ids, locations, saunas, dates and
    times: only owners and types change.  So a slot list that starts with
    unique ids keeps them, and so does the list that starts as a freshly
    generated set (for a host at a fixed offset whose window lies in the
    years 0 to 9999). *)
Theorem slot_list_stable (ops : list SlotOp) (st : AppState) :
  map slotKey (aufguesse (runSlotOps dateTimeValue st ops))
  = map slotKey (aufguesse st) /\
  List.length (aufguesse (runSlotOps dateTimeValue st ops))
  = List.length (aufguesse st) /\
  (List.NoDup (map a_id (aufguesse st)) ->
   List.NoDup (map a_id (aufguesse (runSlotOps dateTimeValue st ops)))) /\
  (forall offset today now,
     (forall day, 0 <= day < 30 ->
        0 <= YearFromTime (today + day * msPerDay) <= 9999) ->
     aufguesse st
     = generateInitialAufguesse (fixedLocalTime offset) (fixedUTC offset)
         today now ->
     List.NoDup (map a_id (aufguesse (runSlotOps dateTimeValue st ops)))).
Proof.
  pose proof (runSlotOps_keys ops st) as Hkeys.
  assert (Hids : map a_id (aufguesse (runSlotOps dateTimeValue st ops))
                 = map a_id (aufguesse st))
    by (rewrite !keys_ids, Hkeys; reflexivity).
  split; [exact Hkeys |]. split.
  - rewrite <- (length_map slotKey), Hkeys. apply length_map.
  - split.
    + intros H. rewrite Hids. exact H.
    + intros offset today now Hyears Hgen. rewrite Hids, Hgen.
      apply generated_ids_NoDup.
      * intros d1 d2 H1 H2 E. rewrite !currentDateOf_fixed in E.
        apply isoDate_inj_day in E; [| apply Hyears; assumption ..].
        rewrite !Day_shift in E. lia.
      * intros day H. rewrite currentDateOf_fixed.
        apply isoDate_length, Hyears, H.
Qed.

End SlotRuns.

Lemma slot_list_stable_witness :
  List.NoDup (map a_id (aufguesse sampleState)) /\
  List.NoDup
    (map a_id
       (aufguesse
          (runSlotOps (fun _ => None) sampleState
             [Claim sampleAnna (a_id sampleSlot2) "Birke";
              Cancel true 0 sampleMax (a_id sampleSlot2);
              Claim sampleMax (a_id sampleSlot1) "Salz"]))).
Proof.
  assert (H : List.NoDup (map a_id (aufguesse sampleState))).
  { simpl. repeat constructor; simpl; intros H;
      repeat (destruct H as [H | H]; [discriminate H |]); exact H. }
  split; [exact H |].
  exact (proj1 (proj2 (proj2 (slot_list_stable (fun _ => None)
                                [Claim sampleAnna (a_id sampleSlot2) "Birke";
                                 Cancel true 0 sampleMax (a_id sampleSlot2);
                                 Claim sampleMax (a_id sampleSlot1) "Salz"]
                                sampleState))) H).
Defined.
